(** * Shallow embedding of the PyDAQmx2 acquisition applications

    Two PySide6 applications of the repository are modelled here:
    - [src/PyDAQmx2/psydaqgd.py] ([DAQApp] with a finite iteration count,
      CSV file, SQLite archive, PNG export and Google Drive upload), in
      module [Psydaqgd];
    - [src/PyDAQmx2/pysideaoai.py] ([DAQApp] running until the user stops it,
      CSV file only), in module [Pysideaoai].

    The window object is a record [app]; every method is a computation in a
    small state and exception monad [M].  The vendor driver (PyDAQmx), the
    Qt timer, numpy, sqlite3 and the Drive client are outside the repository:
    their observable effects are recorded in the state (a trace of driver
    calls, a file store, the SQLite tables, the uploaded files) and their
    outcomes (a failing read, a failing upload, the clock) come from an
    environment record [fire_env] supplied with every event.  Messages
    written to the log pane and the plot widget are not modelled.

    The type of samples (IEEE doubles in the source) is a parameter [V];
    Python's [round(x, 3)] and numpy's ["%.3f"] formatting are the
    parameters [round3] and [fmt3].  Module [Fixed3] gives them concrete
    definitions on exact rationals, and module [SineTable] gives the output
    table of [generate_output_points] over the real numbers. *)

From Stdlib Require Import ZArith QArith Reals Qreals Lra Lia.
From stdpp Require Import base list gmap strings.
From Stdlib Require Import Ascii.

Local Open Scope nat_scope.

(** String concatenation (Python's [+] / f-strings on [str]). *)
Local Notation "a +s+ b" := (String.append a b) (at level 60, right associativity).

(** ** Calendar time and [strftime] *)

Record datetime := mk_datetime {
  dt_year : nat; dt_month : nat; dt_day : nat;
  dt_hour : nat; dt_minute : nat; dt_second : nat }.

Definition digit_char (d : nat) : Ascii.ascii := Ascii.ascii_of_nat (48 + d).

(** The [width] low decimal digits of [n], zero padded ([%02d], [%04d]). *)
Fixpoint pad_digits (width n : nat) : string :=
  match width with
  | 0 => ""
  | S w => pad_digits w (n / 10) +s+ String (digit_char (n mod 10)) EmptyString
  end.

(** [now.strftime("%Y%m%d_%H%M%S")], used in file names. *)
Definition strftime_compact (d : datetime) : string :=
  pad_digits 4 (dt_year d) +s+ pad_digits 2 (dt_month d) +s+ pad_digits 2 (dt_day d)
  +s+ "_" +s+ pad_digits 2 (dt_hour d) +s+ pad_digits 2 (dt_minute d)
  +s+ pad_digits 2 (dt_second d).

(** [now.strftime("%Y-%m-%d %H:%M:%S")], stored in the database. *)
Definition strftime_db (d : datetime) : string :=
  pad_digits 4 (dt_year d) +s+ "-" +s+ pad_digits 2 (dt_month d) +s+ "-"
  +s+ pad_digits 2 (dt_day d) +s+ " " +s+ pad_digits 2 (dt_hour d) +s+ ":"
  +s+ pad_digits 2 (dt_minute d) +s+ ":" +s+ pad_digits 2 (dt_second d).

(** ** Driver calls, exceptions, environment *)

Inductive task_kind := AO | AI.

(** Calls made on PyDAQmx [Task] objects, in the order they are issued.
    [CallCreateStart k] stands for [ao(...)] / [ai(...)]:
    [Task()], [Create..VoltageChan], [StartTask]. *)
Inductive hw_call (V : Type) :=
  | CallCreateStart (k : task_kind)
  | CallWrite (v : V)              (* aotask.WriteAnalogF64 *)
  | CallRead                       (* aitask.ReadAnalogF64 *)
  | CallStopTask (k : task_kind)
  | CallClearTask (k : task_kind).
Arguments CallCreateStart {V} k.
Arguments CallWrite {V} v.
Arguments CallRead {V}.
Arguments CallStopTask {V} k.
Arguments CallClearTask {V} k.

(** Python exceptions that the modelled code raises or lets through. *)
Inductive exn :=
  | ValueError        (* bad input fields, np.column_stack on ragged data *)
  | IndexError        (* self.aopoints[self.current_index] out of range *)
  | AttributeError    (* a method called on a task that is None *)
  | HardwareFault     (* DAQmx error raised by WriteAnalogF64/ReadAnalogF64 *)
  | SinkError         (* np.savetxt, sqlite3 or the PNG exporter failing *)
  | UploadError.      (* gDrive() or upload_to_folder raising *)

(** Outcome of [gDrive.upload_to_folder]: it catches [HttpError] itself
    (prints it and returns None); any other exception propagates. *)
Inductive upload_outcome := UploadOk | UploadHttpError | UploadRaises.

(** What the outside world answers during one timer event or button click. *)
Record fire_env (V : Type) := mk_env {
  fe_write_ok : bool;            (* WriteAnalogF64 returns normally *)
  fe_read : option V;            (* value read by ReadAnalogF64, None: fault *)
  fe_elapsed : V;                (* time.time() - self.start_time *)
  fe_csv_now : datetime;         (* datetime.now() in save_data_to_file *)
  fe_csv_ok : bool;              (* np.savetxt succeeds *)
  fe_db_now : datetime;          (* datetime.now() in save_data_to_database *)
  fe_db_ok : bool;               (* sqlite3.connect succeeds *)
  fe_db_random : nat -> option Z;(* rowid found by SQLite's random search in
                                    the k-th INSERT, None: it gives up *)
  fe_png_now : datetime;         (* datetime.now() in save_plot_as_png *)
  fe_png_ok : bool;              (* the image exporter succeeds *)
  fe_png_upload : upload_outcome;(* upload of the PNG *)
  fe_csv_upload : upload_outcome;(* upload of the CSV *)
  fe_token_refresh : bool }.     (* gDrive() rewrites token.json *)
Arguments mk_env {V}.
Arguments fe_write_ok {V}. Arguments fe_read {V}. Arguments fe_elapsed {V}.
Arguments fe_csv_now {V}. Arguments fe_csv_ok {V}. Arguments fe_db_now {V}.
Arguments fe_db_ok {V}. Arguments fe_db_random {V}. Arguments fe_png_now {V}. Arguments fe_png_ok {V}.
Arguments fe_png_upload {V}. Arguments fe_csv_upload {V}.
Arguments fe_token_refresh {V}.

(** ** SQLite store *)

Record db_row (V : Type) := mk_row {
  row_id : Z; row_timestamp : string; row_time : V; row_ao : V; row_ai : V }.
Arguments mk_row {V}.
Arguments row_id {V}. Arguments row_timestamp {V}. Arguments row_time {V}.
Arguments row_ao {V}. Arguments row_ai {V}.

(** A table of [data_archive.db]: its columns (name and declared type, the
    type of a rowid alias carrying its [PRIMARY KEY AUTOINCREMENT] clause;
    keywords in upper case, names in lower case), its rows in insertion
    order, its [sqlite_sequence] entry (0 when it has none), and what its
    constraints (NOT NULL, UNIQUE, CHECK, typing of a STRICT table) let in:
    whether a row may follow the given rows. *)
Record sql_table (V : Type) := mk_table {
  tbl_columns : list (string * string);
  tbl_rows : list (db_row V);
  tbl_seq : Z;
  tbl_accepts : list (db_row V) -> db_row V -> bool }.
Arguments mk_table {V}.
Arguments tbl_columns {V}. Arguments tbl_rows {V}. Arguments tbl_seq {V}.
Arguments tbl_accepts {V}.

(** Columns of [CREATE TABLE IF NOT EXISTS acquisition_data (...)]. *)
Definition acquisition_data_columns : list (string * string) :=
  [("id", "INTEGER PRIMARY KEY AUTOINCREMENT"); ("timestamp", "TEXT");
   ("time", "REAL"); ("ao_voltage", "REAL"); ("ai_voltage", "REAL")].

(** A table without constraints on its rows (the primary key of the
    created table only holds the ids SQLite generates). *)
Definition accept_all {V} (rows : list (db_row V)) (r : db_row V) : bool := true.

Definition create_table_if_not_exists {V} (name : string)
    (cols : list (string * string)) (db : gmap string (sql_table V))
    : gmap string (sql_table V) :=
  match db !! name with
  | Some _ => db
  | None => <[name := mk_table cols [] 0%Z accept_all]> db
  end.

(** The largest rowid, [2^63 - 1]. *)
Definition rowid_limit : Z := (2 ^ 63 - 1)%Z.

(** The largest rowid of the rows, [None] for an empty table. *)
Definition max_rowid_step {V} (m : option Z) (r : db_row V) : option Z :=
  match m with
  | None => Some (row_id r)
  | Some x => Some (Z.max x (row_id r))
  end.

Definition last_rowid {V} (rows : list (db_row V)) : option Z :=
  fold_left max_rowid_step rows None.

Definition has_column (cols : list (string * string)) (c : string) : bool :=
  existsb (fun nd => String.eqb (fst nd) c) cols.

Definition is_autoincrement (cols : list (string * string)) : bool :=
  existsb (fun nd => String.eqb (snd nd) "INTEGER PRIMARY KEY AUTOINCREMENT") cols.

(** The rowid of a new row (SQLite's [OP_NewRowid]): one more than the
    largest rowid, 1 in an empty table.  With AUTOINCREMENT it is also more
    than the sequence, and SQLITE_FULL is raised when the largest rowid or
    the sequence is already [2^63 - 1].  Without it, a table whose largest
    rowid is [2^63 - 1] gets an unused rowid drawn at random in
    [1 .. 2^62] ([random]), or SQLITE_FULL when the search gives up. *)
Definition new_rowid {V} (autoinc : bool) (seq : Z) (rows : list (db_row V))
    (random : option Z) : option Z :=
  let base := match last_rowid rows with
              | None => Some 1%Z
              | Some r => if (r <? rowid_limit)%Z then Some (r + 1)%Z else None
              end in
  if autoinc then
    match base with
    | Some v => if (seq <? rowid_limit)%Z then Some (Z.max v (seq + 1)) else None
    | None => None
    end
  else
    match base with
    | Some v => Some v
    | None =>
        match random with
        | Some v =>
            if (0 <? v)%Z && (v <=? 2 ^ 62)%Z
               && negb (existsb (fun r => Z.eqb (row_id r) v) rows)
            then Some v else None
        | None => None
        end
    end.

(** The four columns named by the INSERT statement. *)
Definition insert_columns : list string := ["timestamp"; "time"; "ao_voltage"; "ai_voltage"].

(** [INSERT INTO name (timestamp, time, ao_voltage, ai_voltage) VALUES ...];
    [None] when SQLite raises: a missing table or column
    (OperationalError), no rowid left (SQLITE_FULL), a constraint of the
    table refusing the row (IntegrityError).  AUTOINCREMENT stores the new
    rowid as the sequence. *)
Definition insert_row {V} (name ts : string) (random : option Z) (t ao ai : V)
    (db : gmap string (sql_table V)) : option (gmap string (sql_table V)) :=
  match db !! name with
  | None => None
  | Some tb =>
      if negb (forallb (has_column (tbl_columns tb)) insert_columns) then None else
      let autoinc := is_autoincrement (tbl_columns tb) in
      match new_rowid autoinc (tbl_seq tb) (tbl_rows tb) random with
      | None => None
      | Some id =>
          let r := mk_row id ts t ao ai in
          if tbl_accepts tb (tbl_rows tb) r then
            Some (<[name := mk_table (tbl_columns tb) (tbl_rows tb ++ [r])
                              (if autoinc then id else tbl_seq tb) (tbl_accepts tb)]> db)
          else None
      end
  end.

(** Python's [zip(a, b, c)]: stops at the shortest list. *)
Fixpoint zip3 {A B C} (a : list A) (b : list B) (c : list C) : list (A * B * C) :=
  match a, b, c with
  | x :: a', y :: b', z :: c' => (x, y, z) :: zip3 a' b' c'
  | _, _, _ => []
  end.

(** ** Application state *)

(** The attributes of [DAQApp] that the acquisition uses, plus the world
    the program acts on.  [iteration] and [loop_count] exist only in
    psydaqgd, [acquiring] only in pysideaoai. *)
Record app (V : Type) := mk_app {
  aotask : bool;                 (* self.aotask is not None *)
  aitask : bool;                 (* self.aitask is not None *)
  aopoints : list V;
  current_index : nat;
  iteration : nat;
  loop_count : nat;
  aout : list V;
  deltat : list V;
  ain : list V;
  timer_active : bool;           (* the QTimer is running *)
  acquiring : bool;
  calls : list (hw_call V);      (* driver calls issued so far *)
  files : gmap string (list string);     (* text files, as lines *)
  database : gmap string (sql_table V);  (* PyDAQmx2/testdata/data_archive.db *)
  uploads : list (string * string) }.    (* (file, folder id) on Drive *)
Arguments mk_app {V}.
Arguments aotask {V}. Arguments aitask {V}. Arguments aopoints {V}.
Arguments current_index {V}. Arguments iteration {V}. Arguments loop_count {V}.
Arguments aout {V}. Arguments deltat {V}. Arguments ain {V}.
Arguments timer_active {V}. Arguments acquiring {V}. Arguments calls {V}.
Arguments files {V}. Arguments database {V}. Arguments uploads {V}.

Section Program.
Context {V : Type}.

Definition set_aotask (b : bool) (s : app V) : app V :=
  mk_app b (aitask s) (aopoints s) (current_index s) (iteration s) (loop_count s)
    (aout s) (deltat s) (ain s) (timer_active s) (acquiring s) (calls s)
    (files s) (database s) (uploads s).
Definition set_aitask (b : bool) (s : app V) : app V :=
  mk_app (aotask s) b (aopoints s) (current_index s) (iteration s) (loop_count s)
    (aout s) (deltat s) (ain s) (timer_active s) (acquiring s) (calls s)
    (files s) (database s) (uploads s).
Definition set_current_index (i : nat) (s : app V) : app V :=
  mk_app (aotask s) (aitask s) (aopoints s) i (iteration s) (loop_count s)
    (aout s) (deltat s) (ain s) (timer_active s) (acquiring s) (calls s)
    (files s) (database s) (uploads s).
Definition set_iteration (i : nat) (s : app V) : app V :=
  mk_app (aotask s) (aitask s) (aopoints s) (current_index s) i (loop_count s)
    (aout s) (deltat s) (ain s) (timer_active s) (acquiring s) (calls s)
    (files s) (database s) (uploads s).
Definition set_loop_count (n : nat) (s : app V) : app V :=
  mk_app (aotask s) (aitask s) (aopoints s) (current_index s) (iteration s) n
    (aout s) (deltat s) (ain s) (timer_active s) (acquiring s) (calls s)
    (files s) (database s) (uploads s).
Definition set_aout (l : list V) (s : app V) : app V :=
  mk_app (aotask s) (aitask s) (aopoints s) (current_index s) (iteration s)
    (loop_count s) l (deltat s) (ain s) (timer_active s) (acquiring s) (calls s)
    (files s) (database s) (uploads s).
Definition set_deltat (l : list V) (s : app V) : app V :=
  mk_app (aotask s) (aitask s) (aopoints s) (current_index s) (iteration s)
    (loop_count s) (aout s) l (ain s) (timer_active s) (acquiring s) (calls s)
    (files s) (database s) (uploads s).
Definition set_ain (l : list V) (s : app V) : app V :=
  mk_app (aotask s) (aitask s) (aopoints s) (current_index s) (iteration s)
    (loop_count s) (aout s) (deltat s) l (timer_active s) (acquiring s) (calls s)
    (files s) (database s) (uploads s).
Definition set_timer_active (b : bool) (s : app V) : app V :=
  mk_app (aotask s) (aitask s) (aopoints s) (current_index s) (iteration s)
    (loop_count s) (aout s) (deltat s) (ain s) b (acquiring s) (calls s)
    (files s) (database s) (uploads s).
Definition set_acquiring (b : bool) (s : app V) : app V :=
  mk_app (aotask s) (aitask s) (aopoints s) (current_index s) (iteration s)
    (loop_count s) (aout s) (deltat s) (ain s) (timer_active s) b (calls s)
    (files s) (database s) (uploads s).
Definition set_calls (c : list (hw_call V)) (s : app V) : app V :=
  mk_app (aotask s) (aitask s) (aopoints s) (current_index s) (iteration s)
    (loop_count s) (aout s) (deltat s) (ain s) (timer_active s) (acquiring s) c
    (files s) (database s) (uploads s).
Definition set_files (f : gmap string (list string)) (s : app V) : app V :=
  mk_app (aotask s) (aitask s) (aopoints s) (current_index s) (iteration s)
    (loop_count s) (aout s) (deltat s) (ain s) (timer_active s) (acquiring s)
    (calls s) f (database s) (uploads s).
Definition set_database (d : gmap string (sql_table V)) (s : app V) : app V :=
  mk_app (aotask s) (aitask s) (aopoints s) (current_index s) (iteration s)
    (loop_count s) (aout s) (deltat s) (ain s) (timer_active s) (acquiring s)
    (calls s) (files s) d (uploads s).
Definition set_uploads (u : list (string * string)) (s : app V) : app V :=
  mk_app (aotask s) (aitask s) (aopoints s) (current_index s) (iteration s)
    (loop_count s) (aout s) (deltat s) (ain s) (timer_active s) (acquiring s)
    (calls s) (files s) (database s) u.

(** *** The state and exception monad *)

Inductive res (A : Type) := Ok (a : A) | Err (x : exn).

Definition M (A : Type) : Type := app V -> app V * res A.

Definition ret {A} (a : A) : M A := fun s => (s, Ok _ a).
Definition bind {A B} (m : M A) (k : A -> M B) : M B :=
  fun s => match m s with
           | (s', Ok _ a) => k a s'
           | (s', Err _ x) => (s', Err _ x)
           end.
Definition raise {A} (x : exn) : M A := fun s => (s, Err _ x).
(** [try: m except Exception as x: h x] *)
Definition try_except {A} (m : M A) (h : exn -> M A) : M A :=
  fun s => match m s with
           | (s', Err _ x) => h x s'
           | r => r
           end.
Definition gets {A} (f : app V -> A) : M A := fun s => (s, Ok _ (f s)).
Definition modify (f : app V -> app V) : M unit := fun s => (f s, Ok _ tt).
Definition get : M (app V) := fun s => (s, Ok _ s).


End Program.

Arguments Ok {A} a. Arguments Err {A} x.

Local Notation "'let*' x ':=' m 'in' k" := (bind m (fun x => k))
  (at level 200, x name, m at level 100, k at level 200).
Local Notation "m ;; k" := (bind m (fun _ => k)) (at level 100, right associativity).

Section Primitives.
Context {V : Type}.
Local Abbreviation M := (@M V).

(** *** Driver calls *)

Definition hw (c : hw_call V) : M unit :=
  modify (fun s => set_calls (calls s ++ [c]) s).

(** [self.aotask.WriteAnalogF64(1, 1, 5.0, ..., odata, None, None)] *)
Definition write_analog (e : fire_env V) (v : V) : M unit :=
  let* bound := gets aotask in
  if bound then
    hw (CallWrite v);;
    (if fe_write_ok e then ret tt else raise HardwareFault)
  else raise AttributeError.

(** [self.aitask.ReadAnalogF64(1, 5.0, ..., self.idata, 1, ...)]; the value
    returned is [self.idata[0]] afterwards. *)
Definition read_analog (e : fire_env V) : M V :=
  let* bound := gets aitask in
  if bound then
    hw CallRead;;
    (match fe_read e with Some r => ret r | None => raise HardwareFault end)
  else raise AttributeError.

(** [task.StopTask(); task.ClearTask()] *)
Definition release_task (k : task_kind) : M unit :=
  hw (CallStopTask k);; hw (CallClearTask k).

Definition timer_stop : M unit := modify (set_timer_active false).

Definition append_aout (v : V) : M unit := modify (fun s => set_aout (aout s ++ [v]) s).
Definition append_deltat (v : V) : M unit := modify (fun s => set_deltat (deltat s ++ [v]) s).
Definition append_ain (v : V) : M unit := modify (fun s => set_ain (ain s ++ [v]) s).

(** [if self.current_index >= len(self.aopoints): self.current_index = 0]
    followed by [self.aopoints[self.current_index]]. *)
Definition next_output_point : M V :=
  let* s := get in
  (if length (aopoints s) <=? current_index s
   then modify (set_current_index 0) else ret tt);;
  let* i := gets current_index in
  let* pts := gets aopoints in
  match pts !! i with Some v => ret v | None => raise IndexError end.

(** *** File sink *)

Variable fmt3 : V -> string.   (* numpy's "%.3f" *)
Variable round3 : V -> V.      (* Python's round(x, 3) *)

Definition csv_header : string := "Time (s), AO (V), AI (V)".

(** One line of [np.savetxt(..., delimiter=",", fmt="%.3f")]. *)
Definition csv_line (r : V * V * V) : string :=
  let '(t, o, i) := r in fmt3 t +s+ "," +s+ fmt3 o +s+ "," +s+ fmt3 i.

(** The lines of the file: [header] (with [comments=""]) and one per row. *)
Definition savetxt_lines (rows : list (V * V * V)) : list string :=
  csv_header :: map csv_line rows.

(** [np.column_stack((a, b, c))] on three 1-d sequences. *)
Definition column_stack (a b c : list V) : M (list (V * V * V)) :=
  if (length a =? length b) && (length b =? length c)
  then ret (zip3 a b c) else raise ValueError.

(** [np.savetxt(filename, data, ...)]: opens the file for writing
    (truncating it) and writes every line; failing to open writes nothing. *)
Definition savetxt (ok : bool) (filename : string) (rows : list (V * V * V)) : M unit :=
  if ok then modify (fun s => set_files (<[filename := savetxt_lines rows]> (files s)) s)
  else raise SinkError.

(** *** Remote sink *)

Definition drive_folder : string := "1TBQsJ8-182ql2_p4eoHABn0vlgHJ7D6v".

(** [gDrive()]: may rewrite [token.json] after (re)authentication. *)
Definition gDrive_init (e : fire_env V) : M unit :=
  if fe_token_refresh e
  then modify (fun s => set_files (<["token.json" := ["<oauth token>"]]> (files s)) s)
  else ret tt.

(** [gDrive.upload_to_folder(fn, folder_id)]: [MediaFileUpload(fn)] reads
    the file (missing file: the error propagates); [HttpError] is caught. *)
Definition upload_to_folder (o : upload_outcome) (fn folder : string) : M unit :=
  let* s := get in
  match files s !! fn with
  | None => raise UploadError
  | Some _ =>
      match o with
      | UploadOk => modify (fun s => set_uploads (uploads s ++ [(fn, folder)]) s)
      | UploadHttpError => ret tt
      | UploadRaises => raise UploadError
      end
  end.

(** [DAQApp.gd(fn, foid)]: the except clause logs and re-raises. *)
Definition gd (e : fire_env V) (o : upload_outcome) (fn foid : string) : M unit :=
  gDrive_init e;; upload_to_folder o fn foid.

End Primitives.

(** ** [src/PyDAQmx2/psydaqgd.py]: finite acquisition *)

Module Psydaqgd.
Section P.
Context {V : Type} (fmt3 : V -> string) (round3 : V -> V).
Local Abbreviation M := (@M V).

Definition db_table : string := "acquisition_data".

(** The loop of [save_data_to_database] over [zip(deltat, aout, ain)];
    [random k] serves the [k]-th INSERT. *)
Fixpoint insert_rows (ts : string) (random : nat -> option Z) (rows : list (V * V * V))
    (db : gmap string (sql_table V)) : option (gmap string (sql_table V)) :=
  match rows with
  | [] => Some db
  | (t, o, i) :: rows' =>
      match insert_row db_table ts (random 0) (round3 t) (round3 o) (round3 i) db with
      | None => None
      | Some db' => insert_rows ts (fun k => random (S k)) rows' db'
      end
  end.

(** [DAQApp.save_data_to_database].  The sqlite3 module runs the CREATE
    TABLE statement outside a transaction, so a created table stays; the
    INSERTs open a transaction that only [conn.commit()] makes durable, so
    a failing INSERT leaves none of the rows.  A failing [sqlite3.connect]
    leaves the archive unchanged; the except clause logs and re-raises. *)
Definition save_data_to_database (e : fire_env V) : M unit :=
  if negb (fe_db_ok e) then raise SinkError else
  let* s := get in
  let ts := strftime_db (fe_db_now e) in
  let db0 := create_table_if_not_exists db_table acquisition_data_columns (database s) in
  modify (set_database db0);;
  match insert_rows ts (fe_db_random e) (zip3 (deltat s) (aout s) (ain s)) db0 with
  | None => raise SinkError
  | Some db1 => modify (set_database db1)
  end.

Definition csv_filename (d : datetime) : string :=
  "PyDAQmx2/testdata/data_" +s+ strftime_compact d +s+ ".csv".

(** [DAQApp.save_data_to_file]: write the CSV, archive to SQLite, return
    the file name. *)
Definition save_data_to_file (e : fire_env V) : M string :=
  let filename := csv_filename (fe_csv_now e) in
  let* s := get in
  let* data := column_stack (deltat s) (aout s) (ain s) in
  savetxt fmt3 (fe_csv_ok e) filename data;;
  save_data_to_database e;;
  ret filename.

Definition png_filename (d : datetime) : string :=
  "PyDAQmx2/testdata/plot_" +s+ strftime_compact d +s+ ".png".

(** [DAQApp.save_plot_as_png]: export the plot, then upload it. *)
Definition save_plot_as_png (e : fire_env V) : M unit :=
  let filename := png_filename (fe_png_now e) in
  (if fe_png_ok e
   then modify (fun s => set_files (<[filename := ["<png image>"]]> (files s)) s)
   else raise SinkError);;
  gd e (fe_png_upload e) filename drive_folder.

(** [DAQApp.run_acquisition]: a new QTimer, started with a 20 ms period. *)
Definition run_acquisition (n : nat) : M unit :=
  modify (set_current_index 0);;
  modify (set_loop_count n);;
  modify (set_iteration 0);;
  modify (set_timer_active true).

(** [DAQApp.start_acquisition]; the channel fields are given stripped and
    [loop_count_text] as the result of [int(...)] ([None]: ValueError).
    The outer except clause logs and re-raises. *)
Definition start_acquisition (ao_channel ai_channel : string)
    (loop_count_text : option Z) : M unit :=
  let* a := gets aotask in
  (if a then release_task AO;; modify (set_aotask false) else ret tt);;
  let* b := gets aitask in
  (if b then release_task AI;; modify (set_aitask false) else ret tt);;
  (if String.eqb ao_channel "" || String.eqb ai_channel ""
   then raise ValueError else ret tt);;
  let* loop_count :=
    match loop_count_text with
    | None => raise ValueError
    | Some n => if (n <=? 0)%Z then raise ValueError else ret n
    end in
  hw (CallCreateStart AO);; modify (set_aotask true);;
  hw (CallCreateStart AI);; modify (set_aitask true);;
  modify (set_current_index 0);;
  modify (set_deltat []);;
  modify (set_ain []);;
  modify (set_aout []);;
  run_acquisition (Z.to_nat loop_count).

(** The body of the try block of [DAQApp.perform_iteration]. *)
Definition perform_iteration_body (e : fire_env V) : M unit :=
  let* s := get in
  if loop_count s <=? iteration s then
    timer_stop;;
    let* fn := save_data_to_file e in
    save_plot_as_png e;;
    gd e (fe_csv_upload e) fn drive_folder
  else
    let* output_voltage := next_output_point in
    append_aout output_voltage;;
    write_analog e output_voltage;;
    let* r := read_analog e in
    append_deltat (fe_elapsed e);;
    append_ain r;;
    modify (fun s => set_current_index (S (current_index s)) s);;
    modify (fun s => set_iteration (S (iteration s)) s).

(** [DAQApp.perform_iteration]: on any exception, stop the timer and
    re-raise. *)
Definition perform_iteration (e : fire_env V) : M unit :=
  try_except (perform_iteration_body e) (fun x => timer_stop;; raise x).

(** One timeout of the QTimer: the slot runs only while the timer is active. *)
Definition fire (e : fire_env V) : M unit :=
  let* on := gets timer_active in
  if on then perform_iteration e else ret tt.

End P.

(** Successive timer events; an exception escaping a slot is reported by Qt
    and the event loop goes on, so every event is processed. *)
Fixpoint fire_all {V} (fmt3 : V -> string) (round3 : V -> V)
    (es : list (fire_env V)) (s : app V) : app V * list (res unit) :=
  match es with
  | [] => (s, [])
  | e :: es' =>
      let '(s1, r) := fire fmt3 round3 e s in
      let '(s2, rs) := fire_all fmt3 round3 es' s1 in
      (s2, r :: rs)
  end.

(** What the user and the timer can do: press Start with the given input
    fields, or let the timer time out. *)
Inductive ui_event (V : Type) :=
  | EvStart (ao_channel ai_channel : string) (loop_count_text : option Z)
  | EvTimeout (e : fire_env V).
Arguments EvStart {V}. Arguments EvTimeout {V}.

Definition handle {V} (fmt3 : V -> string) (round3 : V -> V) (ev : ui_event V)
    (s : app V) : app V :=
  match ev with
  | EvStart ao ai n => fst (start_acquisition ao ai n s)
  | EvTimeout e => fst (fire fmt3 round3 e s)
  end.

Fixpoint run_events {V} (fmt3 : V -> string) (round3 : V -> V)
    (evs : list (ui_event V)) (s : app V) : app V :=
  match evs with
  | [] => s
  | ev :: evs' => run_events fmt3 round3 evs' (handle fmt3 round3 ev s)
  end.

End Psydaqgd.

(** ** [src/PyDAQmx2/pysideaoai.py]: acquisition until the user stops it *)

Module Pysideaoai.
Section P.
Context {V : Type} (fmt3 : V -> string).
Local Abbreviation M := (@M V).

Definition csv_filename (d : datetime) : string :=
  "testdata/data_" +s+ strftime_compact d +s+ ".csv".

(** [DAQApp.save_data_to_file] *)
Definition save_data_to_file (e : fire_env V) : M unit :=
  let filename := csv_filename (fe_csv_now e) in
  let* s := get in
  let* data := column_stack (deltat s) (aout s) (ain s) in
  savetxt fmt3 (fe_csv_ok e) filename data.

(** [DAQApp.start_acquisition]: empty channel fields are logged and the
    method returns. *)
Definition start_acquisition (ao_channel ai_channel : string) : M unit :=
  if String.eqb ao_channel "" || String.eqb ai_channel "" then ret tt else
  hw (CallCreateStart AO);; modify (set_aotask true);;
  hw (CallCreateStart AI);; modify (set_aitask true);;
  modify (set_current_index 0);;
  modify (set_deltat []);;
  modify (set_ain []);;
  modify (set_aout []);;
  modify (set_acquiring true);;
  modify (set_timer_active true).

(** [DAQApp.stop_acquisition] *)
Definition stop_acquisition (e : fire_env V) : M unit :=
  timer_stop;;
  let* a := gets aotask in
  (if a then release_task AO else ret tt);;
  let* b := gets aitask in
  (if b then release_task AI else ret tt);;
  modify (set_acquiring false);;
  save_data_to_file e.

(** [DAQApp.toggle_acquisition], the Start/Stop button. *)
Definition toggle_acquisition (ao_channel ai_channel : string) (e : fire_env V) : M unit :=
  let* acq := gets acquiring in
  if acq then stop_acquisition e else start_acquisition ao_channel ai_channel.

(** [DAQApp.update_plot], connected to the timer. *)
Definition update_plot (e : fire_env V) : M unit :=
  let* output_voltage := next_output_point in
  append_aout output_voltage;;
  write_analog e output_voltage;;
  let* r := read_analog e in
  append_deltat (fe_elapsed e);;
  append_ain r;;
  modify (fun s => set_current_index (S (current_index s)) s).

Definition fire (e : fire_env V) : M unit :=
  let* on := gets timer_active in
  if on then update_plot e else ret tt.

End P.

(** The Start/Stop button and the timer. *)
Inductive ui_event (V : Type) :=
  | EvToggle (ao_channel ai_channel : string) (e : fire_env V)
  | EvTimeout (e : fire_env V).
Arguments EvToggle {V}. Arguments EvTimeout {V}.

Definition handle {V} (fmt3 : V -> string) (ev : ui_event V) (s : app V) : app V :=
  match ev with
  | EvToggle ao ai e => fst (toggle_acquisition fmt3 ao ai e s)
  | EvTimeout e => fst (fire e s)
  end.

Fixpoint run_events {V} (fmt3 : V -> string) (evs : list (ui_event V))
    (s : app V) : app V :=
  match evs with
  | [] => s
  | ev :: evs' => run_events fmt3 evs' (handle fmt3 ev s)
  end.

End Pysideaoai.

(** The state right after [DAQApp.__init__]: no tasks, the output table in
    [aopoints], empty series, no timer running, and a given world. *)
Definition init_app {V} (pts : list V) (fs : gmap string (list string))
    (db : gmap string (sql_table V)) : app V :=
  mk_app false false pts 0 0 0 [] [] [] false false [] fs db [].

(** Counting driver calls in a trace. *)
Definition is_write {V} (c : hw_call V) : bool :=
  match c with CallWrite _ => true | _ => false end.
Definition is_read {V} (c : hw_call V) : bool :=
  match c with CallRead => true | _ => false end.
Definition is_release {V} (c : hw_call V) : bool :=
  match c with CallStopTask _ | CallClearTask _ => true | _ => false end.
Definition count_calls {V} (p : hw_call V -> bool) (l : list (hw_call V)) : nat :=
  length (List.filter p l).

(** The rows [save_data_to_database] appends for the samples [rows], with
    consecutive ids from [next]. *)
Fixpoint appended_rows {V} (round3 : V -> V) (next : Z) (ts : string)
    (rows : list (V * V * V)) : list (db_row V) :=
  match rows with
  | [] => []
  | (t, o, i) :: rows' =>
      mk_row next ts (round3 t) (round3 o) (round3 i)
        :: appended_rows round3 (next + 1)%Z ts rows'
  end.




(** ** Life cycle of a driver task

    Per task kind, a trace of driver calls is read by an automaton: a task
    may be created and started only when none is held, is written (AO) or
    read (AI) only while it runs, is stopped only while it runs and cleared
    only once stopped. *)
Inductive task_phase := Unbound | Running | Stopped.

Definition task_kind_eqb (k k' : task_kind) : bool :=
  match k, k' with AO, AO | AI, AI => true | _, _ => false end.

Definition task_step {V} (k : task_kind) (p : task_phase) (c : hw_call V)
    : option task_phase :=
  match c with
  | CallCreateStart k' =>
      if task_kind_eqb k k' then match p with Unbound => Some Running | _ => None end
      else Some p
  | CallWrite _ =>
      match k with AO => match p with Running => Some Running | _ => None end | AI => Some p end
  | CallRead =>
      match k with AI => match p with Running => Some Running | _ => None end | AO => Some p end
  | CallStopTask k' =>
      if task_kind_eqb k k' then match p with Running => Some Stopped | _ => None end
      else Some p
  | CallClearTask k' =>
      if task_kind_eqb k k' then match p with Stopped => Some Unbound | _ => None end
      else Some p
  end.

(** The phase of task [k] after the trace, [None] if a call breaks the
    life cycle. *)
Fixpoint task_run {V} (k : task_kind) (p : task_phase) (l : list (hw_call V))
    : option task_phase :=
  match l with
  | [] => Some p
  | c :: l' => match task_step k p c with Some p' => task_run k p' l' | None => None end
  end.

(** Strictly increasing ids, in insertion order. *)
Fixpoint ids_increasing (l : list Z) : bool :=
  match l with
  | x :: ((y :: _) as l') => (x <? y)%Z && ids_increasing l'
  | _ => true
  end.

(** Table [name], if present, is declared with AUTOINCREMENT and its ids
    increase strictly. *)
Definition archive_ids_ok {V} (name : string) (db : gmap string (sql_table V)) : bool :=
  match db !! name with
  | Some tb => is_autoincrement (tbl_columns tb) && ids_increasing (map row_id (tbl_rows tb))
  | None => true
  end.

(** The rows of table [name] have strictly increasing ids (an absent table
    counts as such). *)
Definition table_ids_increasing {V} (name : string) (db : gmap string (sql_table V)) : bool :=
  match db !! name with
  | Some tb => ids_increasing (map row_id (tbl_rows tb))
  | None => true
  end.

(** ** The axis buttons of pysideaoai on exact samples *)

Module Autoscale.

(** Python's [min] and [max] on a non-empty list: the running item is
    replaced by a later one that is smaller (resp. larger). *)
Definition py_min (x : Q) (l : list Q) : Q :=
  fold_left (fun m y => if Qlt_le_dec y m then y else m) l x.
Definition py_max (x : Q) (l : list Q) : Q :=
  fold_left (fun m y => if Qlt_le_dec m y then y else m) l x.

(** [if xs: setRange(min(xs), max(xs), padding=0.1)] else the message
    "No data available to autoscale." is logged ([None]). *)
Definition autoscale_range (xs : list Q) : option (Q * Q) :=
  match xs with
  | [] => None
  | x :: l => Some (py_min x l, py_max x l)
  end.

(** [DAQApp.autoscale_y_axis] and [DAQApp.autoscale_x_axis]: the range
    passed to [setYRange] / [setXRange]. *)
Definition autoscale_y_axis (s : app Q) : option (Q * Q) := autoscale_range (ain s).
Definition autoscale_x_axis (s : app Q) : option (Q * Q) := autoscale_range (deltat s).

End Autoscale.

(** ** numpy's ["%.3f"] and Python's [round(x, 3)] on exact values

    A finite double is a dyadic rational, so it is represented exactly by a
    [Q].  [printf] rounds the exact value to three decimals, ties to even,
    and prints the sign of negative values even when the digits are zero. *)

Module Fixed3.

(** Nearest integer to [a / b] ([b > 0]), ties to the even one. *)
Definition round_half_even_div (a b : Z) : Z :=
  let q := (a / b)%Z in
  let r := (a mod b)%Z in
  match Z.compare (2 * r) b with
  | Lt => q
  | Gt => (q + 1)%Z
  | Eq => if Z.even q then q else (q + 1)%Z
  end.

(** The value in thousandths, rounded. *)
Definition scaled (x : Q) : Z := round_half_even_div (Qnum x * 1000) (Zpos (Qden x)).

Definition round3 (x : Q) : Q := Qmake (scaled x) 1000.

(** Decimal digits of a non-negative integer, most significant first. *)
Fixpoint dec_aux (fuel : nat) (n : Z) : string :=
  match fuel with
  | O => ""
  | S f =>
      if (n <? 10)%Z then String (digit_char (Z.to_nat n)) EmptyString
      else dec_aux f (n / 10) +s+ String (digit_char (Z.to_nat (n mod 10))) EmptyString
  end.

Definition dec_Z (n : Z) : string := dec_aux (S (Z.to_nat (Z.log2 n))) n.

Definition printf_3f (x : Q) : string :=
  let m := Z.abs (scaled x) in
  (if (Qnum x <? 0)%Z then "-" else "") +s+ dec_Z (m / 1000) +s+ "."
  +s+ pad_digits 3 (Z.to_nat (m mod 1000)).

Definition is_digit (c : Ascii.ascii) : bool :=
  (48 <=? Ascii.nat_of_ascii c) && (Ascii.nat_of_ascii c <=? 57).

Definition all_digits (str : string) : bool :=
  forallb is_digit (String.list_ascii_of_string str).


End Fixed3.

(** ** Re-reading a saved CSV file ([Dashboard.update_table_and_plot])

    [Dashboard.py] loads a saved file with [df = pd.read_csv(file_path)].
    pandas lies outside the repository; below is a model of its default C
    reader restricted to what these files exercise: the first line gives the
    column names, every further non-empty line one row, fields separated by
    commas with no quoting; an empty field is a missing value (NaN); a
    column whose present fields all read as decimal numbers is a float
    column, holding their values, and any other column holds the strings.
    Exponents, [inf]/[nan] spellings, quoting, duplicate names and the
    implicit index taken when the first data row is longer than the header
    are not modelled: a row longer than the header is refused. *)
Module Dashboard.

(** The fields of a line, split at every [c]. *)
Fixpoint split_on (c : Ascii.ascii) (str : string) : list string :=
  match str with
  | EmptyString => [EmptyString]
  | String a rest =>
      if Ascii.eqb a c then EmptyString :: split_on c rest
      else match split_on c rest with
           | f :: fs => String a f :: fs
           | [] => [String a EmptyString]
           end
  end.

Fixpoint drop_spaces (l : list Ascii.ascii) : list Ascii.ascii :=
  match l with
  | c :: l' => if Ascii.eqb c " "%char then drop_spaces l' else l
  | [] => []
  end.

(** The float converter ignores leading and trailing blanks. *)
Definition trim (l : list Ascii.ascii) : list Ascii.ascii :=
  rev (drop_spaces (rev (drop_spaces l))).

Definition digit_value (c : Ascii.ascii) : option Z :=
  if Fixed3.is_digit c then Some (Z.of_nat (Ascii.nat_of_ascii c - 48)) else None.

(** The value of the digits [l], most significant first, appended to [acc]. *)
Fixpoint digits_value (l : list Ascii.ascii) (acc : Z) : option Z :=
  match l with
  | [] => Some acc
  | c :: l' =>
      match digit_value c with
      | Some d => digits_value l' (acc * 10 + d)%Z
      | None => None
      end
  end.

(** An optional sign. *)
Definition split_sign (l : list Ascii.ascii) : Z * list Ascii.ascii :=
  match l with
  | c :: l' =>
      if Ascii.eqb c "-"%char then ((-1)%Z, l')
      else if Ascii.eqb c "+"%char then (1%Z, l') else (1%Z, l)
  | [] => (1%Z, l)
  end.

Fixpoint break_dot (l : list Ascii.ascii) : list Ascii.ascii * option (list Ascii.ascii) :=
  match l with
  | [] => ([], None)
  | c :: l' =>
      if Ascii.eqb c "."%char then ([], Some l')
      else let '(ip, fp) := break_dot l' in (c :: ip, fp)
  end.

(** Integer part and fraction part, at the first point. *)
Definition split_point (l : list Ascii.ascii) : list Ascii.ascii * list Ascii.ascii :=
  match break_dot l with
  | (ip, Some fp) => (ip, fp)
  | (ip, None) => (ip, [])
  end.

(** A field read as a number, [[+-]digits[.digits]]: its exact value. *)
Definition parse_fixed (field : string) : option Q :=
  let '(sgn, l) := split_sign (trim (String.list_ascii_of_string field)) in
  let '(ip, fp) := split_point l in
  if (length ip + length fp =? 0) then None else
  match digits_value ip 0, digits_value fp 0 with
  | Some a, Some b =>
      Some (Qmake (sgn * (a * 10 ^ Z.of_nat (length fp) + b))
                  (Z.to_pos (10 ^ Z.of_nat (length fp))))
  | _, _ => None
  end.

Inductive column :=
| ColFloat (vals : list (option Q))
| ColText (vals : list (option string)).

(** Field [k] of a row; empty or absent fields are missing. *)
Definition cell (row : list string) (k : nat) : option string :=
  match nth_error row k with
  | Some f => if String.eqb f "" then None else Some f
  | None => None
  end.

Definition parses (f : option string) : bool :=
  match f with
  | Some x => match parse_fixed x with Some _ => true | None => false end
  | None => true
  end.

Definition column_of (fields : list (option string)) : column :=
  if negb (length fields =? 0) && forallb parses fields
  then ColFloat (map (fun f => match f with Some x => parse_fixed x | None => None end) fields)
  else ColText fields.

(** [pd.read_csv] on the lines of a file: the named columns, or [None]
    where pandas raises. *)
Definition read_csv (lines : list string) : option (list (string * column)) :=
  match lines with
  | [] => None
  | header :: body =>
      let names := split_on ","%char header in
      let rows := map (split_on ","%char)
                      (List.filter (fun l => negb (String.eqb l "")) body) in
      if existsb (fun r => length names <? length r) rows then None
      else Some (map (fun kn => (snd kn, column_of (map (fun r => cell r (fst kn)) rows)))
                     (combine (seq 0 (length names)) names))
  end.

End Dashboard.

(** ** [generate_output_points] over the real numbers *)

Module SineTable.
Local Open Scope R_scope.

(** [np.linspace(0, 2 * np.pi, 100, endpoint=False)] has points [k * step]
    with [step = 2 * pi / 100]; the table is [2.5 * np.sin(t) + 2.5]. *)
Definition aopoint (k : nat) : R := 2.5 * sin (INR k * (2 * PI / 100)) + 2.5.

Definition generate_output_points : list R := map aopoint (seq 0 100).

End SineTable.

(** ** The NI-USB-6009 panels

    [src/niusb6009aib.py] (one AI task) and [src/niusb6009aoaib.py] (an AO
    and an AI task, a sine generated sample by sample) use the [nidaqmx]
    package.  Every [nidaqmx.Task()] object gets the number of tasks created
    before it as its handle; the trace records the driver calls on each
    handle.  The sampling-rate field is read with [float()]; the outcome of
    the driver calls comes from the environment of each event.  Products and
    quotients of the rate are computed exactly. *)

Module Usb6009.

Inductive uexn := UValueError | UOverflowError | UZeroDivisionError | UDaqError.

(** The result of [float(self.sampling_rate_input.text())]. *)
Inductive float_text := FloatOf (q : Q) | FloatInf | FloatNan | NotAFloat.

Inductive ucall :=
  | UTask (h : nat)             (* nidaqmx.Task() *)
  | UAddChan (h : nat)          (* ai_channels / ao_channels.add_..._voltage_chan *)
  | UCfgTiming (h : nat)        (* timing.cfg_samp_clk_timing *)
  | UWrite (h : nat) (v : R)    (* write(v, auto_start=True) *)
  | URead (h : nat)             (* read(number_of_samples_per_channel=...) *)
  | UClose (h : nat).           (* close() *)

(** Python's [int()] on a finite float: truncation toward zero. *)
Definition py_int (q : Q) : Z := Z.quot (Qnum q) (Zpos (Qden q)).

(** [int(self.time_window * rate)]: [int(inf)] raises OverflowError and
    [int(nan)] ValueError. *)
Definition window_points (time_window : Q) (t : float_text) : Z + uexn :=
  match t with
  | FloatOf q => inl (py_int (time_window * q))
  | FloatInf => inr UOverflowError
  | FloatNan | NotAFloat => inr UValueError
  end.

(** [int(1000 / rate)], ZeroDivisionError for a zero rate. *)
Definition timer_interval (q : Q) : Z + uexn :=
  if Qeq_bool q 0 then inr UZeroDivisionError else inl (py_int (1000 / q)).

(** [QTimer.start(interval)]: Qt refuses a negative interval, and no
    timeout is delivered then. *)
Definition timer_runs (interval : Z) : bool := (0 <=? interval)%Z.

(** [self.data.append(x)] followed by
    [if len(self.data) > self.max_data_points: self.data.pop(0)]. *)
Definition push_window {V} (max_data_points : Z) (data : list V) (x : V) : list V :=
  let d := data ++ [x] in
  if (max_data_points <? Z.of_nat (length d))%Z then tl d else d.

(** The last [n] elements of [l]. *)
Definition lastn {V} (n : nat) (l : list V) : list V := skipn (length l - n) l.

(** Replay of a trace against the driver: each new handle is the next
    number, and every other call goes to a task that is open; the result
    is the number of tasks made and the open handles, oldest first. *)
Fixpoint replay (made : nat) (open : list nat) (l : list ucall) : option (nat * list nat) :=
  match l with
  | [] => Some (made, open)
  | UTask h :: l' => if Nat.eqb h made then replay (S made) (open ++ [h]) l' else None
  | UClose h :: l' =>
      if existsb (Nat.eqb h) open then replay made (List.filter (fun g => negb (Nat.eqb g h)) open) l'
      else None
  | (UAddChan h | UCfgTiming h | UWrite h _ | URead h) :: l' =>
      if existsb (Nat.eqb h) open then replay made open l' else None
  end.

Definition opt_list (o : option nat) : list nat :=
  match o with Some h => [h] | None => [] end.

(** The values written to analog outputs. *)
Fixpoint writes (l : list ucall) : list R :=
  match l with
  | [] => []
  | UWrite _ v :: l' => v :: writes l'
  | _ :: l' => writes l'
  end.

End Usb6009.

(** [src/niusb6009aib.py], class [NI_USB6009_GUI]. *)
Module Usb6009Ai.
Import Usb6009.

Record gui (V : Type) := mk_gui {
  task : option nat;             (* self.task *)
  timer_on : bool;               (* the QTimer delivers timeouts *)
  data : list V;
  max_data_points : Z;
  tasks_made : nat;
  trace : list ucall }.
Arguments mk_gui {V}. Arguments task {V}. Arguments timer_on {V}. Arguments data {V}.
Arguments max_data_points {V}. Arguments tasks_made {V}. Arguments trace {V}.

Section P.
Context {V : Type}.

Definition init : gui V := mk_gui None false [] 0 0 [].

Definition log (c : ucall) (s : gui V) : gui V :=
  mk_gui (task s) (timer_on s) (data s) (max_data_points s) (tasks_made s) (trace s ++ [c]).
Definition set_task (t : option nat) (s : gui V) : gui V :=
  mk_gui t (timer_on s) (data s) (max_data_points s) (tasks_made s) (trace s).
Definition set_timer (b : bool) (s : gui V) : gui V :=
  mk_gui (task s) b (data s) (max_data_points s) (tasks_made s) (trace s).
Definition set_data (d : list V) (s : gui V) : gui V :=
  mk_gui (task s) (timer_on s) d (max_data_points s) (tasks_made s) (trace s).
Definition set_max (m : Z) (s : gui V) : gui V :=
  mk_gui (task s) (timer_on s) (data s) m (tasks_made s) (trace s).
(** [nidaqmx.Task()]: a new task object, returned. *)
Definition new_task (s : gui V) : nat * gui V :=
  (tasks_made s, mk_gui (task s) (timer_on s) (data s) (max_data_points s)
                   (S (tasks_made s)) (trace s ++ [UTask (tasks_made s)])).

(** [start_acquisition]; [chan_ok] and [timing_ok] are the driver's answers
    to [add_ai_voltage_chan] and [cfg_samp_clk_timing]. *)
Definition start_acquisition (rate : float_text) (chan_ok timing_ok : bool) (s : gui V)
    : gui V * option uexn :=
  let s := match task s with Some h => log (UClose h) s | None => s end in
  match rate, window_points 10 rate with
  | FloatOf q, inl m =>
    let s := set_max m s in
    let '(h, s) := new_task s in
    let s := log (UAddChan h) (set_task (Some h) s) in
    if negb chan_ok then (s, Some UDaqError) else
    let s := log (UCfgTiming h) s in
    if negb timing_ok then (s, Some UDaqError) else
    match timer_interval q with
    | inr x => (s, Some x)
    | inl i => (set_timer (timer_runs i) s, None)
    end
  | _, inr x => (s, Some x)
  | _, inl _ => (s, None)
  end.

Definition stop_acquisition (s : gui V) : gui V :=
  let s := set_timer false s in
  match task s with Some h => set_task None (log (UClose h) s) | None => s end.

(** [update_plot]; [read] is the first sample read, [None] when the
    driver raises. *)
Definition update_plot (read : option V) (s : gui V) : gui V * option uexn :=
  match task s with
  | None => (s, None)
  | Some h =>
      let s := log (URead h) s in
      match read with
      | None => (s, Some UDaqError)
      | Some x => (set_data (push_window (max_data_points s) (data s) x) s, None)
      end
  end.

Definition fire (read : option V) (s : gui V) : gui V * option uexn :=
  if timer_on s then update_plot read s else (s, None).

Definition clear_graph (s : gui V) : gui V := set_data [] s.

Inductive event :=
  | EvStart (rate : float_text) (chan_ok timing_ok : bool)
  | EvStop
  | EvTimeout (read : option V)
  | EvClear
  | EvClose.                     (* closeEvent *)

(** The slot run for an event, and the exception escaping it. *)
Definition handle (ev : event) (s : gui V) : gui V * option uexn :=
  match ev with
  | EvStart r c t => start_acquisition r c t s
  | EvStop | EvClose => (stop_acquisition s, None)
  | EvTimeout r => fire r s
  | EvClear => (clear_graph s, None)
  end.

(** The Qt event loop.  The script installs no [sys.excepthook], so PyQt5
    aborts the process (qFatal) when an exception escapes a slot: no later
    event is handled. *)
Fixpoint run_events (evs : list event) (s : gui V) : gui V :=
  match evs with
  | [] => s
  | ev :: evs' =>
      match handle ev s with
      | (s', None) => run_events evs' s'
      | (s', Some _) => s'
      end
  end.

End P.
End Usb6009Ai.

(** [src/niusb6009aoaib.py], class [NI_USB6009_GUI]. *)
Module Usb6009AoAi.
Import Usb6009.

Record gui (V : Type) := mk_gui {
  input_task : option nat;
  output_task : option nat;
  timer_on : bool;
  data : list V;
  sampling_rate : Q;
  max_data_points : Z;
  sine_wave_phase : nat;
  tasks_made : nat;
  trace : list ucall }.
Arguments mk_gui {V}. Arguments input_task {V}. Arguments output_task {V}.
Arguments timer_on {V}. Arguments data {V}. Arguments sampling_rate {V}.
Arguments max_data_points {V}. Arguments sine_wave_phase {V}.
Arguments tasks_made {V}. Arguments trace {V}.

(** The sample of [update_plot]: [t = phase / sampling_rate],
    [2 * np.sin(2 * np.pi * 10 * t) + 2.5]. *)
Definition shifted_sample (rate : Q) (phase : nat) : R :=
  (2 * sin (2 * PI * 10 * (INR phase / Q2R rate)) + 2.5)%R.

Section P.
Context {V : Type}.

Definition init : gui V := mk_gui None None false [] 1000 0 0 0 [].

Definition log (c : ucall) (s : gui V) : gui V :=
  mk_gui (input_task s) (output_task s) (timer_on s) (data s) (sampling_rate s)
    (max_data_points s) (sine_wave_phase s) (tasks_made s) (trace s ++ [c]).
Definition set_input (t : option nat) (s : gui V) : gui V :=
  mk_gui t (output_task s) (timer_on s) (data s) (sampling_rate s)
    (max_data_points s) (sine_wave_phase s) (tasks_made s) (trace s).
Definition set_output (t : option nat) (s : gui V) : gui V :=
  mk_gui (input_task s) t (timer_on s) (data s) (sampling_rate s)
    (max_data_points s) (sine_wave_phase s) (tasks_made s) (trace s).
Definition set_timer (b : bool) (s : gui V) : gui V :=
  mk_gui (input_task s) (output_task s) b (data s) (sampling_rate s)
    (max_data_points s) (sine_wave_phase s) (tasks_made s) (trace s).
Definition set_data (d : list V) (s : gui V) : gui V :=
  mk_gui (input_task s) (output_task s) (timer_on s) d (sampling_rate s)
    (max_data_points s) (sine_wave_phase s) (tasks_made s) (trace s).
Definition set_rate (q : Q) (m : Z) (s : gui V) : gui V :=
  mk_gui (input_task s) (output_task s) (timer_on s) (data s) q m
    (sine_wave_phase s) (tasks_made s) (trace s).
Definition set_phase (p : nat) (s : gui V) : gui V :=
  mk_gui (input_task s) (output_task s) (timer_on s) (data s) (sampling_rate s)
    (max_data_points s) p (tasks_made s) (trace s).
Definition new_task (s : gui V) : nat * gui V :=
  (tasks_made s, mk_gui (input_task s) (output_task s) (timer_on s) (data s)
                   (sampling_rate s) (max_data_points s) (sine_wave_phase s)
                   (S (tasks_made s)) (trace s ++ [UTask (tasks_made s)])).

Definition stop_acquisition (s : gui V) : gui V :=
  let s := set_timer false s in
  let s := match input_task s with Some h => set_input None (log (UClose h) s) | None => s end in
  match output_task s with Some h => set_output None (log (UClose h) s) | None => s end.

(** [start_acquisition]: the rate is stored before [int()] runs; a rate
    that [int()] rejects is not representable here and is never read, as
    both tasks are unbound then. *)
Definition start_acquisition (rate : float_text) (ao_ok ai_ok timing_ok : bool) (s : gui V)
    : gui V * option uexn :=
  let s := match input_task s, output_task s with
           | None, None => s
           | _, _ => stop_acquisition s
           end in
  match rate, window_points 5 rate with
  | FloatOf q, inl m =>
    let s := set_rate q m s in
    let '(ho, s) := new_task s in
    let s := log (UAddChan ho) (set_output (Some ho) s) in
    if negb ao_ok then (s, Some UDaqError) else
    let '(hi, s) := new_task s in
    let s := log (UAddChan hi) (set_input (Some hi) s) in
    if negb ai_ok then (s, Some UDaqError) else
    let s := log (UCfgTiming hi) s in
    if negb timing_ok then (s, Some UDaqError) else
    match timer_interval q with
    | inr x => (s, Some x)
    | inl i => (set_timer (timer_runs i) s, None)
    end
  | _, inr x => (s, Some x)
  | _, inl _ => (s, None)
  end.

(** [update_plot]; [write_ok] is the driver's answer to the write and
    [read] the first of the ten samples read. *)
Definition update_plot (write_ok : bool) (read : option V) (s : gui V) : gui V * option uexn :=
  match input_task s, output_task s with
  | Some hi, Some ho =>
      if Qeq_bool (sampling_rate s) 0 then (s, Some UZeroDivisionError) else
      let s := log (UWrite ho (shifted_sample (sampling_rate s) (sine_wave_phase s))) s in
      if negb write_ok then (s, Some UDaqError) else
      let s := log (URead hi) (set_phase (S (sine_wave_phase s)) s) in
      match read with
      | None => (s, Some UDaqError)
      | Some x => (set_data (push_window (max_data_points s) (data s) x) s, None)
      end
  | _, _ => (s, None)
  end.

Definition fire (write_ok : bool) (read : option V) (s : gui V) : gui V * option uexn :=
  if timer_on s then update_plot write_ok read s else (s, None).

Definition clear_graph (s : gui V) : gui V := set_data [] s.

Inductive event :=
  | EvStart (rate : float_text) (ao_ok ai_ok timing_ok : bool)
  | EvStop
  | EvTimeout (write_ok : bool) (read : option V)
  | EvClear
  | EvClose.

(** One event; the exception a slot may raise is dropped and the next
    event handled.  The script installs no [sys.excepthook], so PyQt5 aborts
    the process at the first such exception: a real session is a run of
    [run_events] cut after the event that raised, so what holds after every
    run of [run_events] holds where the real process stops. *)
Definition handle (ev : event) (s : gui V) : gui V :=
  match ev with
  | EvStart r a b t => fst (start_acquisition r a b t s)
  | EvStop | EvClose => stop_acquisition s
  | EvTimeout w r => fst (fire w r s)
  | EvClear => clear_graph s
  end.

Fixpoint run_events (evs : list event) (s : gui V) : gui V :=
  match evs with [] => s | ev :: evs' => run_events evs' (handle ev s) end.

End P.
End Usb6009AoAi.

(** ** Concrete scenarios

    Small runs on integer samples, used to evaluate the model. *)

Module Scenario.

Definition t0 : datetime := mk_datetime 2025 4 16 9 5 7.

(** Every driver call and every sink succeeds. *)
Definition env_ok (elapsed read : Z) : fire_env Z :=
  mk_env true (Some read) elapsed t0 true t0 true (fun _ => None) t0 true UploadOk UploadOk false.

(** [ReadAnalogF64] raises a DAQmx error. *)
Definition env_read_fault (elapsed : Z) : fire_env Z :=
  mk_env true None elapsed t0 true t0 true (fun _ => None) t0 true UploadOk UploadOk false.

(** The local sinks succeed and the CSV upload raises. *)
Definition env_upload_fails (elapsed read : Z) : fire_env Z :=
  mk_env true (Some read) elapsed t0 true t0 true (fun _ => None) t0 true UploadOk UploadRaises false.

Definition fmt_z (z : Z) : string := pad_digits 3 (Z.to_nat z).
Definition round_z (z : Z) : Z := z.

Definition s_init : app Z := init_app [250; 265; 281]%Z ∅ ∅.



End Scenario.

(** * Properties *)

Section Lemmas.
Context {V : Type} (fmt3 : V -> string) (round3 : V -> V).

Lemma set_current_index_same (s : app V) : set_current_index (current_index s) s = s.
Proof. destruct s; reflexivity. Qed.

(** The output point of a tick is the table entry at an index below the
    table length; the index is reset to 0 when it reached the length. *)
Lemma next_output_point_spec (s : app V) :
  0 < length (aopoints s) ->
  exists i v, i < length (aopoints s) /\ aopoints s !! i = Some v /\
    next_output_point s = (set_current_index i s, Ok v).
Proof.
  intros Hlen. unfold next_output_point, bind, get, gets, modify, ret.
  destruct (Nat.leb_spec (length (aopoints s)) (current_index s)) as [Hge|Hlt].
  - destruct (lookup_lt_is_Some_2 (aopoints s) 0 Hlen) as [v Hv].
    exists 0, v. cbn. rewrite Hv. auto.
  - destruct (lookup_lt_is_Some_2 (aopoints s) (current_index s) Hlt) as [v Hv].
    exists (current_index s), v. rewrite set_current_index_same, Hv. auto.
Qed.

(** The state after the failed or completed part of a tick. *)
Definition after_tick (s : app V) (i : nat) (v : V) (it : nat) (dt ai : list V)
    (on : bool) (c : list (hw_call V)) : app V :=
  mk_app (aotask s) (aitask s) (aopoints s) i it (loop_count s) (aout s ++ [v])
    dt ai on (acquiring s) (calls s ++ c) (files s) (database s) (uploads s).

(** One acquisition tick of psydaqgd ([iteration < loop_count]), for every
    answer of the driver. *)
Lemma psy_fire_tick (s : app V) (e : fire_env V) :
  timer_active s = true -> iteration s < loop_count s ->
  0 < length (aopoints s) -> aotask s = true -> aitask s = true ->
  exists i v, i < length (aopoints s) /\ aopoints s !! i = Some v /\
    Psydaqgd.fire fmt3 round3 e s =
    if fe_write_ok e then
      match fe_read e with
      | Some r => (after_tick s (S i) v (S (iteration s)) (deltat s ++ [fe_elapsed e])
                     (ain s ++ [r]) true [CallWrite v; CallRead], Ok tt)
      | None => (after_tick s i v (iteration s) (deltat s) (ain s) false
                   [CallWrite v; CallRead], Err HardwareFault)
      end
    else (after_tick s i v (iteration s) (deltat s) (ain s) false [CallWrite v],
          Err HardwareFault).
Proof.
  intros Hon Hit Hlen Hao Hai.
  destruct (next_output_point_spec s Hlen) as (i & v & Hi & Hv & Hn).
  exists i, v. split; [exact Hi|split; [exact Hv|]].
  unfold Psydaqgd.fire, Psydaqgd.perform_iteration, Psydaqgd.perform_iteration_body.
  unfold try_except, bind at 1, gets at 1. rewrite Hon.
  unfold bind at 1, get.
  replace (loop_count s <=? iteration s) with false
    by (symmetry; apply Nat.leb_gt; lia).
  unfold bind at 1. rewrite Hn.
  unfold append_aout, write_analog, read_analog, hw, timer_stop, raise, ret, modify, gets, bind.
  destruct s; cbn in *; subst.
  destruct (fe_write_ok e); [destruct (fe_read e)|]; cbn;
    unfold after_tick; cbn; rewrite <- ?app_assoc; reflexivity.
Qed.

(** *** The sinks leave the acquisition state alone *)

(** [s'] differs from [s] at most in the files, the archive and the uploads. *)
Definition frame (s s' : app V) : Prop :=
  aotask s' = aotask s /\ aitask s' = aitask s /\ aopoints s' = aopoints s /\
  current_index s' = current_index s /\ iteration s' = iteration s /\
  loop_count s' = loop_count s /\ aout s' = aout s /\ deltat s' = deltat s /\
  ain s' = ain s /\ timer_active s' = timer_active s /\
  acquiring s' = acquiring s /\ calls s' = calls s.

Definition keeps_frame {A} (m : M A) : Prop := forall s, frame s (fst (m s)).

Lemma frame_refl (s : app V) : frame s s.
Proof. repeat split. Qed.

Lemma frame_trans (s1 s2 s3 : app V) : frame s1 s2 -> frame s2 s3 -> frame s1 s3.
Proof. unfold frame. intuition congruence. Qed.

Lemma keeps_ret {A} (a : A) : keeps_frame (ret a).
Proof. intro s. apply frame_refl. Qed.

Lemma keeps_raise {A} (x : exn) : keeps_frame (A:=A) (raise x).
Proof. intro s. apply frame_refl. Qed.

Lemma keeps_get : keeps_frame get.
Proof. intro s. apply frame_refl. Qed.

Lemma keeps_gets {A} (f : app V -> A) : keeps_frame (gets f).
Proof. intro s. apply frame_refl. Qed.

Lemma keeps_bind {A B} (m : M A) (k : A -> M B) :
  keeps_frame m -> (forall a, keeps_frame (k a)) -> keeps_frame (bind m k).
Proof.
  intros Hm Hk s. unfold bind. specialize (Hm s).
  destruct (m s) as [s1 [a|x]]; cbn in *; [|exact Hm].
  eapply frame_trans; [exact Hm|apply Hk].
Qed.

Lemma keeps_set_files (f : app V -> gmap string (list string)) :
  keeps_frame (modify (fun s => set_files (f s) s)).
Proof. intro s. repeat split. Qed.

Lemma keeps_set_database (d : gmap string (sql_table V)) :
  keeps_frame (modify (set_database d)).
Proof. intro s. repeat split. Qed.

Lemma keeps_set_uploads (f : app V -> list (string * string)) :
  keeps_frame (modify (fun s => set_uploads (f s) s)).
Proof. intro s. repeat split. Qed.

Ltac keeps :=
  repeat match goal with
  | |- keeps_frame (bind _ _) => apply keeps_bind; [|intro]
  | |- keeps_frame (ret _) => apply keeps_ret
  | |- keeps_frame (raise _) => apply keeps_raise
  | |- keeps_frame get => apply keeps_get
  | |- keeps_frame (gets _) => apply keeps_gets
  | |- keeps_frame (modify (fun s => set_files _ s)) => apply keeps_set_files
  | |- keeps_frame (modify (set_database _)) => apply keeps_set_database
  | |- keeps_frame (modify (fun s => set_uploads _ s)) => apply keeps_set_uploads
  | |- keeps_frame (if ?b then _ else _) => destruct b
  | |- keeps_frame (match ?x with _ => _ end) => destruct x
  end.

Lemma keeps_column_stack (a b c : list V) : keeps_frame (column_stack a b c).
Proof. unfold column_stack. keeps. Qed.

Lemma keeps_savetxt ok fn rows : keeps_frame (savetxt fmt3 ok fn rows).
Proof. unfold savetxt. keeps. Qed.

Lemma keeps_gd e o fn foid : keeps_frame (gd e o fn foid).
Proof. unfold gd, gDrive_init, upload_to_folder. keeps. Qed.

Lemma keeps_save_data_to_database e :
  keeps_frame (Psydaqgd.save_data_to_database round3 e).
Proof. unfold Psydaqgd.save_data_to_database. keeps. Qed.

Lemma keeps_save_data_to_file e :
  keeps_frame (Psydaqgd.save_data_to_file fmt3 round3 e).
Proof.
  unfold Psydaqgd.save_data_to_file. keeps;
    auto using keeps_column_stack, keeps_savetxt, keeps_save_data_to_database.
Qed.

Lemma keeps_save_plot_as_png e : keeps_frame (Psydaqgd.save_plot_as_png e).
Proof. unfold Psydaqgd.save_plot_as_png. keeps; apply keeps_gd. Qed.

Lemma keeps_c_save_data_to_file e : keeps_frame (Pysideaoai.save_data_to_file fmt3 e).
Proof.
  unfold Pysideaoai.save_data_to_file. keeps; auto using keeps_column_stack, keeps_savetxt.
Qed.

(** The completion step of the sinks, run after the timer was stopped. *)
Definition completion (e : fire_env V) : M unit :=
  bind (Psydaqgd.save_data_to_file fmt3 round3 e) (fun fn =>
  bind (Psydaqgd.save_plot_as_png e) (fun _ =>
  gd e (fe_csv_upload e) fn drive_folder)).

Lemma keeps_completion e : keeps_frame (completion e).
Proof.
  unfold completion. apply keeps_bind; [apply keeps_save_data_to_file|intro fn].
  apply keeps_bind; [apply keeps_save_plot_as_png|intros _]. apply keeps_gd.
Qed.

(** The timer event once [iteration >= loop_count]. *)
Lemma psy_fire_complete_eq (s : app V) (e : fire_env V) :
  timer_active s = true -> loop_count s <= iteration s ->
  Psydaqgd.fire fmt3 round3 e s =
  match completion e (set_timer_active false s) with
  | (s1, Err x) => (set_timer_active false s1, Err x)
  | r => r
  end.
Proof.
  intros Hon Hle.
  unfold Psydaqgd.fire, Psydaqgd.perform_iteration, Psydaqgd.perform_iteration_body.
  unfold try_except, bind at 1, gets at 1. rewrite Hon.
  unfold bind at 1, get.
  replace (loop_count s <=? iteration s) with true
    by (symmetry; apply Nat.leb_le; lia).
  unfold completion, timer_stop, modify, bind, raise, ret. reflexivity.
Qed.

Lemma psy_fire_complete (s : app V) (e : fire_env V) :
  timer_active s = true -> loop_count s <= iteration s ->
  frame (set_timer_active false s) (fst (Psydaqgd.fire fmt3 round3 e s)).
Proof.
  intros Hon Hle. rewrite psy_fire_complete_eq by assumption.
  pose proof (keeps_completion e (set_timer_active false s)) as Hk.
  destruct (completion e (set_timer_active false s)) as [s1 [u|x]]; cbn in *; [exact Hk|].
  destruct Hk as (H1 & H2 & H3 & H4 & H5 & H6 & H7 & H8 & H9 & H10 & H11 & H12).
  destruct s1; cbn in *. repeat split; assumption.
Qed.

Lemma psy_fire_off (s : app V) (e : fire_env V) :
  timer_active s = false -> Psydaqgd.fire fmt3 round3 e s = (s, Ok tt).
Proof. intros Hoff. unfold Psydaqgd.fire, bind, gets. rewrite Hoff. reflexivity. Qed.

Lemma psy_fire_all_off (s : app V) (es : list (fire_env V)) :
  timer_active s = false ->
  Psydaqgd.fire_all fmt3 round3 es s = (s, map (fun _ => Ok tt) es).
Proof.
  intros Hoff. induction es as [|e es IH]; cbn [Psydaqgd.fire_all]; [reflexivity|].
  rewrite psy_fire_off by exact Hoff. rewrite IH. reflexivity.
Qed.

(** *** Runs of psydaqgd *)

Definition release_calls (b : bool) (k : task_kind) : list (hw_call V) :=
  if b then [CallStopTask k; CallClearTask k] else [].

(** A successful Start: earlier tasks are stopped and cleared, new ones are
    created, the series are emptied and the timer runs for [N] iterations. *)
Lemma psy_start_ok (s0 : app V) (ao ai : string) (N : nat) :
  ao <> "" -> ai <> "" -> 0 < N ->
  Psydaqgd.start_acquisition ao ai (Some (Z.of_nat N)) s0 =
  (mk_app true true (aopoints s0) 0 0 N [] [] [] true (acquiring s0)
     (calls s0 ++ release_calls (aotask s0) AO ++ release_calls (aitask s0) AI
        ++ [CallCreateStart AO; CallCreateStart AI])
     (files s0) (database s0) (uploads s0), Ok tt).
Proof.
  intros Hao Hai HN.
  apply String.eqb_neq in Hao. apply String.eqb_neq in Hai.
  assert (Hn : (Z.of_nat N <=? 0)%Z = false) by (apply Z.leb_gt; lia).
  unfold Psydaqgd.start_acquisition, Psydaqgd.run_acquisition, release_task,
    hw, bind, gets, modify, ret, raise.
  destruct s0 as [a b pts ci it lc ao_ dt ai_ on acq c fs db up]; cbn.
  rewrite Hao, Hai, Hn. cbn. rewrite Nat2Z.id.
  destruct a, b; cbn; rewrite <- ?app_assoc; reflexivity.
Qed.

Definition fault_free (e : fire_env V) : Prop :=
  fe_write_ok e = true /\ is_Some (fe_read e).

Lemma psy_fire_all_app (es1 es2 : list (fire_env V)) (s : app V) :
  Psydaqgd.fire_all fmt3 round3 (es1 ++ es2) s =
  let '(s1, r1) := Psydaqgd.fire_all fmt3 round3 es1 s in
  let '(s2, r2) := Psydaqgd.fire_all fmt3 round3 es2 s1 in
  (s2, r1 ++ r2).
Proof.
  revert s. induction es1 as [|e es1 IH]; intros s; cbn [Psydaqgd.fire_all List.app].
  - destruct (Psydaqgd.fire_all fmt3 round3 es2 s); reflexivity.
  - destruct (Psydaqgd.fire fmt3 round3 e s) as [s1 r]. rewrite IH.
    destruct (Psydaqgd.fire_all fmt3 round3 es1 s1) as [s2 r1].
    destruct (Psydaqgd.fire_all fmt3 round3 es2 s2). reflexivity.
Qed.

(** Fault-free ticks below the iteration limit: each one writes a table
    value, then reads, and appends to the three series. *)
Lemma psy_run_ticks (es : list (fire_env V)) (s : app V) :
  timer_active s = true -> iteration s + length es <= loop_count s ->
  0 < length (aopoints s) -> aotask s = true -> aitask s = true ->
  Forall fault_free es ->
  exists ws rs s',
    Psydaqgd.fire_all fmt3 round3 es s = (s', map (fun _ => Ok tt) es) /\
    length ws = length es /\ Forall (fun w => w ∈ aopoints s) ws /\
    map Some rs = map fe_read es /\
    aotask s' = aotask s /\ aitask s' = aitask s /\ aopoints s' = aopoints s /\
    iteration s' = iteration s + length es /\ loop_count s' = loop_count s /\
    aout s' = aout s ++ ws /\ deltat s' = deltat s ++ map fe_elapsed es /\
    ain s' = ain s ++ rs /\ timer_active s' = true /\
    calls s' = calls s ++ concat (map (fun w => [CallWrite w; CallRead]) ws) /\
    files s' = files s /\ database s' = database s /\ uploads s' = uploads s.
Proof.
  revert s. induction es as [|e es IH]; intros s Hon Hit Hlen Hao Hai Hff.
  - exists [], [], s. cbn. rewrite !app_nil_r, Nat.add_0_r. repeat split; auto.
  - inversion Hff as [|? ? [Hw [r Hr]] Hff']; subst. cbn [length] in Hit.
    destruct (psy_fire_tick s e Hon ltac:(lia) Hlen Hao Hai) as (i & v & Hi & Hv & Hf).
    rewrite Hw, Hr in Hf.
    set (s1 := after_tick s (S i) v (S (iteration s)) (deltat s ++ [fe_elapsed e])
                 (ain s ++ [r]) true [CallWrite v; CallRead]) in Hf.
    destruct (IH s1) as (ws & rs & s' & Hrun & Hlw & Hin & Hrs & Ho & Ha & Hp & Hit' & Hlc
                         & Hout & Hdt & Hain & Hon' & Hc & Hfs & Hdb & Hup);
      unfold s1, after_tick in *; cbn in *; auto; try lia.
    exists (v :: ws), (r :: rs), s'.
    cbn [Psydaqgd.fire_all]. rewrite Hf, Hrun.
    repeat split; cbn; try congruence; try lia.
    + constructor; [eapply list_elem_of_lookup_2; eauto|exact Hin].
    + rewrite Hout, <- app_assoc. reflexivity.
    + rewrite Hdt, <- app_assoc. reflexivity.
    + rewrite Hain, <- app_assoc. reflexivity.
    + rewrite Hc, <- app_assoc. reflexivity.
Qed.

Lemma count_pairs (ws : list V) :
  count_calls is_write (concat (map (fun w => [CallWrite w; CallRead]) ws)) = length ws /\
  count_calls is_read (concat (map (fun w => [CallWrite w; CallRead]) ws)) = length ws /\
  count_calls is_release (concat (map (fun w => [CallWrite w; CallRead]) ws)) = 0.
Proof.
  unfold count_calls. induction ws as [|w ws (IH1 & IH2 & IH3)]; [repeat split|].
  cbn [map concat]. rewrite !List.filter_app, !length_app. cbn. lia.
Qed.

Lemma count_calls_app (p : hw_call V -> bool) (l1 l2 : list (hw_call V)) :
  count_calls p (l1 ++ l2) = count_calls p l1 + count_calls p l2.
Proof. unfold count_calls. rewrite List.filter_app, length_app. reflexivity. Qed.

(** One tick of pysideaoai's [update_plot], for every answer of the driver;
    the timer keeps running after an exception. *)
Lemma c_fire_tick (s : app V) (e : fire_env V) :
  timer_active s = true -> 0 < length (aopoints s) ->
  aotask s = true -> aitask s = true ->
  exists i v, i < length (aopoints s) /\ aopoints s !! i = Some v /\
    Pysideaoai.fire e s =
    if fe_write_ok e then
      match fe_read e with
      | Some r => (after_tick s (S i) v (iteration s) (deltat s ++ [fe_elapsed e])
                     (ain s ++ [r]) true [CallWrite v; CallRead], Ok tt)
      | None => (after_tick s i v (iteration s) (deltat s) (ain s) true
                   [CallWrite v; CallRead], Err HardwareFault)
      end
    else (after_tick s i v (iteration s) (deltat s) (ain s) true [CallWrite v],
          Err HardwareFault).
Proof.
  intros Hon Hlen Hao Hai.
  destruct (next_output_point_spec s Hlen) as (i & v & Hi & Hv & Hn).
  exists i, v. split; [exact Hi|split; [exact Hv|]].
  unfold Pysideaoai.fire, Pysideaoai.update_plot.
  unfold bind at 1, gets at 1. rewrite Hon.
  unfold bind at 1. rewrite Hn.
  unfold append_aout, write_analog, read_analog, hw, raise, ret, modify, gets, bind.
  destruct s; cbn in *; subst.
  destruct (fe_write_ok e); [destruct (fe_read e)|]; cbn;
    unfold after_tick; cbn; rewrite <- ?app_assoc; reflexivity.
Qed.

(** Start always begins by stopping and clearing the tasks it finds. *)
Lemma psy_start_releases (s : app V) ao ai cnt :
  aotask s = true -> aitask s = true ->
  exists d, calls (fst (Psydaqgd.start_acquisition ao ai cnt s)) =
    calls s ++ [CallStopTask AO; CallClearTask AO; CallStopTask AI; CallClearTask AI] ++ d.
Proof.
  intros Hao Hai.
  unfold Psydaqgd.start_acquisition, Psydaqgd.run_acquisition, release_task,
    hw, bind, gets, modify, ret, raise.
  destruct s as [a b pts ci it lc ao_ dt ai_ on acq c fs db up]; cbn in *; subst.
  destruct (String.eqb ao "" || String.eqb ai ""); cbn.
  - exists []. rewrite <- !app_assoc. reflexivity.
  - destruct cnt as [n|]; cbn; [destruct (n <=? 0)%Z; cbn|].
    + exists []. rewrite <- !app_assoc. reflexivity.
    + eexists. rewrite <- !app_assoc. reflexivity.
    + exists []. rewrite <- !app_assoc. reflexivity.
Qed.

(** pysideaoai's Stop: the timer stops, then both tasks are stopped and
    cleared, whatever the file sink does afterwards. *)
Lemma c_stop_releases (s : app V) (e : fire_env V) :
  aotask s = true -> aitask s = true ->
  calls (fst (Pysideaoai.stop_acquisition fmt3 e s)) =
    calls s ++ [CallStopTask AO; CallClearTask AO; CallStopTask AI; CallClearTask AI] /\
  timer_active (fst (Pysideaoai.stop_acquisition fmt3 e s)) = false.
Proof.
  intros Hao Hai.
  destruct s as [a b pts ci it lc ao_ dt ai_ on acq c fs db up]; cbn in Hao, Hai; subst.
  unfold Pysideaoai.stop_acquisition, timer_stop, release_task, hw.
  unfold bind, gets, modify, ret. cbn -[Pysideaoai.save_data_to_file].
  match goal with |- context [Pysideaoai.save_data_to_file fmt3 e ?s1] =>
    pose proof (keeps_c_save_data_to_file e s1) as Hk;
    destruct (Pysideaoai.save_data_to_file fmt3 e s1) as [s2 r] end.
  destruct Hk as (_ & _ & _ & _ & _ & _ & _ & _ & _ & Hon & _ & Hc).
  cbn in *. rewrite Hc, Hon, <- !app_assoc. split; reflexivity.
Qed.

Lemma c_toggle_stops (s : app V) ao ai (e : fire_env V) :
  acquiring s = true ->
  Pysideaoai.toggle_acquisition fmt3 ao ai e s = Pysideaoai.stop_acquisition fmt3 e s.
Proof.
  intros Hacq. unfold Pysideaoai.toggle_acquisition, bind at 1, gets. rewrite Hacq.
  reflexivity.
Qed.

(** *** The local sinks under a failing upload *)

Lemma bind_ok {A B} (m : M A) (k : A -> M B) (s s' : app V) (a : A) :
  m s = (s', Ok a) -> bind m k s = k a s'.
Proof. intros H. unfold bind. rewrite H. reflexivity. Qed.

(** [m] leaves the file at path [p] and the SQLite archive untouched. *)
Definition keeps_file (p : string) {A} (m : M A) : Prop :=
  forall s : app V, files (fst (m s)) !! p = files s !! p /\ database (fst (m s)) = database s.

Lemma keeps_file_bind p {A B} (m : M A) (k : A -> M B) :
  keeps_file p m -> (forall a, keeps_file p (k a)) -> keeps_file p (bind m k).
Proof.
  intros Hm Hk s. unfold bind. specialize (Hm s).
  destruct (m s) as [s1 [a|x]]; cbn in *; [|exact Hm].
  destruct (Hk a s1) as [H1 H2]. destruct Hm as [H3 H4]. split; congruence.
Qed.

Lemma gd_keeps_file p e o fn foid :
  p <> "token.json" -> keeps_file p (gd e o fn foid).
Proof.
  intros Hp s. unfold gd, gDrive_init, upload_to_folder, bind, get, modify, ret, raise.
  destruct (fe_token_refresh e); cbn.
  - destruct (<["token.json" := ["<oauth token>"]]> (files s) !! fn);
      [destruct o|]; cbn; rewrite ?lookup_insert_ne by congruence; auto.
  - destruct (files s !! fn); [destruct o|]; cbn; auto.
Qed.

Lemma png_keeps_file p e :
  p <> "token.json" -> p <> Psydaqgd.png_filename (fe_png_now e) ->
  keeps_file p (Psydaqgd.save_plot_as_png e).
Proof.
  intros Hp Hpng. unfold Psydaqgd.save_plot_as_png.
  apply keeps_file_bind; [|intros _; apply gd_keeps_file; exact Hp].
  intros s. destruct (fe_png_ok e); cbn; [|auto].
  rewrite lookup_insert_ne by congruence. auto.
Qed.

Lemma gd_raises (e : fire_env V) fn foid (s : app V) :
  snd (gd e UploadRaises fn foid s) = Err UploadError.
Proof.
  unfold gd, gDrive_init, upload_to_folder, bind, get, modify, ret, raise.
  destruct (fe_token_refresh e); cbn;
    [destruct (<["token.json" := ["<oauth token>"]]> (files s) !! fn)
    |destruct (files s !! fn)]; reflexivity.
Qed.

Lemma csv_not_token d : Psydaqgd.csv_filename d <> "token.json".
Proof. unfold Psydaqgd.csv_filename. cbn. discriminate. Qed.

Lemma csv_not_png d d' : Psydaqgd.csv_filename d <> Psydaqgd.png_filename d'.
Proof. unfold Psydaqgd.csv_filename, Psydaqgd.png_filename. cbn. discriminate. Qed.

(** A successful [save_data_to_file]: the CSV written, then the archive. *)
Lemma save_data_to_file_ok (s : app V) (e : fire_env V) db1 :
  length (deltat s) = length (aout s) -> length (aout s) = length (ain s) ->
  fe_csv_ok e = true -> fe_db_ok e = true ->
  Psydaqgd.insert_rows round3 (strftime_db (fe_db_now e)) (fe_db_random e)
    (zip3 (deltat s) (aout s) (ain s))
    (create_table_if_not_exists Psydaqgd.db_table acquisition_data_columns (database s))
    = Some db1 ->
  Psydaqgd.save_data_to_file fmt3 round3 e s =
    (set_database db1
       (set_files (<[Psydaqgd.csv_filename (fe_csv_now e) :=
                      savetxt_lines fmt3 (zip3 (deltat s) (aout s) (ain s))]> (files s)) s),
     Ok (Psydaqgd.csv_filename (fe_csv_now e))).
Proof.
  intros H1 H2 Hcsv Hdb Hins.
  unfold Psydaqgd.save_data_to_file, column_stack, savetxt, Psydaqgd.save_data_to_database.
  unfold bind, get, ret, modify, raise. cbn.
  rewrite H1, H2, !Nat.eqb_refl, Hcsv, Hdb. cbn. rewrite Hins.
  reflexivity.
Qed.


(** *** A complete finite run *)


Lemma save_data_to_database_files (e : fire_env V) (s : app V) :
  files (fst (Psydaqgd.save_data_to_database round3 e s)) = files s.
Proof.
  unfold Psydaqgd.save_data_to_database, bind, get, modify, raise.
  destruct (negb (fe_db_ok e)); [reflexivity|].
  destruct (Psydaqgd.insert_rows _ _ _ _ _); reflexivity.
Qed.

(** The files after the completion event: the CSV written at its name,
    every other path but the PNG and [token.json] as before. *)
Lemma completion_files (s : app V) (e : fire_env V) :
  timer_active s = true -> loop_count s <= iteration s ->
  length (deltat s) = length (aout s) -> length (aout s) = length (ain s) ->
  fe_csv_ok e = true ->
  forall p, p <> Psydaqgd.png_filename (fe_png_now e) -> p <> "token.json" ->
  files (fst (Psydaqgd.fire fmt3 round3 e s)) !! p =
  <[Psydaqgd.csv_filename (fe_csv_now e) :=
      savetxt_lines fmt3 (zip3 (deltat s) (aout s) (ain s))]> (files s) !! p.
Proof.
  intros Hon Hle Hl1 Hl2 Hcsv p Hpng Htok.
  rewrite psy_fire_complete_eq by assumption.
  assert (H : files (fst (completion e (set_timer_active false s))) !! p =
              <[Psydaqgd.csv_filename (fe_csv_now e) :=
                 savetxt_lines fmt3 (zip3 (deltat s) (aout s) (ain s))]> (files s) !! p).
  { unfold completion, Psydaqgd.save_data_to_file, column_stack, savetxt.
    unfold bind, get, ret, modify. cbn [deltat aout ain set_timer_active].
    rewrite Hl1, Hl2, !Nat.eqb_refl, Hcsv. cbn.
    set (s2 := set_files _ _).
    pose proof (save_data_to_database_files e s2) as Hdb.
    destruct (Psydaqgd.save_data_to_database round3 e s2) as [s3 [[]|x]];
      cbn in Hdb |- *; [|rewrite Hdb; reflexivity].
    pose proof (png_keeps_file p e Htok Hpng s3) as [Hpk _].
    destruct (Psydaqgd.save_plot_as_png e s3) as [s4 [[]|y]]; cbn in Hpk |- *;
      [|rewrite Hpk, Hdb; reflexivity].
    destruct (gd_keeps_file p e (fe_csv_upload e) (Psydaqgd.csv_filename (fe_csv_now e))
                drive_folder Htok s4) as [Hg _].
    rewrite Hg, Hpk, Hdb. reflexivity. }
  destruct (completion e (set_timer_active false s)) as [s1 [[]|x]]; exact H.
Qed.


(** *** Shape of the [%.3f] rendering *)

Lemma string_length_app (a b : string) :
  String.length (a +s+ b) = String.length a + String.length b.
Proof.
  induction a as [|c a IH]; [reflexivity|].
  change (S (String.length (a +s+ b)) = S (String.length a + String.length b)).
  rewrite IH. reflexivity.
Qed.

Lemma all_digits_app (a b : string) :
  Fixed3.all_digits (a +s+ b) = Fixed3.all_digits a && Fixed3.all_digits b.
Proof.
  unfold Fixed3.all_digits. induction a as [|c a IH]; [reflexivity|].
  change (Fixed3.is_digit c && forallb Fixed3.is_digit (String.list_ascii_of_string (a +s+ b))
          = (Fixed3.is_digit c && forallb Fixed3.is_digit (String.list_ascii_of_string a))
            && forallb Fixed3.is_digit (String.list_ascii_of_string b)).
  rewrite IH, andb_assoc. reflexivity.
Qed.

Lemma digit_char_digit (d : nat) : d < 10 -> Fixed3.is_digit (digit_char d) = true.
Proof. intros H. do 10 (destruct d as [|d]; [reflexivity|]). lia. Qed.

Lemma pad_digits_ok (w n : nat) :
  String.length (pad_digits w n) = w /\ Fixed3.all_digits (pad_digits w n) = true.
Proof.
  revert n. induction w as [|w IH]; intros n; [split; reflexivity|].
  cbn [pad_digits]. destruct (IH (n / 10)) as [Hl Hd].
  rewrite string_length_app, all_digits_app, Hl, Hd. split; [cbn; lia|].
  pose proof (digit_char_digit (n mod 10) ltac:(apply Nat.mod_upper_bound; lia)) as Hc.
  unfold Fixed3.all_digits. cbn [String.list_ascii_of_string forallb].
  rewrite Hc. reflexivity.
Qed.

Lemma dec_aux_ok (f : nat) (n : Z) :
  (0 <= n)%Z ->
  Fixed3.all_digits (Fixed3.dec_aux f n) = true /\ (f <> 0 -> Fixed3.dec_aux f n <> "").
Proof.
  revert n. induction f as [|f IH]; intros n Hn; cbn [Fixed3.dec_aux];
    [split; [reflexivity|lia]|].
  destruct (n <? 10)%Z eqn:E.
  - apply Z.ltb_lt in E.
    pose proof (digit_char_digit (Z.to_nat n) ltac:(lia)) as Hc.
    unfold Fixed3.all_digits. cbn [String.list_ascii_of_string forallb].
    rewrite Hc. split; [reflexivity|discriminate].
  - destruct (IH (n / 10)%Z) as [Hd _]; [apply Z.div_pos; lia|].
    assert (Hm : (0 <= n mod 10 < 10)%Z) by (apply Z.mod_pos_bound; lia).
    pose proof (digit_char_digit (Z.to_nat (n mod 10)) ltac:(lia)) as Hc.
    rewrite all_digits_app, Hd. unfold Fixed3.all_digits at 1.
    cbn [String.list_ascii_of_string forallb]. rewrite Hc. split; [reflexivity|].
    intros _. destruct (Fixed3.dec_aux f (n / 10)); discriminate.
Qed.


Lemma zip3_length {A B C} (a : list A) (b : list B) (c : list C) :
  length a = length b -> length b = length c -> length (zip3 a b c) = length a.
Proof.
  revert b c. induction a as [|x a IH]; intros [|y b] [|z c]; cbn; intros; try lia.
  f_equal. apply IH; lia.
Qed.

(** *** The SQLite sink *)

Lemma fold_rowid_some (rows : list (db_row V)) (a : Z) :
  exists y, fold_left max_rowid_step rows (Some a) = Some y.
Proof.
  revert a. induction rows as [|r rows IH]; intros a; cbn; [eauto|apply IH].
Qed.

Lemma fold_rowid_bound (rows : list (db_row V)) (acc : option Z) (y : Z) :
  fold_left max_rowid_step rows acc = Some y ->
  (forall r, In r rows -> (row_id r <= y)%Z) /\ (forall a, acc = Some a -> (a <= y)%Z).
Proof.
  revert acc. induction rows as [|r rows IH]; intros acc H; cbn in H.
  - split; [intros r []|intros a ->; injection H as ->; lia].
  - destruct (IH _ H) as [H1 H2]. split.
    + intros r' [<-|Hr']; [|auto].
      destruct acc as [x|]; cbn in H2; specialize (H2 _ eq_refl); lia.
    + intros a ->. cbn in H2. specialize (H2 _ eq_refl). lia.
Qed.

Lemma last_rowid_ge (rows : list (db_row V)) (y : Z) (r : db_row V) :
  last_rowid rows = Some y -> In r rows -> (row_id r <= y)%Z.
Proof. intros H. exact (proj1 (fold_rowid_bound rows None y H) r). Qed.

Lemma last_rowid_empty (rows : list (db_row V)) : last_rowid rows = None -> rows = [].
Proof.
  unfold last_rowid. destruct rows as [|r rows]; [reflexivity|]. cbn.
  destruct (fold_rowid_some rows (row_id r)) as [y ->]. discriminate.
Qed.



(** With AUTOINCREMENT the new rowid is above every rowid in use. *)
Lemma new_rowid_autoinc_gt seq (rows : list (db_row V)) rnd id :
  new_rowid true seq rows rnd = Some id -> forall r, In r rows -> (row_id r < id)%Z.
Proof.
  unfold new_rowid. destruct (last_rowid rows) as [x|] eqn:E.
  - destruct (x <? rowid_limit)%Z; [|discriminate].
    destruct (seq <? rowid_limit)%Z; [|discriminate].
    injection 1 as <-. intros r Hr. pose proof (last_rowid_ge rows x r E Hr). lia.
  - apply last_rowid_empty in E as ->. intros _ r [].
Qed.


(** A successful INSERT appends one row, with the id SQLite computed, to
    a table that has the four columns. *)
Lemma insert_row_spec name ts rnd (t o i : V) db db' :
  insert_row name ts rnd t o i db = Some db' ->
  exists tb id,
    db !! name = Some tb /\
    forallb (has_column (tbl_columns tb)) insert_columns = true /\
    new_rowid (is_autoincrement (tbl_columns tb)) (tbl_seq tb) (tbl_rows tb) rnd = Some id /\
    db' = <[name := mk_table (tbl_columns tb) (tbl_rows tb ++ [mk_row id ts t o i])
                      (if is_autoincrement (tbl_columns tb) then id else tbl_seq tb)
                      (tbl_accepts tb)]> db.
Proof.
  unfold insert_row. destruct (db !! name) as [tb|]; [|discriminate].
  destruct (forallb (has_column (tbl_columns tb)) insert_columns) eqn:Hc; cbn; [|discriminate].
  destruct (new_rowid _ _ _ _) as [id|] eqn:Hid; [|discriminate].
  destruct (tbl_accepts tb _ _); [|discriminate].
  injection 1 as <-. eauto 10.
Qed.








Lemma appended_rows_length next ts (rows : list (V * V * V)) :
  length (appended_rows round3 next ts rows) = length rows.
Proof.
  revert next. induction rows as [|[[t o] i] rows IH]; intros next; cbn; [reflexivity|].
  rewrite IH. reflexivity.
Qed.

(** The archive after the completion event, when the CSV and the database
    writes succeed. *)
Lemma completion_database (s : app V) (e : fire_env V) :
  timer_active s = true -> loop_count s <= iteration s ->
  length (deltat s) = length (aout s) -> length (aout s) = length (ain s) ->
  fe_csv_ok e = true -> fe_db_ok e = true ->
  forall db1,
    Psydaqgd.insert_rows round3 (strftime_db (fe_db_now e)) (fe_db_random e)
      (zip3 (deltat s) (aout s) (ain s))
      (create_table_if_not_exists Psydaqgd.db_table acquisition_data_columns (database s))
      = Some db1 ->
    database (fst (Psydaqgd.fire fmt3 round3 e s)) = db1.
Proof.
  intros Hon Hle Hl1 Hl2 Hcsv Hdb db1 Hins. rewrite psy_fire_complete_eq by assumption.
  pose proof (save_data_to_file_ok (set_timer_active false s) e db1 Hl1 Hl2 Hcsv Hdb Hins)
    as Hsave.
  assert (H : database (fst (completion e (set_timer_active false s))) = db1).
  { unfold completion. rewrite (bind_ok _ _ _ _ _ Hsave).
    set (fn := Psydaqgd.csv_filename (fe_csv_now e)).
    assert (Hk : keeps_file fn (bind (Psydaqgd.save_plot_as_png e)
                   (fun _ => gd e (fe_csv_upload e) fn drive_folder))).
    { apply keeps_file_bind.
      - apply png_keeps_file; [apply csv_not_token|apply csv_not_png].
      - intros _. apply gd_keeps_file, csv_not_token. }
    destruct (Hk (set_database db1 (set_files (<[fn := savetxt_lines fmt3
                 (zip3 (deltat s) (aout s) (ain s))]> (files s)) (set_timer_active false s))))
      as [_ Hd].
    exact Hd. }
  destruct (completion e (set_timer_active false s)) as [s1 [[]|x]]; exact H.
Qed.



(** *** Every written value comes from [aopoints]

    [safe pts m Q]: from a state whose table is [pts] and whose writes all
    sent points of [pts], [m] keeps both facts, and a value it returns
    satisfies [Q]. *)

Definition good (pts : list V) (s : app V) : Prop :=
  aopoints s = pts /\ forall v, CallWrite v ∈ calls s -> v ∈ pts.

Definition safe (pts : list V) {A} (m : M A) (Q : A -> Prop) : Prop :=
  forall s, good pts s -> good pts (fst (m s)) /\ (forall a, snd (m s) = Ok a -> Q a).

Section Safe.
Variable pts : list V.

Lemma safe_ret {A} (a : A) (Q : A -> Prop) : Q a -> safe pts (ret a) Q.
Proof. intros Hq s Hs. split; [exact Hs|]. intros b Hb. injection Hb as <-. exact Hq. Qed.

Lemma safe_raise {A} (x : exn) (Q : A -> Prop) : safe pts (raise x) Q.
Proof. intros s Hs. split; [exact Hs|discriminate]. Qed.

Lemma safe_gets {A} (f : app V -> A) : safe pts (gets f) (fun _ => True).
Proof. intros s Hs. split; [exact Hs|auto]. Qed.

Lemma safe_get : safe pts get (fun _ => True).
Proof. intros s Hs. split; [exact Hs|auto]. Qed.

Lemma safe_modify (f : app V -> app V) :
  (forall s, aopoints (f s) = aopoints s /\ calls (f s) = calls s) ->
  safe pts (modify f) (fun _ => True).
Proof.
  intros Hf s [Hp Hc]. destruct (Hf s) as [H1 H2]. cbn.
  split; [split; [congruence|rewrite H2; exact Hc]|auto].
Qed.

Lemma safe_hw (c : hw_call V) :
  (forall v, c = CallWrite v -> v ∈ pts) -> safe pts (hw c) (fun _ => True).
Proof.
  intros Hc s [Hp Hw]. cbn. split; [|auto]. split; [exact Hp|].
  intros v Hv. apply elem_of_app in Hv as [Hv|Hv]; [exact (Hw v Hv)|].
  apply list_elem_of_singleton in Hv. exact (Hc v (eq_sym Hv)).
Qed.

Lemma safe_frame {A} (m : M A) : keeps_frame m -> safe pts m (fun _ => True).
Proof.
  intros Hk s [Hp Hw].
  destruct (Hk s) as (_ & _ & H3 & _ & _ & _ & _ & _ & _ & _ & _ & H12).
  split; [|auto]. split; [congruence|rewrite H12; exact Hw].
Qed.

Lemma safe_bind {A B} (m : M A) (k : A -> M B) (Q : A -> Prop) (R : B -> Prop) :
  safe pts m Q -> (forall a, Q a -> safe pts (k a) R) -> safe pts (bind m k) R.
Proof.
  intros Hm Hk s Hs. unfold bind. destruct (Hm s Hs) as [Hs1 Hq].
  destruct (m s) as [s1 [a|x]]; cbn in *; [|split; [exact Hs1|discriminate]].
  exact (Hk a (Hq a eq_refl) s1 Hs1).
Qed.

Lemma safe_try {A} (m : M A) (h : exn -> M A) (Q : A -> Prop) :
  safe pts m Q -> (forall x, safe pts (h x) Q) -> safe pts (try_except m h) Q.
Proof.
  intros Hm Hh s Hs. unfold try_except. destruct (Hm s Hs) as [Hs1 Hq].
  destruct (m s) as [s1 [a|x]]; cbn in *; [split; assumption|exact (Hh x s1 Hs1)].
Qed.

Lemma safe_next : safe pts next_output_point (fun v => v ∈ pts).
Proof.
  intros s [Hp Hw]. unfold next_output_point, bind, get, gets, modify, ret, raise.
  destruct (length (aopoints s) <=? current_index s); cbn;
    [destruct (aopoints s !! 0) as [v|] eqn:E
    |destruct (aopoints s !! current_index s) as [v|] eqn:E]; cbn;
    (split; [split; assumption|]); try discriminate;
    intros a Ha; injection Ha as <-; rewrite <- Hp; eapply list_elem_of_lookup_2; exact E.
Qed.

End Safe.

Ltac safe_tac :=
  repeat match goal with
  | |- safe _ (bind next_output_point _) _ =>
      eapply safe_bind; [apply safe_next|intros ? ?]
  | |- safe _ (bind _ _) _ =>
      apply safe_bind with (Q := fun _ => True); [|intros ? _]
  | |- safe _ (ret _) _ => apply safe_ret; exact I
  | |- safe _ (raise _) _ => apply safe_raise
  | |- safe _ (gets _) _ => apply safe_gets
  | |- safe _ get _ => apply safe_get
  | |- safe _ (modify _) _ => apply safe_modify; intros; split; reflexivity
  | |- safe _ (hw (CallWrite _)) _ =>
      apply safe_hw; intros ? Hcw; injection Hcw as <-; assumption
  | |- safe _ (hw _) _ => apply safe_hw; intros ? ?; discriminate
  | |- safe _ (try_except _ _) _ => apply safe_try; [|intros ?]
  | |- safe _ (if ?b then _ else _) _ => destruct b
  | |- safe _ (match ?o with _ => _ end) _ => destruct o
  end.

Lemma safe_write pts e v :
  v ∈ pts -> safe pts (write_analog e v) (fun _ => True).
Proof. intros Hv. unfold write_analog. safe_tac. Qed.

Lemma safe_read pts e : safe pts (read_analog e) (fun _ => True).
Proof. unfold read_analog. safe_tac. Qed.

Lemma safe_psy_start pts ao ai cnt :
  safe pts (Psydaqgd.start_acquisition ao ai cnt) (fun _ => True).
Proof.
  unfold Psydaqgd.start_acquisition, Psydaqgd.run_acquisition, release_task. safe_tac.
Qed.

Lemma safe_psy_fire pts e : safe pts (Psydaqgd.fire fmt3 round3 e) (fun _ => True).
Proof.
  unfold Psydaqgd.fire, Psydaqgd.perform_iteration, Psydaqgd.perform_iteration_body,
    timer_stop, append_aout, append_deltat, append_ain.
  safe_tac;
    first [ apply safe_frame; first [ apply keeps_save_data_to_file
                                    | apply keeps_save_plot_as_png | apply keeps_gd ]
          | apply safe_write; assumption
          | apply safe_read ].
Qed.

Lemma safe_c_toggle pts ao ai e :
  safe pts (Pysideaoai.toggle_acquisition fmt3 ao ai e) (fun _ => True).
Proof.
  unfold Pysideaoai.toggle_acquisition, Pysideaoai.start_acquisition,
    Pysideaoai.stop_acquisition, timer_stop, release_task.
  safe_tac. apply safe_frame, keeps_c_save_data_to_file.
Qed.

Lemma safe_c_fire pts e : safe pts (Pysideaoai.fire e) (fun _ => True).
Proof.
  unfold Pysideaoai.fire, Pysideaoai.update_plot, append_aout, append_deltat, append_ain.
  safe_tac; first [apply safe_write; assumption | apply safe_read].
Qed.

Lemma psy_run_events_good pts evs (s : app V) :
  good pts s -> good pts (Psydaqgd.run_events fmt3 round3 evs s).
Proof.
  revert s. induction evs as [|ev evs IH]; intros s Hs; cbn; [exact Hs|].
  apply IH. destruct ev as [ao ai cnt|e]; cbn.
  - exact (proj1 (safe_psy_start pts ao ai cnt s Hs)).
  - exact (proj1 (safe_psy_fire pts e s Hs)).
Qed.

Lemma c_run_events_good pts evs (s : app V) :
  good pts s -> good pts (Pysideaoai.run_events fmt3 evs s).
Proof.
  revert s. induction evs as [|ev evs IH]; intros s Hs; cbn; [exact Hs|].
  apply IH. destruct ev as [ao ai e|e]; cbn.
  - exact (proj1 (safe_c_toggle pts ao ai e s Hs)).
  - exact (proj1 (safe_c_fire pts e s Hs)).
Qed.

Lemma lookup_map_list {A B} (f : A -> B) (l : list A) (i : nat) :
  map f l !! i = option_map f (l !! i).
Proof. revert i. induction l as [|x l IH]; intros [|i]; cbn; auto. Qed.

(** The files after the continuous Stop: the CSV at its name. *)
Lemma c_stop_files (s : app V) (e : fire_env V) :
  length (deltat s) = length (aout s) -> length (aout s) = length (ain s) ->
  fe_csv_ok e = true ->
  files (fst (Pysideaoai.stop_acquisition fmt3 e s)) =
  <[Pysideaoai.csv_filename (fe_csv_now e) :=
      savetxt_lines fmt3 (zip3 (deltat s) (aout s) (ain s))]> (files s).
Proof.
  intros Hl1 Hl2 Hcsv.
  unfold Pysideaoai.stop_acquisition, Pysideaoai.save_data_to_file, column_stack, savetxt,
    timer_stop, release_task, hw, bind, gets, get, modify, ret, raise.
  destruct s as [a b pts ci it lc ao_ dt ai_ on acq c fs db up]; cbn in *.
  destruct a, b; cbn; rewrite Hl1, Hl2, !Nat.eqb_refl, Hcsv; reflexivity.
Qed.

(** *** Reading the rendering back *)

Lemma list_ascii_app (a b : string) :
  String.list_ascii_of_string (a +s+ b) =
  String.list_ascii_of_string a ++ String.list_ascii_of_string b.
Proof.
  induction a as [|c a IH]; [reflexivity|].
  change (c :: String.list_ascii_of_string (a +s+ b) =
          c :: String.list_ascii_of_string a ++ String.list_ascii_of_string b).
  rewrite IH. reflexivity.
Qed.

Lemma list_ascii_length (a : string) :
  length (String.list_ascii_of_string a) = String.length a.
Proof. induction a as [|c a IH]; cbn; congruence. Qed.

Lemma digits_value_app (l1 l2 : list Ascii.ascii) (acc : Z) :
  Dashboard.digits_value (l1 ++ l2) acc =
  match Dashboard.digits_value l1 acc with
  | Some a => Dashboard.digits_value l2 a
  | None => None
  end.
Proof.
  revert acc. induction l1 as [|c l1 IH]; intros acc; cbn; [reflexivity|].
  destruct (Dashboard.digit_value c); auto.
Qed.

Lemma digit_value_char (d : nat) :
  d < 10 -> Dashboard.digit_value (digit_char d) = Some (Z.of_nat d).
Proof.
  intros H. unfold Dashboard.digit_value. rewrite digit_char_digit by exact H.
  unfold digit_char. rewrite Ascii.nat_ascii_embedding by lia.
  replace (48 + d - 48) with d by lia. reflexivity.
Qed.

Lemma dec_aux_value (f : nat) (n acc : Z) :
  (0 <= n < 10 ^ Z.of_nat f)%Z ->
  Dashboard.digits_value (String.list_ascii_of_string (Fixed3.dec_aux f n)) acc =
  Some (acc * 10 ^ Z.of_nat (String.length (Fixed3.dec_aux f n)) + n)%Z.
Proof.
  revert n acc. induction f as [|f IH]; intros n acc Hn.
  - cbn in Hn |- *. f_equal. lia.
  - cbn [Fixed3.dec_aux]. destruct (n <? 10)%Z eqn:E.
    + apply Z.ltb_lt in E. cbn [String.list_ascii_of_string Dashboard.digits_value String.length].
      rewrite digit_value_char by lia. rewrite Z2Nat.id by lia. f_equal.
    + apply Z.ltb_ge in E.
      rewrite Nat2Z.inj_succ, Z.pow_succ_r in Hn by lia.
      assert (Hq : (0 <= n / 10 < 10 ^ Z.of_nat f)%Z).
      { split; [apply Z.div_pos; lia|]. apply Z.div_lt_upper_bound; lia. }
      assert (Hm : (0 <= n mod 10 < 10)%Z) by (apply Z.mod_pos_bound; lia).
      rewrite list_ascii_app, digits_value_app, (IH _ _ Hq).
      cbn [String.list_ascii_of_string Dashboard.digits_value].
      rewrite digit_value_char by lia. rewrite Z2Nat.id by lia.
      rewrite string_length_app. cbn [String.length]. f_equal.
      rewrite Nat2Z.inj_add, Z.pow_add_r by lia. change (Z.of_nat 1) with 1%Z.
      pose proof (Z.div_mod n 10 ltac:(lia)). nia.
Qed.

Lemma dec_Z_value (n : Z) :
  (0 <= n)%Z ->
  Dashboard.digits_value (String.list_ascii_of_string (Fixed3.dec_Z n)) 0 = Some n.
Proof.
  intros Hn. unfold Fixed3.dec_Z. rewrite dec_aux_value; [f_equal; lia|].
  split; [exact Hn|].
  rewrite Nat2Z.inj_succ, Z2Nat.id by apply Z.log2_nonneg.
  apply Z.lt_le_trans with (2 ^ Z.succ (Z.log2 n))%Z.
  - destruct (Z.eq_dec n 0%Z) as [->|Hnz]; [apply Z.pow_pos_nonneg; [lia|]; pose proof (Z.log2_nonneg 0%Z); lia|].
    apply Z.log2_spec. lia.
  - apply Z.pow_le_mono_l. lia.
Qed.

Lemma pad_digits_value (w n : nat) (acc : Z) :
  n < 10 ^ w ->
  Dashboard.digits_value (String.list_ascii_of_string (pad_digits w n)) acc =
  Some (acc * 10 ^ Z.of_nat w + Z.of_nat n)%Z.
Proof.
  revert n acc. induction w as [|w IH]; intros n acc Hn.
  - cbn in Hn |- *. f_equal. lia.
  - cbn [pad_digits]. cbn [Nat.pow] in Hn.
    assert (Hq : n / 10 < 10 ^ w) by (apply Nat.Div0.div_lt_upper_bound; lia).
    rewrite list_ascii_app, digits_value_app, (IH _ _ Hq).
    cbn [String.list_ascii_of_string Dashboard.digits_value].
    rewrite digit_value_char by (apply Nat.mod_upper_bound; lia). f_equal.
    rewrite Nat2Z.inj_succ, Z.pow_succ_r by lia.
    pose proof (Nat.div_mod_eq n 10) as Hd.
    assert (Z.of_nat n = Z.of_nat (n / 10) * 10 + Z.of_nat (n mod 10))%Z by lia.
    nia.
Qed.

Lemma round_half_even_div_sign (a b : Z) :
  (0 < b)%Z ->
  ((0 <= a)%Z -> (0 <= Fixed3.round_half_even_div a b)%Z) /\
  ((a < 0)%Z -> (Fixed3.round_half_even_div a b <= 0)%Z).
Proof.
  intros Hb. unfold Fixed3.round_half_even_div.
  pose proof (Z.div_mod a b ltac:(lia)). pose proof (Z.mod_pos_bound a b Hb).
  set (q := (a / b)%Z) in *. set (r := (a mod b)%Z) in *.
  split; intros Ha; destruct (2 * r ?= b)%Z; try destruct (Z.even q); nia.
Qed.

Lemma scaled_sign (x : Q) :
  ((Qnum x <? 0)%Z = true -> (Fixed3.scaled x <= 0)%Z) /\
  ((Qnum x <? 0)%Z = false -> (0 <= Fixed3.scaled x)%Z).
Proof.
  unfold Fixed3.scaled.
  destruct (round_half_even_div_sign (Qnum x * 1000) (Zpos (Qden x)) ltac:(lia)) as [Hp Hn].
  split; intros H; [apply Z.ltb_lt in H|apply Z.ltb_ge in H]; [apply Hn|apply Hp]; lia.
Qed.

Lemma forallb_impl {A} (p q : A -> bool) (l : list A) :
  (forall x, p x = true -> q x = true) -> forallb p l = true -> forallb q l = true.
Proof.
  intros Hpq. induction l as [|x l IH]; cbn; [reflexivity|].
  intros [Hx Hl]%andb_prop. rewrite (Hpq x Hx), (IH Hl). reflexivity.
Qed.

Lemma break_dot_digits (l r : list Ascii.ascii) :
  forallb Fixed3.is_digit l = true ->
  Dashboard.break_dot (l ++ "."%char :: r) = (l, Some r).
Proof.
  induction l as [|c l IH]; cbn; [reflexivity|].
  intros [Hc Hl]%andb_prop.
  destruct (Ascii.eqb_spec c "."%char) as [->|_]; [discriminate|].
  rewrite (IH Hl). reflexivity.
Qed.

Lemma drop_spaces_digit (c : Ascii.ascii) (l : list Ascii.ascii) :
  Fixed3.is_digit c = true -> Dashboard.drop_spaces (c :: l) = c :: l.
Proof.
  intros Hc. cbn. destruct (Ascii.eqb_spec c " "%char) as [->|_]; [discriminate|reflexivity].
Qed.

Lemma split_sign_digit (c : Ascii.ascii) (l : list Ascii.ascii) :
  Fixed3.is_digit c = true -> Dashboard.split_sign (c :: l) = (1%Z, c :: l).
Proof.
  intros Hc. cbn.
  destruct (Ascii.eqb_spec c "-"%char) as [->|_]; [discriminate|].
  destruct (Ascii.eqb_spec c "+"%char) as [->|_]; [discriminate|reflexivity].
Qed.

(** The field [printf_3f x] reads back as [round3 x]. *)
Lemma parse_printf_3f (x : Q) :
  Dashboard.parse_fixed (Fixed3.printf_3f x) = Some (Fixed3.round3 x).
Proof.
  unfold Dashboard.parse_fixed, Fixed3.printf_3f, Fixed3.round3.
  pose proof (scaled_sign x) as [Hneg Hpos].
  set (m := Z.abs (Fixed3.scaled x)).
  assert (Hm : (0 <= m / 1000)%Z) by (apply Z.div_pos; unfold m; lia).
  assert (Hr : (0 <= m mod 1000 < 1000)%Z) by (apply Z.mod_pos_bound; lia).
  destruct (dec_aux_ok (S (Z.to_nat (Z.log2 (m / 1000)))) (m / 1000) Hm) as [Hd Hne].
  destruct (pad_digits_ok 3 (Z.to_nat (m mod 1000))) as [Hl Hp].
  pose proof (dec_Z_value (m / 1000) Hm) as Hiv.
  pose proof (pad_digits_value 3 (Z.to_nat (m mod 1000)) 0 ltac:(cbn; lia)) as Hfv.
  fold (Fixed3.dec_Z (m / 1000)) in Hd, Hne.
  specialize (Hne ltac:(discriminate)).
  unfold Fixed3.all_digits in Hd, Hp.
  rewrite <- list_ascii_length in Hl.
  rewrite !list_ascii_app.
  destruct (String.list_ascii_of_string (Fixed3.dec_Z (m / 1000))) as [|c ip] eqn:Eip;
    [destruct (Fixed3.dec_Z (m / 1000)); [congruence|discriminate]|].
  set (fp := String.list_ascii_of_string (pad_digits 3 (Z.to_nat (m mod 1000)))) in *.
  destruct fp as [|f1 [|f2 [|f3 [|]]]] eqn:Efp; try discriminate.
  cbn in Hp. rewrite !andb_true_r in Hp. apply andb_prop in Hp as [Hf1 [Hf2 Hf3]%andb_prop].
  cbn in Hd. apply andb_prop in Hd as [Hc Hd].
  assert (Hcs : Ascii.eqb c " "%char = false)
    by (destruct (Ascii.eqb_spec c " "%char) as [->|]; [discriminate|reflexivity]).
  assert (Hf3s : Ascii.eqb f3 " "%char = false)
    by (destruct (Ascii.eqb_spec f3 " "%char) as [->|]; [discriminate|reflexivity]).
  assert (Htrim : forall pre, (pre = [] \/ pre = ["-"%char]) ->
            Dashboard.trim (pre ++ (c :: ip) ++ String.list_ascii_of_string "." ++ [f1; f2; f3])
            = pre ++ (c :: ip) ++ "."%char :: [f1; f2; f3]).
  { intros pre Hpre. unfold Dashboard.trim.
    change (String.list_ascii_of_string ".") with ["."%char].
    assert (Hd1 : Dashboard.drop_spaces (pre ++ (c :: ip) ++ ["."%char] ++ [f1; f2; f3])
                  = pre ++ (c :: ip) ++ ["."%char] ++ [f1; f2; f3])
      by (destruct Hpre as [-> | ->]; cbn [Datatypes.app Dashboard.drop_spaces]; rewrite ?Hcs; reflexivity).
    rewrite Hd1.
    replace (pre ++ (c :: ip) ++ ["."%char] ++ [f1; f2; f3])
      with ((pre ++ (c :: ip) ++ ["."%char] ++ [f1; f2]) ++ [f3])
      by (rewrite <- !app_assoc; reflexivity).
    rewrite rev_unit. cbn [Dashboard.drop_spaces]. rewrite Hf3s.
    rewrite <- rev_unit, rev_involutive, <- !app_assoc. reflexivity. }
  destruct (Qnum x <? 0)%Z eqn:Es.
  - change (String.list_ascii_of_string "-") with (["-"%char] ++ []).
    rewrite app_nil_r. rewrite (Htrim ["-"%char]) by auto.
    cbn [Datatypes.app Dashboard.split_sign]. change (Ascii.eqb "-" "-") with true. cbv iota.
    unfold Dashboard.split_point.
    pose proof (break_dot_digits (c :: ip) [f1; f2; f3] ltac:(cbn; rewrite Hc; exact Hd)) as Hb.
    cbn [Datatypes.app] in Hb. rewrite Hb.
    cbn [length Nat.add Nat.eqb]. rewrite Hiv, Hfv.
    specialize (Hneg eq_refl). f_equal. f_equal.
    change (Z.of_nat 3) with 3%Z. rewrite Z2Nat.id by lia.
    pose proof (Z.div_mod m 1000 ltac:(lia)). unfold m in *. lia.
  - change (String.list_ascii_of_string "") with (@nil Ascii.ascii).
    rewrite (Htrim []) by auto. cbn [Datatypes.app].
    rewrite split_sign_digit by exact Hc.
    unfold Dashboard.split_point.
    pose proof (break_dot_digits (c :: ip) [f1; f2; f3] ltac:(cbn; rewrite Hc; exact Hd)) as Hb.
    cbn [Datatypes.app] in Hb. rewrite Hb.
    cbn [length Nat.add Nat.eqb]. rewrite Hiv, Hfv.
    specialize (Hpos eq_refl). f_equal. f_equal.
    change (Z.of_nat 3) with 3%Z. rewrite Z2Nat.id by lia.
    pose proof (Z.div_mod m 1000 ltac:(lia)). unfold m in *. lia.
Qed.

Lemma split_on_app (c : Ascii.ascii) (a b : string) :
  forallb (fun y => negb (Ascii.eqb y c)) (String.list_ascii_of_string a) = true ->
  Dashboard.split_on c (a +s+ String c b) = a :: Dashboard.split_on c b.
Proof.
  induction a as [|x a IH]; intros H.
  - change (Dashboard.split_on c (String c b) = "" :: Dashboard.split_on c b).
    cbn [Dashboard.split_on]. rewrite Ascii.eqb_refl. reflexivity.
  - cbn in H. apply andb_prop in H as [Hx Ha]. apply negb_true_iff in Hx.
    change (Dashboard.split_on c (String x (a +s+ String c b)) =
            String x a :: Dashboard.split_on c b).
    cbn [Dashboard.split_on]. rewrite Hx, (IH Ha). reflexivity.
Qed.

Lemma split_on_none (c : Ascii.ascii) (a : string) :
  forallb (fun y => negb (Ascii.eqb y c)) (String.list_ascii_of_string a) = true ->
  Dashboard.split_on c a = [a].
Proof.
  induction a as [|x a IH]; intros H; [reflexivity|].
  cbn in H. apply andb_prop in H as [Hx Ha]. apply negb_true_iff in Hx.
  cbn [Dashboard.split_on]. rewrite Hx, (IH Ha). reflexivity.
Qed.

Lemma printf_3f_no_comma (x : Q) :
  forallb (fun y => negb (Ascii.eqb y ","%char))
    (String.list_ascii_of_string (Fixed3.printf_3f x)) = true.
Proof.
  assert (Hdig : forall y, Fixed3.is_digit y = true -> negb (Ascii.eqb y ","%char) = true).
  { intros y Hy. destruct (Ascii.eqb_spec y ","%char) as [->|]; [discriminate|reflexivity]. }
  unfold Fixed3.printf_3f. set (m := Z.abs (Fixed3.scaled x)).
  assert (Hm : (0 <= m / 1000)%Z) by (apply Z.div_pos; unfold m; lia).
  destruct (dec_aux_ok (S (Z.to_nat (Z.log2 (m / 1000)))) (m / 1000) Hm) as [Hd _].
  destruct (pad_digits_ok 3 (Z.to_nat (m mod 1000))) as [_ Hp].
  rewrite !list_ascii_app, !forallb_app.
  fold (Fixed3.dec_Z (m / 1000)) in Hd. unfold Fixed3.all_digits in Hd, Hp.
  rewrite (forallb_impl _ _ _ Hdig Hd), (forallb_impl _ _ _ Hdig Hp).
  destruct (Qnum x <? 0)%Z; reflexivity.
Qed.

Lemma printf_3f_nonempty (x : Q) : String.eqb (Fixed3.printf_3f x) "" = false.
Proof.
  destruct (String.eqb_spec (Fixed3.printf_3f x) "") as [E|]; [|reflexivity].
  apply (f_equal String.length) in E. unfold Fixed3.printf_3f in E.
  rewrite !string_length_app in E. cbn in E. lia.
Qed.

(** The data lines of a saved file, split into fields. *)
Lemma csv_line_fields (rows : list (Q * Q * Q)) :
  map (Dashboard.split_on ","%char)
      (List.filter (fun l => negb (String.eqb l "")) (map (csv_line Fixed3.printf_3f) rows)) =
  map (fun r => [Fixed3.printf_3f (fst (fst r)); Fixed3.printf_3f (snd (fst r));
                 Fixed3.printf_3f (snd r)]) rows.
Proof.
  induction rows as [|[[t o] i] rows IH]; [reflexivity|].
  assert (Hl : String.eqb (csv_line Fixed3.printf_3f (t, o, i)) "" = false).
  { destruct (String.eqb_spec (csv_line Fixed3.printf_3f (t, o, i)) "") as [E|]; [|reflexivity].
    apply (f_equal String.length) in E. unfold csv_line in E.
    rewrite !string_length_app in E. cbn in E. lia. }
  cbn [map List.filter]. rewrite Hl. cbn [negb map]. rewrite IH. f_equal.
  unfold csv_line.
  change (Fixed3.printf_3f t +s+ "," +s+ Fixed3.printf_3f o +s+ "," +s+ Fixed3.printf_3f i)
    with (Fixed3.printf_3f t +s+ String ","%char
            (Fixed3.printf_3f o +s+ String ","%char (Fixed3.printf_3f i))).
  rewrite !split_on_app, split_on_none by apply printf_3f_no_comma. reflexivity.
Qed.

(** A column of printed numbers reads back as their rounded values. *)
Lemma column_of_printed {A} (fields : A -> list string) (k : nat) (proj : A -> Q)
    (rows : list A) :
  rows <> [] ->
  (forall r, Dashboard.cell (fields r) k = Some (Fixed3.printf_3f (proj r))) ->
  Dashboard.column_of (map (fun r => Dashboard.cell r k) (map fields rows)) =
  Dashboard.ColFloat (map (fun r => Some (Fixed3.round3 (proj r))) rows).
Proof.
  intros Hne Hc. rewrite map_map.
  rewrite (map_ext (fun r => Dashboard.cell (fields r) k)
                   (fun r => Some (Fixed3.printf_3f (proj r))) Hc rows).
  unfold Dashboard.column_of. rewrite length_map.
  destruct rows as [|r0 rows]; [congruence|]. cbn [length Nat.eqb negb andb].
  assert (Hall : forall l : list A,
            forallb Dashboard.parses (map (fun r => Some (Fixed3.printf_3f (proj r))) l) = true).
  { induction l as [|r l IH]; [reflexivity|]. cbn [map forallb].
    unfold Dashboard.parses at 1. rewrite parse_printf_3f, IH. reflexivity. }
  rewrite Hall. f_equal. rewrite map_map. apply map_ext. intros r.
  apply parse_printf_3f.
Qed.

Lemma read_csv_savetxt (rows : list (Q * Q * Q)) :
  rows <> [] ->
  Dashboard.read_csv (savetxt_lines Fixed3.printf_3f rows) =
  Some [("Time (s)", Dashboard.ColFloat (map (fun r => Some (Fixed3.round3 (fst (fst r)))) rows));
        (" AO (V)", Dashboard.ColFloat (map (fun r => Some (Fixed3.round3 (snd (fst r)))) rows));
        (" AI (V)", Dashboard.ColFloat (map (fun r => Some (Fixed3.round3 (snd r))) rows))].
Proof.
  intros Hne. unfold Dashboard.read_csv, savetxt_lines. cbv beta iota zeta.
  assert (Hh : Dashboard.split_on ","%char csv_header = ["Time (s)"; " AO (V)"; " AI (V)"])
    by reflexivity.
  rewrite Hh, csv_line_fields.
  assert (Hx : forall l : list (Q * Q * Q),
            existsb (fun r => length ["Time (s)"; " AO (V)"; " AI (V)"] <? length r)
              (map (fun r => [Fixed3.printf_3f (fst (fst r)); Fixed3.printf_3f (snd (fst r));
                              Fixed3.printf_3f (snd r)]) l) = false)
    by (induction l as [|r l IH]; [reflexivity|]; exact IH).
  rewrite Hx. cbn [seq combine map fst snd length].
  f_equal.
  f_equal; [f_equal; apply column_of_printed; [exact Hne|]|].
  { intros r. unfold Dashboard.cell. cbn [nth_error].
    rewrite printf_3f_nonempty. reflexivity. }
  f_equal; [f_equal; apply column_of_printed; [exact Hne|]|].
  { intros r. unfold Dashboard.cell. cbn [nth_error].
    rewrite printf_3f_nonempty. reflexivity. }
  f_equal. f_equal; apply column_of_printed; [exact Hne|].
  intros r. unfold Dashboard.cell. cbn [nth_error].
  rewrite printf_3f_nonempty. reflexivity.
Qed.

Lemma zip3_proj {A B C} (a : list A) (b : list B) (c : list C) :
  length a = length b -> length b = length c ->
  map (fun r => fst (fst r)) (zip3 a b c) = a /\
  map (fun r => snd (fst r)) (zip3 a b c) = b /\
  map (fun r => snd r) (zip3 a b c) = c.
Proof.
  revert b c. induction a as [|x a IH]; intros [|y b] [|z c] Hab Hbc; cbn in *;
    try discriminate; [auto|].
  destruct (IH b c) as (H1 & H2 & H3); [lia|lia|].
  rewrite H1, H2, H3. auto.
Qed.

Lemma read_csv_series (d a i : list Q) :
  length d = length a -> length a = length i -> d <> [] ->
  Dashboard.read_csv (savetxt_lines Fixed3.printf_3f (zip3 d a i)) =
  Some [("Time (s)", Dashboard.ColFloat (map (fun v => Some (Fixed3.round3 v)) d));
        (" AO (V)", Dashboard.ColFloat (map (fun v => Some (Fixed3.round3 v)) a));
        (" AI (V)", Dashboard.ColFloat (map (fun v => Some (Fixed3.round3 v)) i))].
Proof.
  intros H1 H2 Hne.
  rewrite read_csv_savetxt.
  - destruct (zip3_proj d a i H1 H2) as (Hd & Ha & Hi).
    rewrite <- (map_map (fun r => fst (fst r)) (fun v => Some (Fixed3.round3 v))),
      <- (map_map (fun r => snd (fst r)) (fun v => Some (Fixed3.round3 v))),
      <- (map_map (fun r => snd r) (fun v => Some (Fixed3.round3 v))), Hd, Ha, Hi.
    reflexivity.
  - destruct d, a, i; cbn in *; congruence.
Qed.


End Lemmas.

(** ** Claims *)


Ltac fault_free_list :=
  repeat (apply List.Forall_cons;
          [unfold fault_free; cbn; split; [reflexivity|eexists; reflexivity]|]);
  apply List.Forall_nil.


(** C5. On every acquisition tick with both tasks bound (a psydaqgd timer
    event below the iteration limit, or any pysideaoai timer event), the
    driver sees exactly one write, and a read is issued only after that
    write has returned normally; nothing else is issued in the tick. *)
Theorem tick_write_then_read {V} (fmt3 : V -> string) (round3 : V -> V)
    (s : app V) (e : fire_env V)
    (Hon : timer_active s = true) (Hpts : 0 < length (aopoints s))
    (Hao : aotask s = true) (Hai : aitask s = true) :
  (iteration s < loop_count s ->
   exists v, calls (fst (Psydaqgd.fire fmt3 round3 e s)) =
             calls s ++ CallWrite v :: (if fe_write_ok e then [CallRead] else [])) /\
  (exists v, calls (fst (Pysideaoai.fire e s)) =
             calls s ++ CallWrite v :: (if fe_write_ok e then [CallRead] else [])).
Proof.
  split.
  - intros Hit.
    destruct (psy_fire_tick fmt3 round3 s e Hon Hit Hpts Hao Hai) as (i & v & _ & _ & Hf).
    exists v. rewrite Hf.
    destruct (fe_write_ok e); [destruct (fe_read e)|]; reflexivity.
  - destruct (c_fire_tick s e Hon Hpts Hao Hai) as (i & v & _ & _ & Hf).
    exists v. rewrite Hf.
    destruct (fe_write_ok e); [destruct (fe_read e)|]; reflexivity.
Qed.

Lemma tick_write_then_read_witness :
  let s1 := fst (Psydaqgd.start_acquisition "Dev2/ao0" "Dev2/ai0" (Some 3%Z)
                   Scenario.s_init) in
  exists v, calls (fst (Pysideaoai.fire (Scenario.env_ok 20 250) s1)) =
            calls s1 ++ [CallWrite v; CallRead].
Proof.
  destruct (tick_write_then_read Scenario.fmt_z Scenario.round_z
              (fst (Psydaqgd.start_acquisition "Dev2/ao0" "Dev2/ai0" (Some 3%Z)
                      Scenario.s_init)) (Scenario.env_ok 20 250))
    as [_ [v Hv]]; [reflexivity|cbn; lia|reflexivity|reflexivity|].
  exists v. exact Hv.
Defined.

(** C2, as the code does it.  A driver fault on tick [k <= N] of a finite
    run: that event reports the fault, the timer is stopped so the later
    events do nothing (no retry: [k] writes in all), no sink runs, and no
    StopTask/ClearTask is issued; the tasks are stopped and cleared by the
    next Start, whatever its input. *)
Theorem tick_fault_aborts_run {V} (fmt3 : V -> string) (round3 : V -> V)
    (s0 : app V) (ao ai : string) (N : nat)
    (pre : list (fire_env V)) (e : fire_env V) (post : list (fire_env V))
    (Hao : ao <> "") (Hai : ai <> "") (HN : 0 < N)
    (Hpts : 0 < length (aopoints s0))
    (Hk : length pre < N) (Hff : Forall fault_free pre)
    (Hfault : fe_write_ok e = false \/ fe_read e = None) :
  let s1 := fst (Psydaqgd.start_acquisition ao ai (Some (Z.of_nat N)) s0) in
  let run := Psydaqgd.fire_all fmt3 round3 (pre ++ [e] ++ post) s1 in
  snd run = map (fun _ => Ok tt) pre ++ Err HardwareFault :: map (fun _ => Ok tt) post /\
  timer_active (fst run) = false /\
  (exists d, calls (fst run) = calls s1 ++ d /\
             count_calls is_write d = S (length pre) /\ count_calls is_release d = 0) /\
  files (fst run) = files s1 /\ database (fst run) = database s1 /\
  uploads (fst run) = uploads s1 /\
  (forall ao' ai' cnt, exists d',
     calls (fst (Psydaqgd.start_acquisition ao' ai' cnt (fst run))) =
     calls (fst run) ++ [CallStopTask AO; CallClearTask AO; CallStopTask AI;
                         CallClearTask AI] ++ d').
Proof.
  cbv zeta. rewrite (psy_start_ok s0 ao ai N Hao Hai HN). cbn [fst].
  set (s1 := mk_app _ _ _ _ _ _ _ _ _ _ _ _ _ _ _).
  rewrite psy_fire_all_app.
  destruct (psy_run_ticks fmt3 round3 pre s1) as (ws & rs & s' & Hrun & Hlw & _ & _ & Ho & Ha
      & Hp & Hit & Hlc & _ & _ & _ & Hon & Hc & Hfs & Hdb & Hup);
    try (unfold s1; cbn; auto; lia).
  unfold s1 in Ho, Ha, Hp, Hit, Hlc, Hc, Hfs, Hdb, Hup.
  cbn in Ho, Ha, Hp, Hit, Hlc, Hc, Hfs, Hdb, Hup.
  rewrite Hrun. cbn [List.app Psydaqgd.fire_all].
  destruct (psy_fire_tick fmt3 round3 s' e Hon ltac:(lia) ltac:(rewrite Hp; exact Hpts) Ho Ha)
    as (i & v & _ & _ & Hf).
  assert (Hc' : exists c, Psydaqgd.fire fmt3 round3 e s' =
            (after_tick s' i v (iteration s') (deltat s') (ain s') false c, Err HardwareFault)
            /\ count_calls is_write c = 1 /\ count_calls is_release c = 0).
  { rewrite Hf. destruct (fe_write_ok e); [destruct (fe_read e)|].
    - exfalso. destruct Hfault; discriminate.
    - eexists; split; [reflexivity|split; reflexivity].
    - eexists; split; [reflexivity|split; reflexivity]. }
  destruct Hc' as (c & Hfe & Hcw & Hcr). rewrite Hfe.
  rewrite psy_fire_all_off by reflexivity. cbn [fst snd].
  destruct (count_pairs ws) as (Hw & _ & Hrel).
  repeat split.
  - exists (concat (map (fun w => [CallWrite w; CallRead]) ws) ++ c).
    unfold after_tick. cbn. rewrite Hc, <- app_assoc.
    rewrite !count_calls_app. repeat split; lia.
  - unfold after_tick; cbn; congruence.
  - unfold after_tick; cbn; congruence.
  - unfold after_tick; cbn; congruence.
  - intros ao' ai' cnt. apply psy_start_releases; unfold after_tick; cbn; assumption.
Qed.

Lemma tick_fault_aborts_run_witness :
  let s1 := fst (Psydaqgd.start_acquisition "Dev2/ao0" "Dev2/ai0" (Some (Z.of_nat 3))
                   Scenario.s_init) in
  let run := Psydaqgd.fire_all Scenario.fmt_z Scenario.round_z
               ([Scenario.env_ok 20 250] ++ [Scenario.env_read_fault 40]
                  ++ [Scenario.env_ok 60 270]) s1 in
  timer_active (fst run) = false.
Proof.
  destruct (tick_fault_aborts_run Scenario.fmt_z Scenario.round_z Scenario.s_init
              "Dev2/ao0" "Dev2/ai0" 3 [Scenario.env_ok 20 250] (Scenario.env_read_fault 40)
              [Scenario.env_ok 60 270])
    as (_ & Hoff & _);
    [discriminate|discriminate|lia|cbn; lia|cbn; lia|fault_free_list|right; reflexivity|].
  exact Hoff.
Defined.

(** C2 as stated fails: a read fault on tick 2 of a 3-tick run started from
    a fresh window issues no StopTask/ClearTask at all. *)
Lemma tick_fault_no_release :
  let s1 := fst (Psydaqgd.start_acquisition "Dev2/ao0" "Dev2/ai0" (Some 3%Z)
                   Scenario.s_init) in
  let run := Psydaqgd.fire_all Scenario.fmt_z Scenario.round_z
               [Scenario.env_ok 20 250; Scenario.env_read_fault 40;
                Scenario.env_ok 60 270; Scenario.env_ok 80 270] s1 in
  snd run = [Ok tt; Err HardwareFault; Ok tt; Ok tt] /\
  count_calls is_release (calls (fst run)) = 0.
Proof. vm_compute. split; reflexivity. Qed.

(** C3, as the code does it.  In pysideaoai the user's Stop (the button
    while acquiring) stops the timer and then calls StopTask and ClearTask on
    the AO and the AI task.  In psydaqgd the automatic end of a finite run
    stops the timer and issues no driver call at all; the tasks are stopped
    and cleared when the next Start begins. *)
Theorem termination_and_release {V} (fmt3 : V -> string) (round3 : V -> V)
    (s : app V) (e : fire_env V) :
  (acquiring s = true -> aotask s = true -> aitask s = true -> forall ao ai,
     calls (fst (Pysideaoai.toggle_acquisition fmt3 ao ai e s)) =
       calls s ++ [CallStopTask AO; CallClearTask AO; CallStopTask AI; CallClearTask AI] /\
     timer_active (fst (Pysideaoai.toggle_acquisition fmt3 ao ai e s)) = false) /\
  (timer_active s = true -> loop_count s <= iteration s ->
     calls (fst (Psydaqgd.fire fmt3 round3 e s)) = calls s /\
     timer_active (fst (Psydaqgd.fire fmt3 round3 e s)) = false) /\
  (aotask s = true -> aitask s = true -> forall ao ai cnt, exists d,
     calls (fst (Psydaqgd.start_acquisition ao ai cnt s)) =
       calls s ++ [CallStopTask AO; CallClearTask AO; CallStopTask AI; CallClearTask AI] ++ d).
Proof.
  split; [|split].
  - intros Hacq Hao Hai ao ai. rewrite c_toggle_stops by exact Hacq.
    apply c_stop_releases; assumption.
  - intros Hon Hle.
    destruct (psy_fire_complete fmt3 round3 s e Hon Hle)
      as (_ & _ & _ & _ & _ & _ & _ & _ & _ & Hon' & _ & Hc).
    split; [exact Hc|exact Hon'].
  - intros Hao Hai ao ai cnt. apply psy_start_releases; assumption.
Qed.

Lemma termination_and_release_witness :
  let s1 := fst (Pysideaoai.start_acquisition "Dev2/ao0" "Dev2/ai0" Scenario.s_init) in
  calls (fst (Pysideaoai.toggle_acquisition Scenario.fmt_z "Dev2/ao0" "Dev2/ai0"
                (Scenario.env_ok 20 250) s1)) =
    calls s1 ++ [CallStopTask AO; CallClearTask AO; CallStopTask AI; CallClearTask AI].
Proof.
  destruct (termination_and_release Scenario.fmt_z Scenario.round_z
              (fst (Pysideaoai.start_acquisition "Dev2/ao0" "Dev2/ai0" Scenario.s_init))
              (Scenario.env_ok 20 250)) as [Hc _].
  destruct (Hc eq_refl eq_refl eq_refl "Dev2/ao0" "Dev2/ai0") as [H _]. exact H.
Defined.

(** C3 as stated fails: a one-iteration psydaqgd run reaches its count and
    stops its timer by itself without any StopTask or ClearTask. *)
Lemma finite_end_no_release :
  let s1 := fst (Psydaqgd.start_acquisition "Dev2/ao0" "Dev2/ai0" (Some 1%Z)
                   Scenario.s_init) in
  let run := Psydaqgd.fire_all Scenario.fmt_z Scenario.round_z
               [Scenario.env_ok 20 250; Scenario.env_ok 40 0] s1 in
  timer_active (fst run) = false /\ iteration (fst run) = 1 /\
  count_calls is_release (calls (fst run)) = 0.
Proof. vm_compute. repeat split. Qed.

(** C4.  The timer event that completes a finite run, with three series of
    equal length and the CSV write succeeding, whatever the two uploads do
    (succeed, fail with an HttpError that [upload_to_folder] swallows, or
    raise): afterwards the CSV file holds the header and exactly the
    [R = length deltat] rows written before any upload, and, when the
    SQLite connection opened and its INSERTs went through, the archive holds
    the result of those INSERTs.  An upload of the CSV that raises makes the
    event report a failure. *)
Theorem upload_failure_keeps_local_sinks {V} (fmt3 : V -> string) (round3 : V -> V)
    (s : app V) (e : fire_env V)
    (Hon : timer_active s = true) (Hdone : loop_count s <= iteration s)
    (Hl1 : length (deltat s) = length (aout s)) (Hl2 : length (aout s) = length (ain s))
    (Hcsv : fe_csv_ok e = true) :
  let rows := zip3 (deltat s) (aout s) (ain s) in
  let r := Psydaqgd.fire fmt3 round3 e s in
  (fe_csv_upload e = UploadRaises -> exists x, snd r = Err x) /\
  files (fst r) !! Psydaqgd.csv_filename (fe_csv_now e) = Some (savetxt_lines fmt3 rows) /\
  length rows = length (deltat s) /\
  (fe_db_ok e = true -> forall db1,
     Psydaqgd.insert_rows round3 (strftime_db (fe_db_now e)) (fe_db_random e) rows
       (create_table_if_not_exists Psydaqgd.db_table acquisition_data_columns (database s))
       = Some db1 ->
     database (fst r) = db1).
Proof.
  cbv zeta. split; [|split; [|split]].
  - intros Hup. rewrite psy_fire_complete_eq by assumption.
    assert (Herr : snd (completion fmt3 round3 e (set_timer_active false s)) <> Ok tt).
    { unfold completion, bind.
      destruct (Psydaqgd.save_data_to_file fmt3 round3 e (set_timer_active false s))
        as [s3 [fn|x]]; [|discriminate].
      destruct (Psydaqgd.save_plot_as_png e s3) as [s4 [u|x]]; [|discriminate].
      rewrite Hup, gd_raises. discriminate. }
    destruct (completion fmt3 round3 e (set_timer_active false s)) as [s1 [u|x]];
      cbn in Herr |- *; [destruct u; congruence|eauto].
  - rewrite (completion_files fmt3 round3 s e Hon Hdone Hl1 Hl2 Hcsv);
      [apply lookup_insert_eq|apply csv_not_png|apply csv_not_token].
  - apply zip3_length; assumption.
  - intros Hdb db1 Hins.
    exact (completion_database fmt3 round3 s e Hon Hdone Hl1 Hl2 Hcsv Hdb db1 Hins).
Qed.

Lemma upload_failure_keeps_local_sinks_witness :
  let s1 := fst (Psydaqgd.fire_all Scenario.fmt_z Scenario.round_z
                   [Scenario.env_ok 20 250]
                   (fst (Psydaqgd.start_acquisition "Dev2/ao0" "Dev2/ai0" (Some 1%Z)
                           Scenario.s_init))) in
  let e := mk_env true (Some 0%Z) 40%Z Scenario.t0 true Scenario.t0 true (fun _ => None)
             Scenario.t0 true UploadHttpError UploadHttpError false in
  files (fst (Psydaqgd.fire Scenario.fmt_z Scenario.round_z e s1))
    !! Psydaqgd.csv_filename Scenario.t0 =
  Some (savetxt_lines Scenario.fmt_z (zip3 (deltat s1) (aout s1) (ain s1))).
Proof.
  cbv zeta.
  destruct (upload_failure_keeps_local_sinks Scenario.fmt_z Scenario.round_z
              (fst (Psydaqgd.fire_all Scenario.fmt_z Scenario.round_z
                      [Scenario.env_ok 20 250]
                      (fst (Psydaqgd.start_acquisition "Dev2/ao0" "Dev2/ai0" (Some 1%Z)
                              Scenario.s_init))))
              (mk_env true (Some 0%Z) 40%Z Scenario.t0 true Scenario.t0 true (fun _ => None)
                 Scenario.t0 true UploadHttpError UploadHttpError false))
    as (_ & Hf & _); [vm_compute; reflexivity|vm_compute; lia|vm_compute; reflexivity
                     |vm_compute; reflexivity|reflexivity|].
  exact Hf.
Defined.

(** C6.  The CSV file sink and the dashboard's reader: a file written by
    [np.savetxt] with [fmt="%.3f"] from any non-empty list of
    (time, output, input) rows over the rationals, read back with
    [pd.read_csv], gives the three named float columns, each value being
    [round(v, 3)] of the written one.  In particular the CSV file left by a
    completed psydaqgd run, and by pysideaoai's Stop, reads back as the
    rounded [deltat], [aout] and [ain] series. *)
Theorem csv_round_trip :
  (forall rows : list (Q * Q * Q), rows <> [] ->
     Dashboard.read_csv (savetxt_lines Fixed3.printf_3f rows) =
     Some [("Time (s)",
            Dashboard.ColFloat (map (fun r => Some (Fixed3.round3 (fst (fst r)))) rows));
           (" AO (V)",
            Dashboard.ColFloat (map (fun r => Some (Fixed3.round3 (snd (fst r)))) rows));
           (" AI (V)",
            Dashboard.ColFloat (map (fun r => Some (Fixed3.round3 (snd r))) rows))]) /\
  (forall (s : app Q) (e : fire_env Q),
     timer_active s = true -> loop_count s <= iteration s ->
     length (deltat s) = length (aout s) -> length (aout s) = length (ain s) ->
     deltat s <> [] -> fe_csv_ok e = true ->
     exists lines,
       files (fst (Psydaqgd.fire Fixed3.printf_3f Fixed3.round3 e s))
         !! Psydaqgd.csv_filename (fe_csv_now e) = Some lines /\
       Dashboard.read_csv lines =
       Some [("Time (s)", Dashboard.ColFloat (map (fun v => Some (Fixed3.round3 v)) (deltat s)));
             (" AO (V)", Dashboard.ColFloat (map (fun v => Some (Fixed3.round3 v)) (aout s)));
             (" AI (V)", Dashboard.ColFloat (map (fun v => Some (Fixed3.round3 v)) (ain s)))]) /\
  (forall (s : app Q) (e : fire_env Q),
     length (deltat s) = length (aout s) -> length (aout s) = length (ain s) ->
     deltat s <> [] -> fe_csv_ok e = true ->
     exists lines,
       files (fst (Pysideaoai.stop_acquisition Fixed3.printf_3f e s))
         !! Pysideaoai.csv_filename (fe_csv_now e) = Some lines /\
       Dashboard.read_csv lines =
       Some [("Time (s)", Dashboard.ColFloat (map (fun v => Some (Fixed3.round3 v)) (deltat s)));
             (" AO (V)", Dashboard.ColFloat (map (fun v => Some (Fixed3.round3 v)) (aout s)));
             (" AI (V)", Dashboard.ColFloat (map (fun v => Some (Fixed3.round3 v)) (ain s)))]).
Proof.
  split; [|split].
  - exact read_csv_savetxt.
  - intros s e Hon Hle Hl1 Hl2 Hne Hcsv.
    exists (savetxt_lines Fixed3.printf_3f (zip3 (deltat s) (aout s) (ain s))). split.
    + rewrite (completion_files Fixed3.printf_3f Fixed3.round3 s e Hon Hle Hl1 Hl2 Hcsv);
        [apply lookup_insert_eq|apply csv_not_png|apply csv_not_token].
    + apply read_csv_series; assumption.
  - intros s e Hl1 Hl2 Hne Hcsv.
    exists (savetxt_lines Fixed3.printf_3f (zip3 (deltat s) (aout s) (ain s))). split.
    + rewrite (c_stop_files Fixed3.printf_3f s e Hl1 Hl2 Hcsv). apply lookup_insert_eq.
    + apply read_csv_series; assumption.
Qed.

Lemma csv_round_trip_witness :
  Dashboard.read_csv (savetxt_lines Fixed3.printf_3f [(1 # 3, -2 # 7, 5 # 2)]) =
  Some [("Time (s)", Dashboard.ColFloat [Some (Fixed3.round3 (1 # 3))]);
        (" AO (V)", Dashboard.ColFloat [Some (Fixed3.round3 (-2 # 7))]);
        (" AI (V)", Dashboard.ColFloat [Some (Fixed3.round3 (5 # 2))])].
Proof.
  apply (proj1 csv_round_trip [(1 # 3, -2 # 7, 5 # 2)]). discriminate.
Defined.







(** ** The output table over the real numbers *)

Lemma output_table_length : length SineTable.generate_output_points = 100.
Proof. unfold SineTable.generate_output_points. rewrite length_map, length_seq. reflexivity. Qed.

Lemma output_table_lookup (k : nat) :
  k < 100 -> SineTable.generate_output_points !! k = Some (SineTable.aopoint k).
Proof.
  intros Hk. unfold SineTable.generate_output_points. rewrite lookup_map_list.
  assert (H : seq 0 100 !! k = Some k) by (apply lookup_seq; lia).
  rewrite H. reflexivity.
Qed.

Lemma output_table_members (v : R) :
  v ∈ SineTable.generate_output_points ->
  (exists k, k < 100 /\ v = SineTable.aopoint k) /\ (0 <= v <= 5)%R.
Proof.
  intros Hv. apply list_elem_of_In, in_map_iff in Hv as (k & <- & Hk).
  apply in_seq in Hk. split; [exists k; split; [lia|reflexivity]|].
  unfold SineTable.aopoint. pose proof (SIN_bound (INR k * (2 * PI / 100))). lra.
Qed.

(** C9.  In both programs, started from a window whose table is
    [generate_output_points], every value ever sent by a write, whatever
    the sequence of Start/Stop presses and timer events, is
    [2.5 * sin (2 * pi * k / 100) + 2.5] for some [k < 100], hence lies in
    [[0, 5]]; the index of the next point is the current one, or [0] once it
    has reached [100]. *)
Theorem output_in_table (fmt3 : R -> string) (round3 : R -> R)
    (fs : gmap string (list string)) (db : gmap string (sql_table R)) :
  (forall evs v,
     CallWrite v ∈ calls (Psydaqgd.run_events fmt3 round3 evs
                            (init_app SineTable.generate_output_points fs db)) ->
     (exists k, k < 100 /\ v = SineTable.aopoint k) /\ (0 <= v <= 5)%R) /\
  (forall evs v,
     CallWrite v ∈ calls (Pysideaoai.run_events fmt3 evs
                            (init_app SineTable.generate_output_points fs db)) ->
     (exists k, k < 100 /\ v = SineTable.aopoint k) /\ (0 <= v <= 5)%R) /\
  (forall s : app R, aopoints s = SineTable.generate_output_points ->
     let k := if 100 <=? current_index s then 0 else current_index s in
     next_output_point s = (set_current_index k s, Ok (SineTable.aopoint k))).
Proof.
  assert (H0 : good SineTable.generate_output_points
                 (init_app SineTable.generate_output_points fs db)).
  { split; [reflexivity|]. intros v Hv. cbn in Hv. inversion Hv. }
  split; [|split].
  - intros evs v Hv. apply output_table_members.
    exact (proj2 (psy_run_events_good fmt3 round3 _ evs _ H0) v Hv).
  - intros evs v Hv. apply output_table_members.
    exact (proj2 (c_run_events_good fmt3 _ evs _ H0) v Hv).
  - intros s Hp. cbv zeta. unfold next_output_point, bind, get, gets, modify, ret.
    rewrite Hp, output_table_length.
    destruct (Nat.leb_spec 100 (current_index s)) as [Hge|Hlt].
    + cbn [fst snd set_current_index aopoints current_index].
      rewrite Hp, output_table_lookup by lia. reflexivity.
    + rewrite set_current_index_same, Hp, output_table_lookup by exact Hlt. reflexivity.
Qed.

Lemma output_in_table_witness :
  let e := mk_env true (Some 1%R) (1 / 50)%R Scenario.t0 true Scenario.t0 true (fun _ => None) Scenario.t0
             true UploadOk UploadOk false in
  Forall (fun c => forall v, c = CallWrite v -> (0 <= v <= 5)%R)
    (calls (Psydaqgd.run_events (fun _ => "") (fun x => x)
              [Psydaqgd.EvStart "Dev2/ao0" "Dev2/ai0" (Some 2%Z);
               Psydaqgd.EvTimeout e; Psydaqgd.EvTimeout e]
              (init_app SineTable.generate_output_points ∅ ∅))).
Proof.
  intros e. apply List.Forall_forall. intros c Hc v ->.
  destruct (output_in_table (fun _ => "") (fun x => x) ∅ ∅) as [H _].
  exact (proj2 (H _ v (proj2 (list_elem_of_In _ _) Hc))).
Defined.



(** * Further properties of the code *)

Section More.
Context {V : Type} (fmt3 : V -> string) (round3 : V -> V).


(** *** Starting psydaqgd *)

Lemma psy_start_err (s : app V) (ao ai : string) (cnt : option Z) :
  (ao = "" \/ ai = "" \/ cnt = None \/ exists n, cnt = Some n /\ (n <= 0)%Z) ->
  Psydaqgd.start_acquisition ao ai cnt s =
  (set_aitask false (set_aotask false
     (set_calls (calls s ++ release_calls (aotask s) AO ++ release_calls (aitask s) AI) s)),
   Err ValueError).
Proof.
  intros Hbad.
  unfold Psydaqgd.start_acquisition, release_task, hw, bind, gets, modify, ret, raise.
  destruct s as [a b pts ci it lc ao_ dt ai_ on acq c fs db up]; cbn.
  assert (Hv : (String.eqb ao "" || String.eqb ai "")%bool = true \/
               (cnt = None \/ exists n, cnt = Some n /\ (n <= 0)%Z)).
  { destruct Hbad as [->|[->|H]]; [left; reflexivity|left; apply orb_true_r|right; exact H]. }
  destruct a, b; cbn;
    (destruct Hv as [->|[->|(n & -> & Hn)]];
     [|destruct (String.eqb ao "" || String.eqb ai "")%bool
     |destruct (String.eqb ao "" || String.eqb ai "")%bool;
        [|apply Z.leb_le in Hn; cbn; rewrite Hn]]);
    cbn; rewrite <- ?app_assoc, ?app_nil_r; reflexivity.
Qed.

(** The input fields of Start are either rejected or give [N > 0]. *)
Lemma start_input_cases (ao ai : string) (cnt : option Z) :
  (ao = "" \/ ai = "" \/ cnt = None \/ exists n, cnt = Some n /\ (n <= 0)%Z) \/
  (ao <> "" /\ ai <> "" /\ exists N, 0 < N /\ cnt = Some (Z.of_nat N)).
Proof.
  destruct (String.eq_dec ao "") as [->|Hao]; [left; auto|].
  destruct (String.eq_dec ai "") as [->|Hai]; [left; auto|].
  destruct cnt as [n|]; [|left; auto].
  destruct (Z.le_gt_cases n 0) as [Hn|Hn]; [left; eauto 10|].
  right. split; [exact Hao|split; [exact Hai|]].
  exists (Z.to_nat n). split; [lia|]. rewrite Z2Nat.id by lia. reflexivity.
Qed.

(** *** Ticks for every state of the tasks *)

(** The index [next_output_point] uses. *)
Definition next_index (s : app V) : nat :=
  if length (aopoints s) <=? current_index s then 0 else current_index s.

Lemma next_output_point_idx (s : app V) :
  0 < length (aopoints s) ->
  exists v, aopoints s !! next_index s = Some v /\
    next_output_point s = (set_current_index (next_index s) s, Ok v).
Proof.
  intros Hlen. unfold next_output_point, next_index, bind, get, gets, modify, ret.
  destruct (Nat.leb_spec (length (aopoints s)) (current_index s)) as [Hge|Hlt].
  - destruct (lookup_lt_is_Some_2 (aopoints s) 0 Hlen) as [v Hv].
    exists v. cbn. rewrite Hv. auto.
  - destruct (lookup_lt_is_Some_2 (aopoints s) (current_index s) Hlt) as [v Hv].
    exists v. rewrite set_current_index_same, Hv. auto.
Qed.

Lemma next_index_lt (s : app V) : 0 < length (aopoints s) -> next_index s < length (aopoints s).
Proof.
  intros Hlen. unfold next_index.
  destruct (Nat.leb_spec (length (aopoints s)) (current_index s)); lia.
Qed.

(** The outcome of a tick that sends [v] (the point at index [i]): the
    timer is left [on_fault] when the tick fails, and the iteration count
    becomes [it_ok] when it succeeds. *)
Definition tick_outcome (on_fault : bool) (it_ok : nat) (s : app V) (e : fire_env V)
    (i : nat) (v : V) : app V * res unit :=
  if aotask s then
    if fe_write_ok e then
      if aitask s then
        match fe_read e with
        | Some r => (after_tick s (S i) v it_ok (deltat s ++ [fe_elapsed e])
                       (ain s ++ [r]) true [CallWrite v; CallRead], Ok tt)
        | None => (after_tick s i v (iteration s) (deltat s) (ain s) on_fault
                     [CallWrite v; CallRead], Err HardwareFault)
        end
      else (after_tick s i v (iteration s) (deltat s) (ain s) on_fault [CallWrite v],
            Err AttributeError)
    else (after_tick s i v (iteration s) (deltat s) (ain s) on_fault [CallWrite v],
          Err HardwareFault)
  else (after_tick s i v (iteration s) (deltat s) (ain s) on_fault [], Err AttributeError).

Lemma psy_fire_tick_all (s : app V) (e : fire_env V) :
  timer_active s = true -> iteration s < loop_count s -> 0 < length (aopoints s) ->
  exists v, aopoints s !! next_index s = Some v /\
    Psydaqgd.fire fmt3 round3 e s = tick_outcome false (S (iteration s)) s e (next_index s) v.
Proof.
  intros Hon Hit Hlen.
  destruct (next_output_point_idx s Hlen) as (v & Hv & Hn).
  exists v. split; [exact Hv|].
  unfold Psydaqgd.fire, Psydaqgd.perform_iteration, Psydaqgd.perform_iteration_body.
  unfold try_except, bind at 1, gets at 1. rewrite Hon.
  unfold bind at 1, get.
  replace (loop_count s <=? iteration s) with false
    by (symmetry; apply Nat.leb_gt; lia).
  unfold bind at 1. rewrite Hn.
  unfold append_aout, write_analog, read_analog, hw, timer_stop, raise, ret, modify, gets, bind,
    tick_outcome.
  destruct s as [a b pts ci it lc ao_ dt ai_ on acq c fs db up]; cbn in *; subst.
  destruct a, (fe_write_ok e), b, (fe_read e); cbn;
    unfold after_tick; cbn; rewrite <- ?app_assoc, ?app_nil_r; reflexivity.
Qed.

Lemma psy_fire_tick_empty (s : app V) (e : fire_env V) :
  timer_active s = true -> iteration s < loop_count s -> aopoints s = [] ->
  Psydaqgd.fire fmt3 round3 e s =
  (set_timer_active false (set_current_index 0 s), Err IndexError).
Proof.
  intros Hon Hit Hpts.
  unfold Psydaqgd.fire, Psydaqgd.perform_iteration, Psydaqgd.perform_iteration_body.
  unfold try_except, bind at 1, gets at 1. rewrite Hon.
  unfold bind at 1, get.
  replace (loop_count s <=? iteration s) with false
    by (symmetry; apply Nat.leb_gt; lia).
  unfold next_output_point, timer_stop, bind, get, gets, modify, ret, raise.
  destruct s as [a b pts ci it lc ao_ dt ai_ on acq c fs db up]; cbn in *; subst.
  reflexivity.
Qed.

Lemma c_fire_tick_all (s : app V) (e : fire_env V) :
  timer_active s = true -> 0 < length (aopoints s) ->
  exists v, aopoints s !! next_index s = Some v /\
    Pysideaoai.fire e s = tick_outcome true (iteration s) s e (next_index s) v.
Proof.
  intros Hon Hlen.
  destruct (next_output_point_idx s Hlen) as (v & Hv & Hn).
  exists v. split; [exact Hv|].
  unfold Pysideaoai.fire, Pysideaoai.update_plot.
  unfold bind at 1, gets at 1. rewrite Hon.
  unfold bind at 1. rewrite Hn.
  unfold append_aout, write_analog, read_analog, hw, raise, ret, modify, gets, bind,
    tick_outcome.
  destruct s as [a b pts ci it lc ao_ dt ai_ on acq c fs db up]; cbn in *; subst.
  destruct a, (fe_write_ok e), b, (fe_read e); cbn;
    unfold after_tick; cbn; rewrite <- ?app_assoc, ?app_nil_r; reflexivity.
Qed.

Lemma c_fire_tick_empty (s : app V) (e : fire_env V) :
  timer_active s = true -> aopoints s = [] ->
  Pysideaoai.fire e s = (set_current_index 0 s, Err IndexError).
Proof.
  intros Hon Hpts.
  unfold Pysideaoai.fire, Pysideaoai.update_plot, next_output_point,
    bind, get, gets, modify, ret, raise.
  destruct s as [a b pts ci it lc ao_ dt ai_ on acq c fs db up]; cbn in *; subst.
  reflexivity.
Qed.

(** *** The task life cycle *)

Lemma task_run_app k p (l1 l2 : list (hw_call V)) :
  task_run k p (l1 ++ l2) =
  match task_run k p l1 with Some p' => task_run k p' l2 | None => None end.
Proof.
  revert p. induction l1 as [|c l1 IH]; intros p; [reflexivity|].
  cbn. destruct (task_step k p c); [apply IH|reflexivity].
Qed.

Definition phase_of (b : bool) : task_phase := if b then Running else Unbound.

(** psydaqgd holds a task exactly when its life cycle has it running. *)
Definition psy_proto (s : app V) : Prop :=
  task_run AO Unbound (calls s) = Some (phase_of (aotask s)) /\
  task_run AI Unbound (calls s) = Some (phase_of (aitask s)).

Lemma psy_start_proto (s : app V) ao ai cnt :
  psy_proto s -> psy_proto (fst (Psydaqgd.start_acquisition ao ai cnt s)).
Proof.
  intros [H1 H2]. destruct (start_input_cases ao ai cnt) as [Hbad|(Hao & Hai & N & HN & ->)].
  - rewrite (psy_start_err s ao ai cnt Hbad). unfold psy_proto; cbn.
    rewrite !task_run_app, H1, H2.
    destruct (aotask s), (aitask s); split; reflexivity.
  - rewrite (psy_start_ok s ao ai N Hao Hai HN). unfold psy_proto; cbn.
    rewrite !task_run_app, H1, H2.
    destruct (aotask s), (aitask s); split; reflexivity.
Qed.

Lemma psy_fire_proto (s : app V) e :
  psy_proto s -> psy_proto (fst (Psydaqgd.fire fmt3 round3 e s)).
Proof.
  intros [H1 H2].
  destruct (timer_active s) eqn:Hon; [|rewrite (psy_fire_off fmt3 round3) by exact Hon; split; assumption].
  destruct (Nat.le_gt_cases (loop_count s) (iteration s)) as [Hle|Hlt].
  - destruct (psy_fire_complete fmt3 round3 s e Hon Hle) as (Ha & Hb & _ & _ & _ & _ & _ & _ & _ & _ & _ & Hc).
    change (aotask (set_timer_active false s)) with (aotask s) in Ha.
    change (aitask (set_timer_active false s)) with (aitask s) in Hb.
    change (calls (set_timer_active false s)) with (calls s) in Hc.
    unfold psy_proto. rewrite Ha, Hb, Hc. split; assumption.
  - destruct (aopoints s) as [|p0 pts] eqn:Hpts.
    + rewrite psy_fire_tick_empty by assumption. split; assumption.
    + destruct (psy_fire_tick_all s e Hon Hlt ltac:(rewrite Hpts; cbn; lia)) as (v & _ & ->).
      unfold tick_outcome, psy_proto, after_tick.
      destruct (aotask s) eqn:Ha, (fe_write_ok e), (aitask s) eqn:Hb, (fe_read e);
        cbn; rewrite !task_run_app, ?H1, ?H2, ?Ha, ?Hb; cbn; split; reflexivity.
Qed.

(** pysideaoai runs its timer exactly while acquiring, and then holds two
    running tasks; otherwise its life cycle has no task. *)
Definition c_proto (s : app V) : Prop :=
  timer_active s = acquiring s /\
  task_run AO Unbound (calls s) = Some (phase_of (acquiring s)) /\
  task_run AI Unbound (calls s) = Some (phase_of (acquiring s)) /\
  (acquiring s = true -> aotask s = true /\ aitask s = true).

Lemma c_toggle_proto (s : app V) ao ai e :
  c_proto s -> c_proto (fst (Pysideaoai.toggle_acquisition fmt3 ao ai e s)).
Proof.
  intros (Hon & H1 & H2 & Hb).
  destruct (acquiring s) eqn:Hacq.
  - destruct (Hb eq_refl) as [Ha Hi].
    rewrite (c_toggle_stops fmt3) by exact Hacq.
    destruct s as [a b pts ci it lc ao_ dt ai_ on acq c fs db up];
      cbn in Ha, Hi, Hacq, H1, H2; subst.
    unfold Pysideaoai.stop_acquisition, timer_stop, release_task, hw.
    unfold bind, gets, modify, ret. cbn -[Pysideaoai.save_data_to_file].
    match goal with |- c_proto (fst (Pysideaoai.save_data_to_file fmt3 e ?s1)) =>
      pose proof (keeps_c_save_data_to_file fmt3 e s1) as Hk end.
    destruct Hk as (Ha' & Hb' & _ & _ & _ & _ & _ & _ & _ & Hon' & Hacq' & Hc').
    unfold c_proto. rewrite Ha', Hb', Hon', Hacq', Hc'. cbn.
    rewrite !task_run_app, H1, H2. cbn. repeat split; discriminate.
  - unfold Pysideaoai.toggle_acquisition, bind at 1, gets at 1. rewrite Hacq.
    unfold Pysideaoai.start_acquisition.
    destruct (String.eqb ao "" || String.eqb ai "")%bool.
    + cbn. unfold c_proto. rewrite Hacq. auto.
    + unfold hw, bind, modify. cbn. unfold c_proto; cbn.
      rewrite !task_run_app, H1, H2. cbn. repeat split.
Qed.

Lemma c_fire_proto (s : app V) e :
  c_proto s -> c_proto (fst (Pysideaoai.fire e s)).
Proof.
  intros (Hon & H1 & H2 & Hb).
  destruct (timer_active s) eqn:Hon'.
  - destruct (Hb (eq_sym Hon)) as [Ha Hi].
    destruct (aopoints s) as [|p0 pts] eqn:Hpts.
    + rewrite c_fire_tick_empty by assumption.
      unfold c_proto; cbn. rewrite Hon'. auto.
    + destruct (c_fire_tick_all s e Hon' ltac:(rewrite Hpts; cbn; lia)) as (v & _ & ->).
      unfold tick_outcome, c_proto, after_tick. rewrite Ha, Hi, <- Hon.
      destruct (fe_write_ok e), (fe_read e);
        cbn; rewrite !task_run_app, H1, H2, <- Hon; cbn; repeat split; auto.
  - unfold Pysideaoai.fire, bind, gets. rewrite Hon'. cbn.
    unfold c_proto. rewrite Hon'. auto.
Qed.

Lemma psy_run_events_proto evs (s : app V) :
  psy_proto s -> psy_proto (Psydaqgd.run_events fmt3 round3 evs s).
Proof.
  revert s. induction evs as [|ev evs IH]; intros s Hs; cbn; [exact Hs|].
  apply IH. destruct ev as [ao ai cnt|e]; cbn.
  - apply psy_start_proto, Hs.
  - apply psy_fire_proto, Hs.
Qed.

Lemma c_run_events_proto evs (s : app V) :
  c_proto s -> c_proto (Pysideaoai.run_events fmt3 evs s).
Proof.
  revert s. induction evs as [|ev evs IH]; intros s Hs; cbn; [exact Hs|].
  apply IH. destruct ev as [ao ai e|e]; cbn.
  - apply c_toggle_proto, Hs.
  - apply c_fire_proto, Hs.
Qed.

(** *** Exceptions a computation never raises *)

Definition raises_not {A} (x : exn) (m : M A) : Prop :=
  forall s : app V, snd (m s) <> Err x.

Lemma raises_not_bind {A B} x (m : M A) (k : A -> M B) :
  raises_not x m -> (forall a, raises_not x (k a)) -> raises_not x (bind m k).
Proof.
  intros Hm Hk s. unfold bind. specialize (Hm s).
  destruct (m s) as [s1 [a|y]]; cbn in *; [apply Hk|].
  intros H. injection H as ->. exact (Hm eq_refl).
Qed.

Ltac raises_not_tac :=
  repeat match goal with
  | |- raises_not _ (bind _ _) => apply raises_not_bind; [|intro]
  | |- raises_not _ (if ?b then _ else _) => destruct b
  | |- raises_not _ (match ?o with _ => _ end) => destruct o
  | |- raises_not _ _ => intro; cbn; discriminate
  end.

Lemma raises_not_gd e o fn foid : raises_not ValueError (gd (V:=V) e o fn foid).
Proof. unfold gd, gDrive_init, upload_to_folder. raises_not_tac. Qed.

Lemma raises_not_png e : raises_not ValueError (Psydaqgd.save_plot_as_png (V:=V) e).
Proof.
  unfold Psydaqgd.save_plot_as_png. apply raises_not_bind; [raises_not_tac|intros _].
  apply raises_not_gd.
Qed.

Lemma raises_not_db e : raises_not ValueError (Psydaqgd.save_data_to_database round3 e).
Proof. unfold Psydaqgd.save_data_to_database. raises_not_tac. Qed.

Lemma completion_no_value_error (s : app V) e :
  length (deltat s) = length (aout s) -> length (aout s) = length (ain s) ->
  snd (completion fmt3 round3 e s) <> Err ValueError.
Proof.
  intros Hl1 Hl2.
  assert (Hsave : snd (Psydaqgd.save_data_to_file fmt3 round3 e s) <> Err ValueError).
  { unfold Psydaqgd.save_data_to_file. unfold bind at 1, get at 1. unfold bind at 1.
    unfold column_stack. rewrite Hl1, Hl2, !Nat.eqb_refl. cbn [andb]. unfold ret at 1.
    match goal with |- snd (?m s) <> _ => enough (H : raises_not ValueError m) by exact (H s) end.
    apply raises_not_bind; [unfold savetxt; raises_not_tac|intros _].
    apply raises_not_bind; [apply raises_not_db|intros _]. raises_not_tac. }
  unfold completion. unfold bind at 1.
  destruct (Psydaqgd.save_data_to_file fmt3 round3 e s) as [s1 [fn|x]].
  2:{ cbn in *. intros H. injection H as ->. exact (Hsave eq_refl). }
  exact (raises_not_bind _ _ _ (raises_not_png e) (fun _ => raises_not_gd _ _ _ _) s1).
Qed.

(** While psydaqgd's timer runs, the three series have one length. *)
Definition same_lengths (s : app V) : Prop :=
  timer_active s = true ->
  length (deltat s) = length (aout s) /\ length (aout s) = length (ain s).

Lemma psy_start_same_lengths (s : app V) ao ai cnt :
  same_lengths s -> same_lengths (fst (Psydaqgd.start_acquisition ao ai cnt s)).
Proof.
  intros Hs. destruct (start_input_cases ao ai cnt) as [Hbad|(Hao & Hai & N & HN & ->)].
  - rewrite (psy_start_err s ao ai cnt Hbad). exact Hs.
  - rewrite (psy_start_ok s ao ai N Hao Hai HN). intros _. split; reflexivity.
Qed.

Lemma psy_fire_same_lengths (s : app V) e :
  same_lengths s -> same_lengths (fst (Psydaqgd.fire fmt3 round3 e s)).
Proof.
  intros Hs.
  destruct (timer_active s) eqn:Hon; [|rewrite (psy_fire_off fmt3 round3) by exact Hon; exact Hs].
  destruct (Nat.le_gt_cases (loop_count s) (iteration s)) as [Hle|Hlt].
  - destruct (psy_fire_complete fmt3 round3 s e Hon Hle)
      as (_ & _ & _ & _ & _ & _ & _ & _ & _ & Hon' & _ & _).
    intros Hon2. rewrite Hon' in Hon2. discriminate.
  - destruct (aopoints s) as [|p0 pts] eqn:Hpts.
    + rewrite psy_fire_tick_empty by assumption. intros H. discriminate.
    + destruct (psy_fire_tick_all s e Hon Hlt ltac:(rewrite Hpts; cbn; lia)) as (v & _ & ->).
      destruct (Hs Hon) as [Hl1 Hl2].
      unfold same_lengths, tick_outcome, after_tick.
      destruct (aotask s), (fe_write_ok e), (aitask s), (fe_read e);
        cbn; intros H; try discriminate H; rewrite !length_app; cbn; lia.
Qed.

Lemma psy_run_events_same_lengths evs (s : app V) :
  same_lengths s -> same_lengths (Psydaqgd.run_events fmt3 round3 evs s).
Proof.
  revert s. induction evs as [|ev evs IH]; intros s Hs; cbn; [exact Hs|].
  apply IH. destruct ev as [ao ai cnt|e]; cbn.
  - apply psy_start_same_lengths, Hs.
  - apply psy_fire_same_lengths, Hs.
Qed.

Lemma psy_fire_no_value_error (s : app V) e :
  same_lengths s -> snd (Psydaqgd.fire fmt3 round3 e s) <> Err ValueError.
Proof.
  intros Hs.
  destruct (timer_active s) eqn:Hon;
    [|rewrite (psy_fire_off fmt3 round3) by exact Hon; discriminate].
  destruct (Hs Hon) as [Hl1 Hl2].
  destruct (Nat.le_gt_cases (loop_count s) (iteration s)) as [Hle|Hlt].
  - rewrite (psy_fire_complete_eq fmt3 round3) by assumption.
    pose proof (completion_no_value_error (set_timer_active false s) e Hl1 Hl2) as Hc.
    destruct (completion fmt3 round3 e (set_timer_active false s)) as [s1 [u|x]]; exact Hc.
  - destruct (aopoints s) as [|p0 pts] eqn:Hpts.
    + rewrite psy_fire_tick_empty by assumption. discriminate.
    + destruct (psy_fire_tick_all s e Hon Hlt ltac:(rewrite Hpts; cbn; lia)) as (v & _ & ->).
      unfold tick_outcome.
      destruct (aotask s), (fe_write_ok e), (aitask s), (fe_read e); cbn; discriminate.
Qed.

(** *** Ids of the archive *)

Lemma fold_max_ge (rows : list (db_row V)) (a : Z) :
  (a <= fold_left (fun m r => Z.max m (row_id r)) rows a)%Z /\
  (forall r, In r rows -> (row_id r <= fold_left (fun m r => Z.max m (row_id r)) rows a)%Z).
Proof.
  revert a. induction rows as [|r0 rows IH]; intros a; cbn; [split; [lia|tauto]|].
  destruct (IH (Z.max a (row_id r0))) as [H1 H2]. split; [lia|].
  intros r [<-|Hr]; [lia|apply H2, Hr].
Qed.

Lemma ids_increasing_snoc (l : list Z) (y : Z) :
  ids_increasing l = true -> (forall x, In x l -> (x < y)%Z) ->
  ids_increasing (l ++ [y]) = true.
Proof.
  induction l as [|x l IH]; intros H Hlt; [reflexivity|].
  destruct l as [|x' l'].
  - cbn. rewrite (proj2 (Z.ltb_lt x y)) by (apply Hlt; left; reflexivity). reflexivity.
  - cbn in H. apply andb_true_iff in H as [H1 H2].
    change (((x <? x')%Z && ids_increasing ((x' :: l') ++ [y]))%bool = true).
    rewrite H1, IH; [reflexivity|exact H2|].
    intros z Hz. apply Hlt. right. exact Hz.
Qed.

Lemma ids_increasing_lt (x : Z) (l : list Z) :
  ids_increasing (x :: l) = true -> forall y, In y l -> (x < y)%Z.
Proof.
  revert x. induction l as [|x' l IH]; intros x H y Hy; [destruct Hy|].
  cbn in H. apply andb_true_iff in H as [H1 H2]. apply Z.ltb_lt in H1.
  destruct Hy as [<-|Hy]; [exact H1|]. specialize (IH x' H2 y Hy). lia.
Qed.

Lemma ids_increasing_nodup (l : list Z) : ids_increasing l = true -> NoDup l.
Proof.
  induction l as [|x l IH]; intros H; [constructor|].
  constructor.
  - intros Hx. apply list_elem_of_In in Hx.
    pose proof (ids_increasing_lt x l H x Hx). lia.
  - apply IH. destruct l as [|x' l']; [reflexivity|].
    cbn in H. apply andb_true_iff in H as [_ H]. exact H.
Qed.

Lemma insert_row_ids ts rnd (t o i : V) (db db' : gmap string (sql_table V)) :
  archive_ids_ok Psydaqgd.db_table db = true ->
  insert_row Psydaqgd.db_table ts rnd t o i db = Some db' ->
  archive_ids_ok Psydaqgd.db_table db' = true.
Proof.
  intros H Hins. apply insert_row_spec in Hins as (tb & id & Htb & _ & Hid & ->).
  unfold archive_ids_ok in *. rewrite Htb in H. apply andb_true_iff in H as [Ha Hinc].
  rewrite lookup_insert_eq. cbn [tbl_columns tbl_rows]. rewrite Ha in Hid |- *. cbn.
  rewrite map_app. cbn. apply ids_increasing_snoc; [exact Hinc|].
  intros x Hx. apply in_map_iff in Hx as (r & <- & Hr).
  exact (new_rowid_autoinc_gt _ _ _ _ Hid r Hr).
Qed.

Lemma insert_rows_ids ts rnd (rows : list (V * V * V)) (db db' : gmap string (sql_table V)) :
  archive_ids_ok Psydaqgd.db_table db = true ->
  Psydaqgd.insert_rows round3 ts rnd rows db = Some db' ->
  archive_ids_ok Psydaqgd.db_table db' = true.
Proof.
  revert rnd db. induction rows as [|[[t o] i] rows IH]; intros rnd db H Hins; cbn in Hins.
  - injection Hins as <-. exact H.
  - destruct (insert_row Psydaqgd.db_table ts (rnd 0) (round3 t) (round3 o) (round3 i) db)
      as [db1|] eqn:E; [|discriminate].
    eapply IH; [eapply insert_row_ids; eassumption|exact Hins].
Qed.

(** [m] keeps [acquisition_data] an AUTOINCREMENT table with strictly
    increasing ids. *)
Definition keeps_ids {A} (m : M A) : Prop :=
  forall s : app V, archive_ids_ok Psydaqgd.db_table (database s) = true ->
  archive_ids_ok Psydaqgd.db_table (database (fst (m s))) = true.

Lemma keeps_ids_bind {A B} (m : M A) (k : A -> M B) :
  keeps_ids m -> (forall a, keeps_ids (k a)) -> keeps_ids (bind m k).
Proof.
  intros Hm Hk s Hs. unfold bind. specialize (Hm s Hs).
  destruct (m s) as [s1 [a|y]]; cbn in *; [apply Hk, Hm|exact Hm].
Qed.

Lemma keeps_ids_db e : keeps_ids (Psydaqgd.save_data_to_database round3 e).
Proof.
  intros s Hs. unfold Psydaqgd.save_data_to_database, bind, get, modify, raise.
  destruct (negb (fe_db_ok e)); [exact Hs|].
  assert (H0 : archive_ids_ok Psydaqgd.db_table
                 (create_table_if_not_exists Psydaqgd.db_table acquisition_data_columns
                    (database s)) = true).
  { unfold create_table_if_not_exists, archive_ids_ok in *.
    destruct (database s !! Psydaqgd.db_table) eqn:Ed; [rewrite Ed; exact Hs|].
    rewrite lookup_insert_eq. reflexivity. }
  cbn. destruct (Psydaqgd.insert_rows _ _ _ _ _) as [db1|] eqn:E; cbn; [|exact H0].
  eapply insert_rows_ids; [exact H0|exact E].
Qed.

Ltac ids_tac :=
  repeat match goal with
  | |- keeps_ids (bind _ _) => apply keeps_ids_bind; [|intro]
  | |- keeps_ids (Psydaqgd.save_data_to_database _ _) => apply keeps_ids_db
  | |- keeps_ids (if ?b then _ else _) => destruct b
  | |- keeps_ids (match ?o with _ => _ end) => destruct o
  | |- keeps_ids _ => let s := fresh "s" in let H := fresh "H" in intros s H; exact H
  end.

Lemma keeps_ids_completion e : keeps_ids (completion fmt3 round3 e).
Proof.
  unfold completion, Psydaqgd.save_data_to_file, Psydaqgd.save_plot_as_png, column_stack,
    savetxt, gd, gDrive_init, upload_to_folder.
  ids_tac.
Qed.

Lemma psy_fire_ids (s : app V) e :
  archive_ids_ok Psydaqgd.db_table (database s) = true ->
  archive_ids_ok Psydaqgd.db_table (database (fst (Psydaqgd.fire fmt3 round3 e s))) = true.
Proof.
  intros Hs.
  destruct (timer_active s) eqn:Hon; [|rewrite (psy_fire_off fmt3 round3) by exact Hon; exact Hs].
  destruct (Nat.le_gt_cases (loop_count s) (iteration s)) as [Hle|Hlt].
  - rewrite (psy_fire_complete_eq fmt3 round3) by assumption.
    pose proof (keeps_ids_completion e (set_timer_active false s) Hs) as Hc.
    destruct (completion fmt3 round3 e (set_timer_active false s)) as [s1 [u|x]]; exact Hc.
  - destruct (aopoints s) as [|p0 pts] eqn:Hpts.
    + rewrite psy_fire_tick_empty by assumption. exact Hs.
    + destruct (psy_fire_tick_all s e Hon Hlt ltac:(rewrite Hpts; cbn; lia)) as (v & _ & ->).
      unfold tick_outcome, after_tick.
      destruct (aotask s), (fe_write_ok e), (aitask s), (fe_read e); exact Hs.
Qed.

Lemma psy_run_events_ids evs (s : app V) :
  archive_ids_ok Psydaqgd.db_table (database s) = true ->
  archive_ids_ok Psydaqgd.db_table
    (database (Psydaqgd.run_events fmt3 round3 evs s)) = true.
Proof.
  revert s. induction evs as [|ev evs IH]; intros s Hs; cbn [Psydaqgd.run_events]; [exact Hs|].
  apply IH. destruct ev as [ao ai cnt|e]; unfold Psydaqgd.handle.
  - destruct (start_input_cases ao ai cnt) as [Hbad|(Hao & Hai & N & HN & ->)].
    + rewrite (psy_start_err s ao ai cnt Hbad). exact Hs.
    + rewrite (psy_start_ok s ao ai N Hao Hai HN). exact Hs.
  - apply psy_fire_ids, Hs.
Qed.

(** *** The completion event, sink by sink *)

Lemma png_not_token d : Psydaqgd.png_filename d <> "token.json".
Proof. unfold Psydaqgd.png_filename. cbn. discriminate. Qed.

(** The uploads a [gd] call with outcome [o] records for [fn]. *)
Definition uploaded (o : upload_outcome) (fn : string) : list (string * string) :=
  match o with UploadOk => [(fn, drive_folder)] | _ => [] end.

(** *** Runs of fault-free ticks, with the table index *)

Lemma next_index_mod (s : app V) :
  0 < length (aopoints s) -> current_index s <= length (aopoints s) ->
  next_index s = current_index s mod length (aopoints s).
Proof.
  intros Hlen Hci. unfold next_index.
  destruct (Nat.leb_spec (length (aopoints s)) (current_index s)) as [Hge|Hlt].
  - replace (current_index s) with (length (aopoints s)) by lia.
    rewrite Nat.Div0.mod_same. reflexivity.
  - rewrite Nat.mod_small by lia. reflexivity.
Qed.

Lemma cycle_cons (pts : list V) (ci k : nat) :
  0 < length pts ->
  map (fun j => pts !! ((ci + j) mod length pts)) (seq 0 (S k)) =
  pts !! (ci mod length pts)
    :: map (fun j => pts !! ((S (ci mod length pts) + j) mod length pts)) (seq 0 k).
Proof.
  intros Hlen. cbn [seq map]. rewrite Nat.add_0_r. f_equal.
  rewrite <- seq_shift, map_map. apply map_ext. intros j. f_equal.
  replace (S (ci mod length pts) + j) with (ci mod length pts + S j) by lia.
  rewrite Nat.Div0.add_mod_idemp_l. reflexivity.
Qed.

Lemma c_run_ticks (es : list (fire_env V)) (s : app V) :
  timer_active s = true -> 0 < length (aopoints s) -> current_index s <= length (aopoints s) ->
  aotask s = true -> aitask s = true -> Forall fault_free es ->
  exists ws rs ci,
    map Some ws = map (fun j => aopoints s !! ((current_index s + j) mod length (aopoints s)))
                    (seq 0 (length es)) /\
    map Some rs = map fe_read es /\ ci <= length (aopoints s) /\
    Pysideaoai.run_events fmt3 (map Pysideaoai.EvTimeout es) s =
    mk_app (aotask s) (aitask s) (aopoints s) ci (iteration s) (loop_count s) (aout s ++ ws)
      (deltat s ++ map fe_elapsed es) (ain s ++ rs) true (acquiring s)
      (calls s ++ concat (map (fun w => [CallWrite w; CallRead]) ws))
      (files s) (database s) (uploads s).
Proof.
  revert s. induction es as [|e es IH]; intros s Hon Hlen Hci Hao Hai Hff.
  - exists [], [], (current_index s). repeat split; [lia|].
    destruct s; cbn in *; subst. rewrite !app_nil_r. reflexivity.
  - inversion Hff as [|? ? [Hw [r Hr]] Hff']; subst.
    destruct (c_fire_tick_all s e Hon Hlen) as (v & Hv & Hf).
    unfold tick_outcome in Hf. rewrite Hao, Hw, Hai, Hr in Hf.
    set (s1 := after_tick s (S (next_index s)) v (iteration s) (deltat s ++ [fe_elapsed e])
                 (ain s ++ [r]) true [CallWrite v; CallRead]) in Hf.
    pose proof (next_index_lt s Hlen) as Hlt.
    destruct (IH s1) as (ws & rs & ci & Hws & Hrs & Hci' & Hrun);
      try (unfold s1, after_tick; cbn; auto; lia).
    exists (v :: ws), (r :: rs), ci.
    split; [|split; [cbn; rewrite Hr, Hrs; reflexivity|split; [exact Hci'|]]].
    + cbn [length]. rewrite cycle_cons by exact Hlen. cbn [map].
      rewrite <- (next_index_mod s Hlen Hci), <- Hv. f_equal.
      rewrite Hws. reflexivity.
    + cbn [map Pysideaoai.run_events]. unfold Pysideaoai.handle at 1. rewrite Hf. cbn [fst].
      rewrite Hrun. unfold s1, after_tick. cbn. rewrite <- !app_assoc. reflexivity.
Qed.


(** *** Sessions of pysideaoai *)

Lemma c_run_events_app (evs1 evs2 : list (Pysideaoai.ui_event V)) (s : app V) :
  Pysideaoai.run_events fmt3 (evs1 ++ evs2) s =
  Pysideaoai.run_events fmt3 evs2 (Pysideaoai.run_events fmt3 evs1 s).
Proof. revert s. induction evs1 as [|ev evs1 IH]; intros s; [reflexivity|apply IH]. Qed.

(** The Start press with both channels given. *)
Lemma c_start_ok (s : app V) (ao ai : string) (e : fire_env V) :
  acquiring s = false -> ao <> "" -> ai <> "" ->
  Pysideaoai.toggle_acquisition fmt3 ao ai e s =
  (mk_app true true (aopoints s) 0 (iteration s) (loop_count s) [] [] [] true true
     (calls s ++ [CallCreateStart AO; CallCreateStart AI]) (files s) (database s) (uploads s),
   Ok tt).
Proof.
  intros Hacq Hao Hai. apply String.eqb_neq in Hao. apply String.eqb_neq in Hai.
  unfold Pysideaoai.toggle_acquisition, bind at 1, gets at 1. rewrite Hacq.
  unfold Pysideaoai.start_acquisition. rewrite Hao, Hai. cbn.
  unfold hw, bind, modify, ret. destruct s; cbn. rewrite <- app_assoc. reflexivity.
Qed.

Definition release_all : list (hw_call V) :=
  [CallStopTask AO; CallClearTask AO; CallStopTask AI; CallClearTask AI].


(** The Stop press when the series differ in length: [np.column_stack]
    raises before anything is written. *)
Lemma c_stop_ragged (s : app V) (e : fire_env V) :
  aotask s = true -> aitask s = true ->
  ~ (length (deltat s) = length (aout s) /\ length (aout s) = length (ain s)) ->
  Pysideaoai.stop_acquisition fmt3 e s =
  (set_acquiring false (set_calls (calls s ++ release_all) (set_timer_active false s)),
   Err ValueError).
Proof.
  intros Hao Hai Hne.
  destruct s as [a b pts ci it lc ao_ dt ai_ on acq c fs db up]; cbn in Hao, Hai, Hne; subst.
  unfold Pysideaoai.stop_acquisition, Pysideaoai.save_data_to_file, column_stack,
    timer_stop, release_task, hw, bind, gets, get, modify, ret, raise. cbn.
  destruct ((length dt =? length ao_) && (length ao_ =? length ai_))%bool eqn:E.
  - apply andb_true_iff in E as [E1 E2]. apply Nat.eqb_eq in E1, E2. tauto.
  - unfold release_all. rewrite <- !app_assoc. reflexivity.
Qed.

Lemma length_cycle (ws : list V) (f : nat -> option V) (n : nat) :
  map Some ws = map f (seq 0 n) -> length ws = n.
Proof.
  intros H. apply (f_equal (@length _)) in H. rewrite !length_map, length_seq in H. exact H.
Qed.

Lemma length_reads (rs : list V) (es : list (fire_env V)) :
  map Some rs = map fe_read es -> length rs = length es.
Proof. intros H. apply (f_equal (@length _)) in H. rewrite !length_map in H. exact H. Qed.

(** *** File names from the clock *)

Lemma str_length_app (a b : string) :
  String.length (a +s+ b) = String.length a + String.length b.
Proof. induction a as [|c a IH]; [reflexivity|]. exact (f_equal S IH). Qed.

Lemma str_app_cancel (a b c d : string) :
  String.length a = String.length c -> a +s+ b = c +s+ d -> a = c /\ b = d.
Proof.
  revert c. induction a as [|x a IH]; intros [|y c]; cbn; intros Hl H;
    try discriminate Hl; [split; auto|].
  injection Hl as Hl. injection H as -> H. destruct (IH c Hl H) as [-> ->]. split; reflexivity.
Qed.

Lemma length_pad_digits (w n : nat) : String.length (pad_digits w n) = w.
Proof.
  revert n. induction w as [|w IH]; intros n; cbn [pad_digits]; [reflexivity|].
  rewrite str_length_app, IH. cbn. lia.
Qed.

Lemma digit_char_inj (a b : nat) : a < 10 -> b < 10 -> digit_char a = digit_char b -> a = b.
Proof.
  intros Ha Hb H. apply (f_equal Ascii.nat_of_ascii) in H. unfold digit_char in H.
  rewrite !Ascii.nat_ascii_embedding in H by lia. lia.
Qed.

(** [%0wd] is one-to-one on the numbers of at most [w] digits. *)
Lemma pad_digits_inj (w n m : nat) :
  n < 10 ^ w -> m < 10 ^ w -> pad_digits w n = pad_digits w m -> n = m.
Proof.
  revert n m. induction w as [|w IH]; intros n m Hn Hm H; cbn in Hn, Hm; [lia|].
  cbn [pad_digits] in H.
  apply str_app_cancel in H as [H1 H2]; [|rewrite !length_pad_digits; reflexivity].
  assert (Hd : n mod 10 = m mod 10).
  { apply digit_char_inj; [apply Nat.mod_upper_bound; lia|apply Nat.mod_upper_bound; lia|].
    congruence. }
  apply IH in H1; try (apply Nat.Div0.div_lt_upper_bound; lia).
  rewrite (Nat.div_mod_eq n 10), (Nat.div_mod_eq m 10), H1, Hd. reflexivity.
Qed.

(** The fields [strftime] can print: a four-digit year, two-digit others. *)
Definition dt_in_range (d : datetime) : Prop :=
  dt_year d < 10 ^ 4 /\ dt_month d < 10 ^ 2 /\ dt_day d < 10 ^ 2 /\
  dt_hour d < 10 ^ 2 /\ dt_minute d < 10 ^ 2 /\ dt_second d < 10 ^ 2.

Lemma strftime_compact_inj (d1 d2 : datetime) :
  dt_in_range d1 -> dt_in_range d2 -> strftime_compact d1 = strftime_compact d2 -> d1 = d2.
Proof.
  destruct d1 as [y1 mo1 dd1 h1 mi1 s1], d2 as [y2 mo2 dd2 h2 mi2 s2].
  unfold dt_in_range, strftime_compact; cbn [dt_year dt_month dt_day dt_hour dt_minute dt_second].
  intros (Hy1 & Hmo1 & Hd1 & Hh1 & Hmi1 & Hs1) (Hy2 & Hmo2 & Hd2 & Hh2 & Hmi2 & Hs2) H.
  apply str_app_cancel in H as [Hy H]; [|rewrite !length_pad_digits; reflexivity].
  apply str_app_cancel in H as [Hmo H]; [|rewrite !length_pad_digits; reflexivity].
  apply str_app_cancel in H as [Hd H]; [|rewrite !length_pad_digits; reflexivity].
  apply str_app_cancel in H as [_ H]; [|reflexivity].
  apply str_app_cancel in H as [Hh H]; [|rewrite !length_pad_digits; reflexivity].
  apply str_app_cancel in H as [Hmi Hs]; [|rewrite !length_pad_digits; reflexivity].
  apply pad_digits_inj in Hy, Hmo, Hd, Hh, Hmi, Hs; try assumption.
  subst. reflexivity.
Qed.

Lemma length_strftime_compact (d : datetime) : String.length (strftime_compact d) = 15.
Proof. unfold strftime_compact. rewrite !str_length_app, !length_pad_digits. reflexivity. Qed.

Lemma stamped_name_inj (pre suf : string) (d1 d2 : datetime) :
  dt_in_range d1 -> dt_in_range d2 ->
  pre +s+ strftime_compact d1 +s+ suf = pre +s+ strftime_compact d2 +s+ suf -> d1 = d2.
Proof.
  intros H1 H2 H. apply str_app_cancel in H as [_ H]; [|reflexivity].
  apply str_app_cancel in H as [H _]; [|rewrite !length_strftime_compact; reflexivity].
  exact (strftime_compact_inj d1 d2 H1 H2 H).
Qed.

(** *** Python's [min] and [max] *)

Lemma py_min_spec (l : list Q) (x : Q) :
  (Autoscale.py_min x l = x \/ In (Autoscale.py_min x l) l) /\
  (Autoscale.py_min x l <= x)%Q /\ Forall (fun y => Autoscale.py_min x l <= y)%Q l.
Proof.
  revert x. induction l as [|y l IH]; intros x; unfold Autoscale.py_min in *; cbn.
  - split; [left; reflexivity|split; [apply Qle_refl|constructor]].
  - set (m := if Qlt_le_dec y x then y else x).
    destruct (IH m) as (Hin & Hle & Hall). fold m in Hin, Hle, Hall.
    assert (Hmx : (m <= x)%Q /\ (m <= y)%Q /\ (m = x \/ m = y)).
    { unfold m. destruct (Qlt_le_dec y x) as [Hlt|Hge].
      - split; [apply Qlt_le_weak, Hlt|split; [apply Qle_refl|right; reflexivity]].
      - split; [apply Qle_refl|split; [exact Hge|left; reflexivity]]. }
    destruct Hmx as (Hmx & Hmy & Hm).
    split; [|split].
    + destruct Hin as [Hin|Hin]; [|right; right; exact Hin].
      rewrite Hin. destruct Hm as [Hm|Hm]; [left; exact Hm|right; left; symmetry; exact Hm].
    + eapply Qle_trans; [exact Hle|exact Hmx].
    + constructor; [eapply Qle_trans; [exact Hle|exact Hmy]|exact Hall].
Qed.

Lemma py_max_spec (l : list Q) (x : Q) :
  (Autoscale.py_max x l = x \/ In (Autoscale.py_max x l) l) /\
  (x <= Autoscale.py_max x l)%Q /\ Forall (fun y => y <= Autoscale.py_max x l)%Q l.
Proof.
  revert x. induction l as [|y l IH]; intros x; unfold Autoscale.py_max in *; cbn.
  - split; [left; reflexivity|split; [apply Qle_refl|constructor]].
  - set (m := if Qlt_le_dec x y then y else x).
    destruct (IH m) as (Hin & Hle & Hall). fold m in Hin, Hle, Hall.
    assert (Hmx : (x <= m)%Q /\ (y <= m)%Q /\ (m = x \/ m = y)).
    { unfold m. destruct (Qlt_le_dec x y) as [Hlt|Hge].
      - split; [apply Qlt_le_weak, Hlt|split; [apply Qle_refl|right; reflexivity]].
      - split; [apply Qle_refl|split; [exact Hge|left; reflexivity]]. }
    destruct Hmx as (Hmx & Hmy & Hm).
    split; [|split].
    + destruct Hin as [Hin|Hin]; [|right; right; exact Hin].
      rewrite Hin. destruct Hm as [Hm|Hm]; [left; exact Hm|right; left; symmetry; exact Hm].
    + eapply Qle_trans; [exact Hmx|exact Hle].
    + constructor; [eapply Qle_trans; [exact Hmy|exact Hle]|exact Hall].
Qed.

(** The range of [autoscale_range]: taken from the data, covering it. *)
Lemma autoscale_range_spec (xs : list Q) :
  (Autoscale.autoscale_range xs = None <-> xs = []) /\
  forall lo hi, Autoscale.autoscale_range xs = Some (lo, hi) ->
    In lo xs /\ In hi xs /\ Forall (fun x => lo <= x /\ x <= hi)%Q xs.
Proof.
  destruct xs as [|x l]; cbn.
  - split; [tauto|discriminate].
  - split; [split; discriminate|]. intros lo hi H. injection H as <- <-.
    destruct (py_min_spec l x) as (Hi1 & Hx1 & Ha1).
    destruct (py_max_spec l x) as (Hi2 & Hx2 & Ha2).
    split; [|split].
    + destruct Hi1 as [->|]; [left; reflexivity|right; assumption].
    + destruct Hi2 as [->|]; [left; reflexivity|right; assumption].
    + constructor; [split; assumption|].
      apply Forall_forall. intros y Hy. rewrite Forall_forall in Ha1, Ha2.
      split; [apply Ha1|apply Ha2]; exact Hy.
Qed.

(** *** The NI-USB-6009 panels *)

Lemma lastn_app_r (k : nat) (l r : list V) :
  k <= length l -> Usb6009.lastn k l ++ r = Usb6009.lastn (k + length r) (l ++ r).
Proof.
  intros Hk. unfold Usb6009.lastn. rewrite length_app, skipn_app.
  replace (length l + length r - (k + length r)) with (length l - k) by lia.
  replace (length l - k - length l) with 0 by lia. reflexivity.
Qed.

Lemma length_lastn (k : nat) (l : list V) : length (Usb6009.lastn k l) = Nat.min k (length l).
Proof. unfold Usb6009.lastn. rewrite length_skipn. lia. Qed.

Lemma lastn_lastn (a b : nat) (l : list V) : Usb6009.lastn a (Usb6009.lastn b l) = Usb6009.lastn (Nat.min a b) l.
Proof.
  unfold Usb6009.lastn at 1. rewrite length_lastn.
  unfold Usb6009.lastn. rewrite skipn_skipn. f_equal. lia.
Qed.

Lemma push_window_lastn (m : Z) (d : list V) (x : V) :
  Usb6009.push_window m d x =
  Usb6009.lastn (Nat.max (length d) (Nat.min (length d + 1) (Z.to_nat m))) (d ++ [x]).
Proof.
  unfold Usb6009.push_window, Usb6009.lastn. rewrite length_app. cbn [length].
  destruct (m <? Z.of_nat (length d + 1))%Z eqn:E.
  - apply Z.ltb_lt in E.
    replace (length d + 1 - Nat.max (length d) (Nat.min (length d + 1) (Z.to_nat m))) with 1 by lia.
    destruct d; reflexivity.
  - apply Z.ltb_ge in E.
    replace (length d + 1 - Nat.max (length d) (Nat.min (length d + 1) (Z.to_nat m))) with 0 by lia.
    reflexivity.
Qed.

(** The plotted buffer after a run of reads: the last
    [max(len d, min(len d + n, max_data_points))] samples. *)
Lemma push_windows (m : Z) (rs d : list V) :
  fold_left (Usb6009.push_window m) rs d =
  Usb6009.lastn (Nat.max (length d) (Nat.min (length d + length rs) (Z.to_nat m))) (d ++ rs).
Proof.
  revert d. induction rs as [|r rs IH]; intros d; cbn [fold_left length].
  - unfold Usb6009.lastn. rewrite app_nil_r. replace (length d - _) with 0 by lia. reflexivity.
  - rewrite IH, push_window_lastn.
    rewrite lastn_app_r by (rewrite length_app; cbn; lia).
    rewrite lastn_lastn, <- app_assoc. cbn [Datatypes.app]. f_equal.
    rewrite length_lastn, length_app. cbn [length]. lia.
Qed.

Lemma writes_app (l1 l2 : list Usb6009.ucall) :
  Usb6009.writes (l1 ++ l2) = Usb6009.writes l1 ++ Usb6009.writes l2.
Proof. induction l1 as [|[] l1 IH]; cbn; rewrite ?IH; reflexivity. Qed.

Lemma replay_app (m : nat) (o : list nat) (l1 l2 : list Usb6009.ucall) :
  Usb6009.replay m o (l1 ++ l2) =
  match Usb6009.replay m o l1 with Some (m', o') => Usb6009.replay m' o' l2 | None => None end.
Proof.
  revert m o. induction l1 as [|c l1 IH]; intros m o; [reflexivity|].
  destruct c; cbn;
    repeat match goal with |- context [if ?b then _ else _] => destruct b end;
    try reflexivity; apply IH.
Qed.

(** One timeout of niusb6009aib with a task bound and a sample read. *)
Lemma ai_tick (s : Usb6009Ai.gui V) (h : nat) (r : V) :
  Usb6009Ai.task s = Some h -> Usb6009Ai.timer_on s = true ->
  Usb6009Ai.handle (Usb6009Ai.EvTimeout (Some r)) s =
  (Usb6009Ai.mk_gui (Some h) true
     (Usb6009.push_window (Usb6009Ai.max_data_points s) (Usb6009Ai.data s) r)
     (Usb6009Ai.max_data_points s) (Usb6009Ai.tasks_made s) (Usb6009Ai.trace s ++ [Usb6009.URead h]),
   None).
Proof.
  intros Ht Hon. destruct s as [t on d m k tr]; cbn in Ht, Hon; subst.
  reflexivity.
Qed.

Lemma ai_ticks (rs : list V) (s : Usb6009Ai.gui V) (h : nat) :
  Usb6009Ai.task s = Some h -> Usb6009Ai.timer_on s = true ->
  Usb6009Ai.run_events (map (fun r => Usb6009Ai.EvTimeout (Some r)) rs) s =
  Usb6009Ai.mk_gui (Some h) true
    (fold_left (Usb6009.push_window (Usb6009Ai.max_data_points s)) rs (Usb6009Ai.data s))
    (Usb6009Ai.max_data_points s) (Usb6009Ai.tasks_made s)
    (Usb6009Ai.trace s ++ repeat (Usb6009.URead h) (length rs)).
Proof.
  revert s. induction rs as [|r rs IH]; intros s Ht Hon.
  - destruct s as [t on d m k tr]; cbn in *; subst. rewrite app_nil_r. reflexivity.
  - cbn [map Usb6009Ai.run_events]. rewrite (ai_tick s h r Ht Hon), IH by reflexivity.
    cbn. rewrite <- app_assoc. reflexivity.
Qed.

(** One timeout of niusb6009aoaib with both tasks bound, a non-zero rate,
    and a write and a read that succeed. *)
Lemma aoai_tick (s : Usb6009AoAi.gui V) (hi ho : nat) (r : V) :
  Usb6009AoAi.input_task s = Some hi -> Usb6009AoAi.output_task s = Some ho ->
  Qeq_bool (Usb6009AoAi.sampling_rate s) 0 = false -> Usb6009AoAi.timer_on s = true ->
  Usb6009AoAi.handle (Usb6009AoAi.EvTimeout true (Some r)) s =
  Usb6009AoAi.mk_gui (Some hi) (Some ho) true
    (Usb6009.push_window (Usb6009AoAi.max_data_points s) (Usb6009AoAi.data s) r)
    (Usb6009AoAi.sampling_rate s) (Usb6009AoAi.max_data_points s)
    (S (Usb6009AoAi.sine_wave_phase s)) (Usb6009AoAi.tasks_made s)
    (Usb6009AoAi.trace s ++
       [Usb6009.UWrite ho (Usb6009AoAi.shifted_sample (Usb6009AoAi.sampling_rate s)
                            (Usb6009AoAi.sine_wave_phase s));
        Usb6009.URead hi]).
Proof.
  intros Hi Ho Hq Hon. destruct s as [i o on d q m p k tr]; cbn in *; subst.
  unfold Usb6009AoAi.handle, Usb6009AoAi.fire, Usb6009AoAi.update_plot; cbn.
  rewrite Hq. cbn.
  unfold Usb6009AoAi.set_data, Usb6009AoAi.log, Usb6009AoAi.set_phase; cbn.
  rewrite <- app_assoc. reflexivity.
Qed.

Lemma aoai_ticks (rs : list V) (s : Usb6009AoAi.gui V) (hi ho : nat) :
  Usb6009AoAi.input_task s = Some hi -> Usb6009AoAi.output_task s = Some ho ->
  Qeq_bool (Usb6009AoAi.sampling_rate s) 0 = false -> Usb6009AoAi.timer_on s = true ->
  Usb6009AoAi.run_events (map (fun r => Usb6009AoAi.EvTimeout true (Some r)) rs) s =
  Usb6009AoAi.mk_gui (Some hi) (Some ho) true
    (fold_left (Usb6009.push_window (Usb6009AoAi.max_data_points s)) rs (Usb6009AoAi.data s))
    (Usb6009AoAi.sampling_rate s) (Usb6009AoAi.max_data_points s)
    (Usb6009AoAi.sine_wave_phase s + length rs) (Usb6009AoAi.tasks_made s)
    (Usb6009AoAi.trace s ++
       concat (map (fun j => [Usb6009.UWrite ho (Usb6009AoAi.shifted_sample
                                (Usb6009AoAi.sampling_rate s) (Usb6009AoAi.sine_wave_phase s + j));
                              Usb6009.URead hi]) (seq 0 (length rs)))).
Proof.
  revert s. induction rs as [|r rs IH]; intros s Hi Ho Hq Hon.
  - destruct s as [i o on d q m p k tr]; cbn in *; subst.
    rewrite Nat.add_0_r, app_nil_r. reflexivity.
  - cbn [map Usb6009AoAi.run_events]. rewrite (aoai_tick s hi ho r Hi Ho Hq Hon).
    rewrite IH by (cbn; first [reflexivity | assumption]). cbn [Usb6009AoAi.data Usb6009AoAi.sampling_rate
      Usb6009AoAi.max_data_points Usb6009AoAi.sine_wave_phase Usb6009AoAi.tasks_made
      Usb6009AoAi.trace length fold_left].
    rewrite <- cons_seq, <- seq_shift. cbn [map concat]. rewrite map_map.
    rewrite Nat.add_0_r, <- !app_assoc. cbn [Datatypes.app].
    replace (S (Usb6009AoAi.sine_wave_phase s) + length rs)
      with (Usb6009AoAi.sine_wave_phase s + S (length rs)) by lia.
    do 5 f_equal. apply map_ext. intros j. rewrite Nat.add_succ_r. reflexivity.
Qed.

(** The sine of [update_plot] stays within [0.5 V, 4.5 V]. *)
Lemma shifted_sample_range (q : Q) (p : nat) :
  (1/2 <= Usb6009AoAi.shifted_sample q p <= 9/2)%R.
Proof.
  unfold Usb6009AoAi.shifted_sample.
  destruct (SIN_bound (2 * PI * 10 * (INR p / Q2R q))). lra.
Qed.

Ltac trace_ext_tac :=
  first [ exists []; split; [rewrite app_nil_r; reflexivity | constructor]
        | eexists; split; [rewrite <- ?app_assoc; reflexivity | cbn; repeat constructor; eauto] ].

(** What each event of niusb6009aoaib appends to the trace. *)
Lemma aoai_handle_trace (ev : Usb6009AoAi.event) (s : Usb6009AoAi.gui V) :
  exists c, Usb6009AoAi.trace (Usb6009AoAi.handle ev s) = Usb6009AoAi.trace s ++ c /\
    Forall (fun v => exists q p, v = Usb6009AoAi.shifted_sample q p) (Usb6009.writes c).
Proof.
  destruct s as [i o on d q m p k tr].
  destruct ev as [rate a b t| |w r| |];
    unfold Usb6009AoAi.handle, Usb6009AoAi.start_acquisition, Usb6009AoAi.stop_acquisition,
      Usb6009AoAi.fire, Usb6009AoAi.update_plot, Usb6009AoAi.clear_graph; cbn.
  - destruct i, o, rate, a, b, t; cbn; try destruct (Usb6009.timer_interval _); cbn;
      trace_ext_tac.
  - destruct i, o; cbn; trace_ext_tac.
  - destruct on; cbn; [|exists []; split; [rewrite app_nil_r; reflexivity|constructor]].
    destruct i, o; cbn; try (exists []; split; [rewrite app_nil_r; reflexivity|constructor]).
    destruct (Qeq_bool q 0); cbn; [exists []; split; [rewrite app_nil_r; reflexivity|constructor]|].
    destruct w; cbn; [destruct r; cbn|]; trace_ext_tac.
  - exists []; split; [rewrite app_nil_r; reflexivity|constructor].
  - destruct i, o; cbn; trace_ext_tac.
Qed.

(** The tasks of niusb6009aoaib the driver holds open: the bound ones. *)
Definition aoai_open (s : Usb6009AoAi.gui V) : list nat :=
  Usb6009.opt_list (Usb6009AoAi.output_task s) ++ Usb6009.opt_list (Usb6009AoAi.input_task s).

Definition aoai_inv (s : Usb6009AoAi.gui V) : Prop :=
  Usb6009.replay 0 [] (Usb6009AoAi.trace s) = Some (Usb6009AoAi.tasks_made s, aoai_open s) /\
  (forall h, Usb6009AoAi.output_task s = Some h -> h < Usb6009AoAi.tasks_made s) /\
  (forall h, Usb6009AoAi.input_task s = Some h -> h < Usb6009AoAi.tasks_made s) /\
  match Usb6009AoAi.output_task s, Usb6009AoAi.input_task s with
  | Some ho, Some hi => ho < hi
  | _, _ => True
  end.

Ltac eqb_tac :=
  repeat (cbn -[Nat.eqb];
          match goal with
          | |- context [Nat.eqb ?a ?a] => rewrite (Nat.eqb_refl a)
          | |- context [Nat.eqb ?a ?b] =>
              destruct (Nat.eqb_spec a b) as [?E|?E]; [try (exfalso; lia); subst|]
          end).

Ltac bound_tac :=
  repeat match goal with H : forall h, Some ?x = Some h -> _ |- _ => specialize (H x eq_refl) end.

Ltac aoai_inv_tac Hrep :=
  bound_tac; split; [rewrite ?replay_app, Hrep; cbn -[Nat.eqb]; eqb_tac; reflexivity|];
  split; [intros ? E; first [discriminate E | injection E as <-; lia]|];
  split; [intros ? E; first [discriminate E | injection E as <-; lia]|];
  cbn; try lia; try exact I.

Lemma aoai_inv_init : aoai_inv Usb6009AoAi.init.
Proof.
  split; [reflexivity|]. split; [intros ? E; discriminate E|].
  split; [intros ? E; discriminate E|exact I].
Qed.

Lemma aoai_handle_inv (ev : Usb6009AoAi.event) (s : Usb6009AoAi.gui V) :
  aoai_inv s -> aoai_inv (Usb6009AoAi.handle ev s).
Proof.
  destruct s as [i o on d q m p k tr]. unfold aoai_inv, aoai_open.
  cbn [Usb6009AoAi.trace Usb6009AoAi.tasks_made Usb6009AoAi.output_task Usb6009AoAi.input_task].
  intros (Hrep & Ho & Hi & Hlt). bound_tac.
  destruct ev as [rate a b t| |w r| |];
    unfold Usb6009AoAi.handle, Usb6009AoAi.start_acquisition, Usb6009AoAi.stop_acquisition,
      Usb6009AoAi.fire, Usb6009AoAi.update_plot, Usb6009AoAi.clear_graph.
  - destruct i, o, rate, a, b, t; cbn in *; try destruct (Usb6009.timer_interval _); cbn;
      aoai_inv_tac Hrep.
  - destruct i, o; cbn in *; aoai_inv_tac Hrep.
  - destruct on, i, o; cbn in *; try (aoai_inv_tac Hrep; fail).
    destruct (Qeq_bool q 0), w, r; cbn; aoai_inv_tac Hrep.
  - destruct i, o; cbn in *; aoai_inv_tac Hrep.
  - destruct i, o; cbn in *; aoai_inv_tac Hrep.
Qed.

Lemma aoai_run_inv (evs : list (Usb6009AoAi.event (V:=V))) (s : Usb6009AoAi.gui V) :
  aoai_inv s -> aoai_inv (Usb6009AoAi.run_events evs s).
Proof.
  revert s. induction evs as [|ev evs IH]; intros s H; [exact H|].
  apply IH, aoai_handle_inv, H.
Qed.

Lemma aoai_stop_fields (s : Usb6009AoAi.gui V) :
  Usb6009AoAi.input_task (Usb6009AoAi.stop_acquisition s) = None /\
  Usb6009AoAi.output_task (Usb6009AoAi.stop_acquisition s) = None /\
  Usb6009AoAi.tasks_made (Usb6009AoAi.stop_acquisition s) = Usb6009AoAi.tasks_made s.
Proof. destruct s as [[] [] on d q m p k tr]; repeat split. Qed.

Lemma aoai_run_app (evs1 evs2 : list (Usb6009AoAi.event (V:=V))) (s : Usb6009AoAi.gui V) :
  Usb6009AoAi.run_events (evs1 ++ evs2) s =
  Usb6009AoAi.run_events evs2 (Usb6009AoAi.run_events evs1 s).
Proof. revert s. induction evs1 as [|ev evs1 IH]; intros s; [reflexivity|apply IH]. Qed.

Lemma aoai_run_writes (evs : list (Usb6009AoAi.event (V:=V))) (s : Usb6009AoAi.gui V) :
  Forall (fun v => 1/2 <= v <= 9/2)%R (Usb6009.writes (Usb6009AoAi.trace s)) ->
  Forall (fun v => 1/2 <= v <= 9/2)%R
    (Usb6009.writes (Usb6009AoAi.trace (Usb6009AoAi.run_events evs s))).
Proof.
  revert s. induction evs as [|ev evs IH]; intros s H; [exact H|].
  apply IH. destruct (aoai_handle_trace ev s) as (c & -> & Hc).
  rewrite writes_app. apply Forall_app. split; [exact H|].
  eapply Forall_impl; [exact Hc|]. intros v (q & p & ->). apply shifted_sample_range.
Qed.

Lemma existsb_filter_out (h : nat) (o : list nat) :
  existsb (Nat.eqb h) (List.filter (fun g => negb (Nat.eqb g h)) o) = false.
Proof.
  induction o as [|g o IH]; cbn; [reflexivity|].
  destruct (Nat.eqb_spec g h) as [->|E]; cbn; [exact IH|].
  rewrite IH. destruct (Nat.eqb_spec h g); [congruence|reflexivity].
Qed.

End More.

(** X1.  psydaqgd's Start with an empty channel field, a loop count that is
    not an integer or one that is not positive raises ValueError after
    stopping and clearing the tasks it holds; it creates no task, and leaves
    the series, the iteration counters and the timer as they were. *)
Theorem psy_start_rejects {V} (s : app V) (ao ai : string) (cnt : option Z) :
  (ao = "" \/ ai = "" \/ cnt = None \/ exists n, cnt = Some n /\ (n <= 0)%Z) ->
  Psydaqgd.start_acquisition ao ai cnt s =
  (set_aitask false (set_aotask false
     (set_calls (calls s ++ release_calls (aotask s) AO ++ release_calls (aitask s) AI) s)),
   Err ValueError).
Proof. exact (psy_start_err s ao ai cnt). Qed.

Lemma psy_start_rejects_witness :
  let s1 := fst (Psydaqgd.start_acquisition "Dev2/ao0" "Dev2/ai0" (Some 5%Z) Scenario.s_init) in
  Psydaqgd.start_acquisition "" "Dev2/ai0" (Some 5%Z) s1 =
  (set_aitask false (set_aotask false
     (set_calls (calls s1 ++ release_calls (aotask s1) AO ++ release_calls (aitask s1) AI) s1)),
   Err ValueError).
Proof. cbv zeta. apply psy_start_rejects. left. reflexivity. Defined.

(** X2.  Whatever the user presses and whatever the driver answers,
    psydaqgd drives each task through its life cycle: it creates and starts
    a task only when it holds none, writes to the AO task and reads the AI
    task only while they run, stops a task only while it runs and clears it
    right after; it holds a task ([self.aotask], [self.aitask] not None)
    exactly when the task runs. *)
Theorem psy_driver_protocol {V} (fmt3 : V -> string) (round3 : V -> V)
    (pts : list V) (fs : gmap string (list string)) (db : gmap string (sql_table V))
    (evs : list (Psydaqgd.ui_event V)) :
  let s := Psydaqgd.run_events fmt3 round3 evs (init_app pts fs db) in
  task_run AO Unbound (calls s) = Some (if aotask s then Running else Unbound) /\
  task_run AI Unbound (calls s) = Some (if aitask s then Running else Unbound).
Proof.
  cbv zeta. apply psy_run_events_proto. split; reflexivity.
Qed.

(** X4.  A Start rejected (ValueError) while a psydaqgd run is under way
    clears the tasks but leaves the timer running: the next timer event
    takes the next table value, appends it to [aout], then finds no AO task
    and raises AttributeError before any driver call; it stops the timer and
    leaves [deltat], [ain] and the iteration count as they were. *)
Theorem psy_rejected_start_breaks_run {V} (fmt3 : V -> string) (round3 : V -> V)
    (s : app V) (ao ai : string) (cnt : option Z) (e : fire_env V) :
  timer_active s = true -> iteration s < loop_count s -> 0 < length (aopoints s) ->
  (ao = "" \/ ai = "" \/ cnt = None \/ exists n, cnt = Some n /\ (n <= 0)%Z) ->
  let s1 := fst (Psydaqgd.start_acquisition ao ai cnt s) in
  let r := Psydaqgd.fire fmt3 round3 e s1 in
  timer_active s1 = true /\
  snd r = Err AttributeError /\ timer_active (fst r) = false /\ calls (fst r) = calls s1 /\
  (exists v, v ∈ aopoints s /\ aout (fst r) = aout s ++ [v]) /\
  deltat (fst r) = deltat s /\ ain (fst r) = ain s /\ iteration (fst r) = iteration s.
Proof.
  intros Hon Hit Hlen Hbad. cbv zeta.
  rewrite (psy_start_err s ao ai cnt Hbad). cbn [fst].
  set (s1 := set_aitask false _).
  destruct (psy_fire_tick_all fmt3 round3 s1 e Hon Hit Hlen) as (v & Hv & ->).
  unfold tick_outcome, after_tick. cbn.
  split; [exact Hon|]. split; [reflexivity|]. split; [reflexivity|].
  split; [rewrite app_nil_r; reflexivity|].
  split; [|auto]. exists v. split; [|reflexivity].
  eapply list_elem_of_lookup_2. exact Hv.
Qed.

Lemma psy_rejected_start_breaks_run_witness :
  let s := fst (Psydaqgd.start_acquisition "Dev2/ao0" "Dev2/ai0" (Some 5%Z) Scenario.s_init) in
  snd (Psydaqgd.fire Scenario.fmt_z Scenario.round_z (Scenario.env_ok 20 250)
         (fst (Psydaqgd.start_acquisition "Dev2/ao0" "" (Some 5%Z) s))) = Err AttributeError.
Proof.
  cbv zeta.
  destruct (psy_rejected_start_breaks_run Scenario.fmt_z Scenario.round_z
              (fst (Psydaqgd.start_acquisition "Dev2/ao0" "Dev2/ai0" (Some 5%Z) Scenario.s_init))
              "Dev2/ao0" "" (Some 5%Z) (Scenario.env_ok 20 250))
    as (_ & H & _); [reflexivity|cbn; lia|cbn; lia|right; left; reflexivity|].
  exact H.
Defined.

(** X5.  In psydaqgd, a timer event never raises ValueError: while the
    timer runs the three series always have one length (a failing tick
    stops the timer, Start empties them all), so [np.column_stack] in
    [save_data_to_file] never meets ragged data. *)
Theorem psy_timer_no_value_error {V} (fmt3 : V -> string) (round3 : V -> V)
    (pts : list V) (fs : gmap string (list string)) (db : gmap string (sql_table V))
    (evs : list (Psydaqgd.ui_event V)) (e : fire_env V) :
  let s := Psydaqgd.run_events fmt3 round3 evs (init_app pts fs db) in
  (timer_active s = true ->
   length (deltat s) = length (aout s) /\ length (aout s) = length (ain s)) /\
  snd (Psydaqgd.fire fmt3 round3 e s) <> Err ValueError.
Proof.
  cbv zeta.
  assert (Hs : same_lengths (Psydaqgd.run_events fmt3 round3 evs (init_app pts fs db)))
    by (apply psy_run_events_same_lengths; intros _; split; reflexivity).
  split; [exact Hs|]. apply psy_fire_no_value_error, Hs.
Qed.

(** X6.  Starting from an archive whose [acquisition_data] table, if
    present, is declared with AUTOINCREMENT (as the program creates it) and
    has strictly increasing ids, every run of psydaqgd, with any presses
    and any answers of the driver and the sinks, keeps it so: its ids
    increase strictly in insertion order, hence are pairwise distinct. *)
Theorem psy_archive_ids_increase {V} (fmt3 : V -> string) (round3 : V -> V)
    (pts : list V) (fs : gmap string (list string)) (db : gmap string (sql_table V))
    (evs : list (Psydaqgd.ui_event V)) :
  archive_ids_ok Psydaqgd.db_table db = true ->
  let db' := database (Psydaqgd.run_events fmt3 round3 evs (init_app pts fs db)) in
  archive_ids_ok Psydaqgd.db_table db' = true /\
  table_ids_increasing Psydaqgd.db_table db' = true /\
  forall tb, db' !! Psydaqgd.db_table = Some tb -> NoDup (map row_id (tbl_rows tb)).
Proof.
  intros Hdb. cbv zeta.
  pose proof (psy_run_events_ids fmt3 round3 evs (init_app pts fs db) Hdb) as H.
  split; [exact H|].
  unfold archive_ids_ok, table_ids_increasing in *.
  destruct (database _ !! Psydaqgd.db_table) as [tb|] eqn:E; [|split; [reflexivity|discriminate]].
  apply andb_true_iff in H as [_ H]. split; [exact H|].
  intros tb' Htb'. injection Htb' as <-. apply ids_increasing_nodup, H.
Qed.

Lemma psy_archive_ids_increase_witness :
  let db : gmap string (sql_table Z) :=
    {[ Psydaqgd.db_table := mk_table acquisition_data_columns
         [mk_row 1 "2025-04-16 09:05:07" 20 250 250; mk_row 4 "2025-04-16 09:05:07" 40 265 266]%Z
         5%Z accept_all ]} in
  let s := Psydaqgd.run_events Scenario.fmt_z Scenario.round_z
             [Psydaqgd.EvStart "Dev2/ao0" "Dev2/ai0" (Some 1%Z);
              Psydaqgd.EvTimeout (Scenario.env_ok 20 250);
              Psydaqgd.EvTimeout (Scenario.env_ok 40 0)]
             (init_app [250; 265; 281]%Z ∅ db) in
  table_ids_increasing Psydaqgd.db_table (database s) = true.
Proof.
  cbv zeta.
  refine (proj1 (proj2 (psy_archive_ids_increase Scenario.fmt_z Scenario.round_z _ _ _ _ _))).
  reflexivity.
Defined.



(** X8.  When the CSV, the archive and the PNG export succeed, the event
    that completes a psydaqgd run stops the timer and uploads the PNG, then
    the CSV, both to the fixed Drive folder.  An upload that fails with an
    HttpError is swallowed by [upload_to_folder]: nothing is recorded for
    that file and the event still succeeds.  Any other failure of the PNG
    upload makes the event raise, and the CSV is then not uploaded. *)
Theorem psy_completion_uploads {V} (fmt3 : V -> string) (round3 : V -> V)
    (s : app V) (e : fire_env V) :
  timer_active s = true -> loop_count s <= iteration s ->
  length (deltat s) = length (aout s) -> length (aout s) = length (ain s) ->
  fe_csv_ok e = true -> fe_db_ok e = true ->
  Psydaqgd.insert_rows round3 (strftime_db (fe_db_now e)) (fe_db_random e)
    (zip3 (deltat s) (aout s) (ain s))
    (create_table_if_not_exists Psydaqgd.db_table acquisition_data_columns (database s))
    <> None ->
  fe_png_ok e = true ->
  let r := Psydaqgd.fire fmt3 round3 e s in
  timer_active (fst r) = false /\
  (fe_png_upload e <> UploadRaises -> fe_csv_upload e <> UploadRaises ->
     snd r = Ok tt /\
     uploads (fst r) = uploads s ++ uploaded (fe_png_upload e) (Psydaqgd.png_filename (fe_png_now e))
                                 ++ uploaded (fe_csv_upload e) (Psydaqgd.csv_filename (fe_csv_now e))) /\
  (fe_png_upload e = UploadRaises ->
     snd r = Err UploadError /\ uploads (fst r) = uploads s).
Proof.
  intros Hon Hle Hl1 Hl2 Hcsv Hdb Hins Hpng. cbv zeta.
  pose proof (psy_fire_complete fmt3 round3 s e Hon Hle)
    as (_ & _ & _ & _ & _ & _ & _ & _ & _ & Hoff & _ & _).
  split; [exact Hoff|].
  rewrite (psy_fire_complete_eq fmt3 round3) by assumption.
  destruct (Psydaqgd.insert_rows _ _ _ _ _) as [db1|] eqn:Hdb1 in Hins; [|congruence].
  pose proof (save_data_to_file_ok fmt3 round3 (set_timer_active false s) e db1
                Hl1 Hl2 Hcsv Hdb Hdb1) as Hsave.
  unfold completion. rewrite (bind_ok _ _ _ _ _ Hsave).
  pose proof (csv_not_png (fe_csv_now e) (fe_png_now e)) as N1.
  pose proof (csv_not_token (fe_csv_now e)) as N2.
  pose proof (png_not_token (fe_png_now e)) as N3.
  unfold Psydaqgd.save_plot_as_png, gd, gDrive_init, upload_to_folder,
    bind, get, ret, raise, modify. rewrite Hpng. cbn.
  destruct (fe_token_refresh e), (fe_png_upload e), (fe_csv_upload e); cbn;
    repeat (first [rewrite lookup_insert_eq | rewrite lookup_insert_ne by congruence]; cbn);
    repeat split; try congruence; rewrite ?app_nil_r, <- ?app_assoc; reflexivity.
Qed.

Lemma psy_completion_uploads_witness :
  let s := fst (Psydaqgd.fire_all Scenario.fmt_z Scenario.round_z [Scenario.env_ok 20 250]
                  (fst (Psydaqgd.start_acquisition "Dev2/ao0" "Dev2/ai0" (Some 1%Z)
                          Scenario.s_init))) in
  let e := mk_env true (Some 0%Z) 40%Z Scenario.t0 true Scenario.t0 true (fun _ => None) Scenario.t0 true
             UploadHttpError UploadOk true in
  snd (Psydaqgd.fire Scenario.fmt_z Scenario.round_z e s) = Ok tt.
Proof.
  cbv zeta.
  refine (proj1 (proj1 (proj2 (psy_completion_uploads Scenario.fmt_z Scenario.round_z _ _
                          _ _ _ _ _ _ _ _)) _ _)); vm_compute; try reflexivity; try lia;
    discriminate.
Defined.



(** X10.  In pysideaoai a driver fault does not end the acquisition:
    [update_plot] has no handler, so the timer keeps running and later
    events go on writing and reading, while [aout] stays one element longer
    than [ain].  The Stop that follows stops the timer and releases both
    tasks, but [np.column_stack] then raises ValueError and no file is
    written: the whole session is lost. *)
Theorem c_fault_loses_csv {V} (fmt3 : V -> string) (s : app V) (ao ai ao' ai' : string)
    (e0 ef e_stop : fire_env V) (es1 es2 : list (fire_env V)) :
  acquiring s = false -> ao <> "" -> ai <> "" -> 0 < length (aopoints s) ->
  Forall fault_free es1 -> Forall fault_free es2 ->
  (fe_write_ok ef = false \/ fe_read ef = None) ->
  let s' := Pysideaoai.run_events fmt3
              ([Pysideaoai.EvToggle ao ai e0] ++ map Pysideaoai.EvTimeout (es1 ++ [ef] ++ es2)) s in
  let r := Pysideaoai.toggle_acquisition fmt3 ao' ai' e_stop s' in
  timer_active s' = true /\ acquiring s' = true /\
  count_calls is_write (calls s') = count_calls is_write (calls s) + length es1 + 1 + length es2 /\
  length (aout s') = S (length (ain s')) /\
  snd r = Err ValueError /\ files (fst r) = files s /\
  calls (fst r) = calls s' ++ [CallStopTask AO; CallClearTask AO; CallStopTask AI; CallClearTask AI] /\
  timer_active (fst r) = false /\ acquiring (fst r) = false.
Proof.
  intros Hacq Hao Hai Hlen Hff1 Hff2 Hf. cbv zeta.
  rewrite c_run_events_app, !map_app, !c_run_events_app.
  cbn [Pysideaoai.run_events Pysideaoai.handle map].
  rewrite (c_start_ok fmt3 s ao ai e0 Hacq Hao Hai). cbn [fst].
  set (s1 := mk_app _ _ _ _ _ _ _ _ _ _ _ _ _ _ _).
  destruct (c_run_ticks fmt3 es1 s1) as (ws1 & rs1 & ci1 & Hws1 & Hrs1 & Hci1 & Hrun1);
    try (unfold s1; cbn; auto; lia).
  rewrite Hrun1. unfold s1 in Hws1, Hci1 |- *. cbn [aopoints current_index] in Hws1, Hci1.
  set (s2 := mk_app _ _ _ _ _ _ _ _ _ _ _ _ _ _ _).
  unfold Pysideaoai.handle.
  destruct (c_fire_tick_all s2 ef eq_refl ltac:(unfold s2; cbn; lia)) as (v & _ & Hft).
  assert (Htick : exists c3,
            Pysideaoai.fire ef s2 =
            (after_tick s2 (next_index s2) v (iteration s2) (deltat s2) (ain s2) true c3,
             Err HardwareFault) /\ count_calls is_write c3 = 1).
  { rewrite Hft. unfold tick_outcome. cbn [aotask aitask s2].
    destruct Hf as [Hw|Hr].
    - rewrite Hw. eexists. split; reflexivity.
    - rewrite Hr. destruct (fe_write_ok ef); eexists; split; reflexivity. }
  destruct Htick as (c3 & Hft' & Hc3). rewrite Hft'. cbn [fst].
  set (s3 := after_tick s2 (next_index s2) v (iteration s2) (deltat s2) (ain s2) true c3).
  pose proof (next_index_lt s2 ltac:(unfold s2; cbn; lia)) as Hlt.
  destruct (c_run_ticks fmt3 es2 s3) as (ws2 & rs2 & ci2 & Hws2 & Hrs2 & _ & Hrun2);
    try (unfold s3, s2, after_tick in *; cbn in *; auto; lia).
  rewrite Hrun2.
  pose proof (length_cycle ws1 _ _ Hws1) as Hlw1. pose proof (length_reads rs1 es1 Hrs1) as Hlr1.
  pose proof (length_cycle ws2 _ _ Hws2) as Hlw2. pose proof (length_reads rs2 es2 Hrs2) as Hlr2.
  set (s4 := mk_app _ _ _ _ _ _ _ _ _ _ _ _ _ _ _).
  rewrite (c_toggle_stops fmt3) by reflexivity.
  rewrite (c_stop_ragged fmt3 s4 e_stop eq_refl eq_refl).
  2:{ unfold s4, s3, s2, after_tick. cbn. rewrite !length_app, !length_map. cbn. lia. }
  unfold s4, s3, s2, after_tick, release_all. cbn -[count_calls].
  rewrite !length_app, !count_calls_app.
  destruct (count_pairs ws1) as (Hp1 & _ & _). destruct (count_pairs ws2) as (Hp2 & _ & _).
  rewrite Hp1, Hp2, Hc3. cbn. repeat split; lia.
Qed.

Lemma c_fault_loses_csv_witness :
  let s' := Pysideaoai.run_events Scenario.fmt_z
              ([Pysideaoai.EvToggle "Dev2/ao0" "Dev2/ai0" (Scenario.env_ok 0 0)] ++
               map Pysideaoai.EvTimeout
                 ([Scenario.env_ok 20 250] ++ [Scenario.env_read_fault 40] ++
                  [Scenario.env_ok 60 281])) Scenario.s_init in
  snd (Pysideaoai.toggle_acquisition Scenario.fmt_z "Dev2/ao0" "Dev2/ai0"
         (Scenario.env_ok 80 0) s') = Err ValueError.
Proof.
  cbv zeta.
  destruct (c_fault_loses_csv Scenario.fmt_z Scenario.s_init "Dev2/ao0" "Dev2/ai0"
              "Dev2/ao0" "Dev2/ai0" (Scenario.env_ok 0 0) (Scenario.env_read_fault 40)
              (Scenario.env_ok 80 0) [Scenario.env_ok 20 250] [Scenario.env_ok 60 281])
    as (_ & _ & _ & _ & H & _);
    [reflexivity|discriminate|discriminate|cbn; lia|fault_free_list|fault_free_list
    |right; reflexivity|].
  exact H.
Defined.



(** X12.  The file names of psydaqgd and pysideaoai are one-to-one in the
    clock reading: two CSV (or PNG) files written at different seconds get
    different names, for every date [strftime] prints with its field widths
    (years up to 9999). *)
Theorem filenames_inj (d1 d2 : datetime) :
  dt_in_range d1 -> dt_in_range d2 ->
  (Psydaqgd.csv_filename d1 = Psydaqgd.csv_filename d2 -> d1 = d2) /\
  (Psydaqgd.png_filename d1 = Psydaqgd.png_filename d2 -> d1 = d2) /\
  (Pysideaoai.csv_filename d1 = Pysideaoai.csv_filename d2 -> d1 = d2).
Proof.
  intros H1 H2.
  split; [|split]; intros H; exact (stamped_name_inj _ _ d1 d2 H1 H2 H).
Qed.

Lemma filenames_inj_witness :
  Psydaqgd.csv_filename (mk_datetime 2025 1 31 23 59 59) <>
  Psydaqgd.csv_filename (mk_datetime 2025 1 31 23 59 58).
Proof.
  intros H.
  pose proof (proj1 (filenames_inj (mk_datetime 2025 1 31 23 59 59) (mk_datetime 2025 1 31 23 59 58)
                ltac:(unfold dt_in_range; cbn; lia) ltac:(unfold dt_in_range; cbn; lia)) H) as E.
  discriminate E.
Defined.

(** X13.  pysideaoai's autoscale buttons: with no data the axis is left
    alone (the message branch); otherwise the range passed to
    [setYRange] ([setXRange]) goes from a smallest to a largest of the
    acquired inputs (elapsed times): both ends are data values and every
    value lies between them. *)
Theorem autoscale_covers (s : app Q) :
  (Autoscale.autoscale_y_axis s = None <-> ain s = []) /\
  (forall lo hi, Autoscale.autoscale_y_axis s = Some (lo, hi) ->
     In lo (ain s) /\ In hi (ain s) /\ Forall (fun x => lo <= x /\ x <= hi)%Q (ain s)) /\
  (Autoscale.autoscale_x_axis s = None <-> deltat s = []) /\
  (forall lo hi, Autoscale.autoscale_x_axis s = Some (lo, hi) ->
     In lo (deltat s) /\ In hi (deltat s) /\ Forall (fun x => lo <= x /\ x <= hi)%Q (deltat s)).
Proof.
  unfold Autoscale.autoscale_y_axis, Autoscale.autoscale_x_axis.
  destruct (autoscale_range_spec (ain s)) as [Hy1 Hy2].
  destruct (autoscale_range_spec (deltat s)) as [Hx1 Hx2].
  split; [exact Hy1|split; [exact Hy2|split; [exact Hx1|exact Hx2]]].
Qed.

(** X14.  niusb6009aib: while a task is bound and the timer runs, each
    timeout reads one sample from that task and keeps the newest ones.  The
    plotted buffer becomes the last [max(len d, min(len d + n,
    max_data_points))] values of the old buffer [d] followed by the [n]
    samples.  It grows up to [max_data_points] and then slides; a buffer
    already longer than [max_data_points] (left over from a run with a larger
    window, as Start does not clear it) is never shortened. *)
Theorem ai_window {V} (s : Usb6009Ai.gui V) (h : nat) (rs : list V) :
  Usb6009Ai.task s = Some h -> Usb6009Ai.timer_on s = true ->
  let s' := Usb6009Ai.run_events (map (fun r => Usb6009Ai.EvTimeout (Some r)) rs) s in
  Usb6009Ai.data s' =
    Usb6009.lastn (Nat.max (length (Usb6009Ai.data s))
                     (Nat.min (length (Usb6009Ai.data s) + length rs)
                        (Z.to_nat (Usb6009Ai.max_data_points s))))
      (Usb6009Ai.data s ++ rs) /\
  Usb6009Ai.trace s' = Usb6009Ai.trace s ++ repeat (Usb6009.URead h) (length rs) /\
  Usb6009Ai.task s' = Some h /\ Usb6009Ai.timer_on s' = true.
Proof.
  intros Ht Hon. cbv zeta. rewrite (ai_ticks rs s h Ht Hon). cbn.
  rewrite push_windows. repeat split.
Qed.

Lemma ai_window_witness :
  Usb6009Ai.data
    (Usb6009Ai.run_events (map (fun r => Usb6009Ai.EvTimeout (Some r)) [1; 2; 3; 4; 5]%Z)
       (Usb6009Ai.run_events [Usb6009Ai.EvStart (Usb6009.FloatOf (3 # 10)) true true]
          Usb6009Ai.init)) = [3; 4; 5]%Z.
Proof.
  destruct (ai_window (Usb6009Ai.run_events [Usb6009Ai.EvStart (Usb6009.FloatOf (3 # 10)) true true]
                         Usb6009Ai.init) 0 [1; 2; 3; 4; 5]%Z) as (H & _);
    [vm_compute; reflexivity|vm_compute; reflexivity|].
  rewrite H. vm_compute. reflexivity.
Defined.

(** X15.  niusb6009aoaib: while both tasks are bound, the rate is non-zero
    and the timer runs, each timeout writes the next sine sample
    [2 sin(2 pi 10 phase / rate) + 2.5] to the output task and then reads
    the input task; the phase goes up by one per tick and the plotted buffer
    keeps the last [max(len d, min(len d + n, max_data_points))] values. *)
Theorem aoai_window {V} (s : Usb6009AoAi.gui V) (hi ho : nat) (rs : list V) :
  Usb6009AoAi.input_task s = Some hi -> Usb6009AoAi.output_task s = Some ho ->
  Qeq_bool (Usb6009AoAi.sampling_rate s) 0 = false -> Usb6009AoAi.timer_on s = true ->
  let s' := Usb6009AoAi.run_events (map (fun r => Usb6009AoAi.EvTimeout true (Some r)) rs) s in
  Usb6009AoAi.data s' =
    Usb6009.lastn (Nat.max (length (Usb6009AoAi.data s))
                     (Nat.min (length (Usb6009AoAi.data s) + length rs)
                        (Z.to_nat (Usb6009AoAi.max_data_points s))))
      (Usb6009AoAi.data s ++ rs) /\
  Usb6009AoAi.sine_wave_phase s' = Usb6009AoAi.sine_wave_phase s + length rs /\
  Usb6009AoAi.trace s' =
    Usb6009AoAi.trace s ++
    concat (map (fun j => [Usb6009.UWrite ho (Usb6009AoAi.shifted_sample
                             (Usb6009AoAi.sampling_rate s) (Usb6009AoAi.sine_wave_phase s + j));
                           Usb6009.URead hi]) (seq 0 (length rs))).
Proof.
  intros Hi Ho Hq Hon. cbv zeta. rewrite (aoai_ticks rs s hi ho Hi Ho Hq Hon). cbn.
  rewrite push_windows. repeat split.
Qed.

Lemma aoai_window_witness :
  Usb6009AoAi.data
    (Usb6009AoAi.run_events (map (fun r => Usb6009AoAi.EvTimeout true (Some r)) [1; 2; 3]%Z)
       (Usb6009AoAi.run_events [Usb6009AoAi.EvStart (Usb6009.FloatOf (2 # 5)) true true true]
          Usb6009AoAi.init)) = [2; 3]%Z.
Proof.
  destruct (aoai_window (Usb6009AoAi.run_events
                           [Usb6009AoAi.EvStart (Usb6009.FloatOf (2 # 5)) true true true]
                           Usb6009AoAi.init) 1 0 [1; 2; 3]%Z) as (H & _);
    [vm_compute; reflexivity|vm_compute; reflexivity|vm_compute; reflexivity
    |vm_compute; reflexivity|].
  rewrite H. vm_compute. reflexivity.
Defined.

(** X16.  niusb6009aoaib never writes a value outside [0.5 V, 4.5 V], so
    it stays inside the range [0.0, 5.0] its output channel declares: every
    write of every run, whatever the user does and whatever the driver
    answers, is a sample [2 sin(...) + 2.5]. *)
Theorem aoai_writes_in_range {V} (evs : list (Usb6009AoAi.event (V:=V))) :
  Forall (fun v => 1/2 <= v <= 9/2)%R
    (Usb6009.writes (Usb6009AoAi.trace (Usb6009AoAi.run_events evs Usb6009AoAi.init))).
Proof. apply aoai_run_writes. constructor. Qed.

(** X17.  niusb6009aoaib manages its tasks correctly in every run, failed
    starts included.  A Start first stops and closes the bound tasks, and
    every driver call goes to a task that is open.  The tasks open at any
    time are exactly the bound ones, output first.  Once the window closes,
    every task ever created has been closed exactly once. *)
Theorem aoai_task_lifecycle {V} (evs : list (Usb6009AoAi.event (V:=V))) :
  let s := Usb6009AoAi.run_events evs Usb6009AoAi.init in
  Usb6009.replay 0 [] (Usb6009AoAi.trace s) =
    Some (Usb6009AoAi.tasks_made s,
          Usb6009.opt_list (Usb6009AoAi.output_task s) ++ Usb6009.opt_list (Usb6009AoAi.input_task s)) /\
  Usb6009.replay 0 []
    (Usb6009AoAi.trace (Usb6009AoAi.run_events (evs ++ [Usb6009AoAi.EvClose]) Usb6009AoAi.init)) =
    Some (Usb6009AoAi.tasks_made s, []).
Proof.
  cbv zeta. pose proof (aoai_run_inv evs _ aoai_inv_init) as (H & _).
  split; [exact H|].
  rewrite aoai_run_app. cbn [Usb6009AoAi.run_events Usb6009AoAi.handle].
  set (s := Usb6009AoAi.run_events evs Usb6009AoAi.init) in *.
  pose proof (aoai_handle_inv Usb6009AoAi.EvClose s (aoai_run_inv evs _ aoai_inv_init)) as (H' & _).
  cbn [Usb6009AoAi.handle] in H'. unfold aoai_open in H'.
  destruct (aoai_stop_fields s) as (Hi & Ho & Hk). rewrite Hi, Ho, Hk in H'. exact H'.
Qed.

(** X18.  niusb6009aib, a Start whose rate field does not give a finite
    number ([float()] raises ValueError, or [int()] of an infinite or NaN
    window raises OverflowError or ValueError): [start_acquisition] closes
    the task it held (which stays bound) and raises before creating a new
    one.  The script installs no [sys.excepthook], so PyQt5 aborts the
    process there: whatever events follow, none is handled, and the panel
    ends in that state. *)
Theorem ai_bad_rate_aborts {V} (s : Usb6009Ai.gui V) (rate : Usb6009.float_text)
    (chan_ok timing_ok : bool) (evs : list (@Usb6009Ai.event V)) :
  rate = Usb6009.NotAFloat \/ rate = Usb6009.FloatNan \/ rate = Usb6009.FloatInf ->
  let s1 := match Usb6009Ai.task s with
            | Some h => Usb6009Ai.log (Usb6009.UClose h) s
            | None => s
            end in
  (exists x, Usb6009.window_points 10 rate = inr x /\
             Usb6009Ai.start_acquisition rate chan_ok timing_ok s = (s1, Some x)) /\
  Usb6009Ai.run_events (Usb6009Ai.EvStart rate chan_ok timing_ok :: evs) s = s1 /\
  Usb6009Ai.task s1 = Usb6009Ai.task s /\ Usb6009Ai.timer_on s1 = Usb6009Ai.timer_on s.
Proof.
  intros Hr. cbv zeta.
  assert (H : exists x, Usb6009.window_points 10 rate = inr x /\
              Usb6009Ai.start_acquisition rate chan_ok timing_ok s =
              (match Usb6009Ai.task s with
               | Some h => Usb6009Ai.log (Usb6009.UClose h) s
               | None => s
               end, Some x)).
  { unfold Usb6009Ai.start_acquisition.
    destruct Hr as [-> | [-> | ->]]; eexists; (split; [reflexivity|]);
      destruct (Usb6009Ai.task s); reflexivity. }
  split; [exact H|]. destruct H as (x & _ & H). split.
  - cbn [Usb6009Ai.run_events Usb6009Ai.handle]. rewrite H. reflexivity.
  - destruct s as [t on d m k tr]; cbn; destruct t; split; reflexivity.
Qed.

Lemma ai_bad_rate_aborts_witness :
  let s := Usb6009Ai.run_events [Usb6009Ai.EvStart (Usb6009.FloatOf (60 # 1)) true true;
                                 Usb6009Ai.EvStop]
             (@Usb6009Ai.init Z) in
  Usb6009Ai.run_events [Usb6009Ai.EvStart Usb6009.NotAFloat true true;
                        Usb6009Ai.EvTimeout (Some 7%Z); Usb6009Ai.EvStop] s = s.
Proof.
  cbv zeta.
  destruct (ai_bad_rate_aborts
              (Usb6009Ai.run_events [Usb6009Ai.EvStart (Usb6009.FloatOf (60 # 1)) true true;
                                     Usb6009Ai.EvStop] (@Usb6009Ai.init Z))
              Usb6009.NotAFloat true true
              [Usb6009Ai.EvTimeout (Some 7%Z); Usb6009Ai.EvStop])
    as (_ & H & _); [left; reflexivity|].
  rewrite H. vm_compute. reflexivity.
Defined.
